(** * Telemetry assembly and session fallback: a model of [src/main.py]

    The development embeds the two functions of [src/main.py],
    [_lap_has_drs_activation] and [main], and states the pipeline's
    properties about them.

    Python values are modelled by what the code observes of them: the
    samples of a telemetry channel are Python scalars, a telemetry table is
    a finite map from channel names to channels, and the objects handed out
    by the data source (sessions, lap collections, laps) are records of the
    results of the methods [main] calls on them.  Every call into a
    collaborator either returns or raises, so it is a [result].  Logging
    and the calls to the collaborators are recorded, in order, in a trace;
    the uses the code makes of a telemetry table (membership tests and
    subscripts) are recorded where it makes them. *)

From Stdlib Require Import ZArith Ascii String Floats.PrimFloat Floats.SpecFloat Floats.FloatOps.
From stdpp Require Import base option list gmap strings.

Open Scope string_scope.
Open Scope Z_scope.
Open Scope list_scope.

(** ** Exceptions and results *)

(** The instances of Python's [Exception] the code can meet.  The class is
    what an [except] clause tests; the payload only travels into a log
    line. *)
Inductive exn : Type :=
| TypeError
| ValueError
| OverflowError
| AttributeError
| KeyError (key : string)
| OtherError (msg : string).

Inductive result (A : Type) : Type :=
| Ok (a : A)
| Err (e : exn).
Arguments Ok {A} a.
Arguments Err {A} e.

#[global] Instance result_ret : MRet result := fun A a => Ok a.
#[global] Instance result_bind : MBind result := fun A B f m =>
  match m with
  | Ok a => f a
  | Err e => Err e
  end.

(** ** Python scalars and the builtin [float] *)

(** What a cell of a channel may hold: an [int] (unbounded), a [float]
    (an IEEE 754 double), a [str], [None] or a [bool]. *)
Inductive PyVal : Type :=
| VInt (z : Z)
| VFloat (x : float)
| VStr (s : string)
| VNone
| VBool (b : bool).

(** [float(n)] for an [int]: the nearest double, ties to even;
    [OverflowError] when that is out of the doubles' range. *)
Definition int_to_float (z : Z) : result float :=
  match binary_normalize prec emax z 0 false with
  | S754_infinity _ => Err OverflowError
  | sf => Ok (SF2Prim sf)
  end.

(** ** Telemetry *)

(** A channel is a column of the telemetry table.  [to_numpy] hands out
    its cells or raises; [series_max] is the column's [max()]. *)
Record Channel : Type := mkChannel {
  to_numpy : result (list PyVal);
  series_max : result PyVal
}.

(** A telemetry table: its columns by name. *)
Definition Telemetry : Type := gmap string Channel.

(** ["k" in telemetry] *)
Definition contains (telemetry : Telemetry) (k : string) : bool :=
  bool_decide (is_Some (telemetry !! k)).

(** [telemetry["k"]]: [KeyError] on a missing column. *)
Definition getitem (telemetry : Telemetry) (k : string) : result Channel :=
  match telemetry !! k with
  | Some ch => Ok ch
  | None => Err (KeyError k)
  end.

(** The uses of a telemetry table: the membership test ["k" in telemetry]
    and the subscript [telemetry["k"]]. *)
Inductive access : Type :=
| Probe (k : string)
| Index (k : string).

(** A piece of code that uses a telemetry table: the uses it makes, in
    order, and its value. *)
Definition Reads (A : Type) : Type := list access * A.

#[global] Instance reads_ret : MRet Reads := fun A a => ([], a).
#[global] Instance reads_bind : MBind Reads := fun A B f m =>
  let '(uses, a) := m in let '(uses', b) := f a in (uses ++ uses', b).

Definition probe (telemetry : Telemetry) (k : string) : Reads bool :=
  ([Probe k], contains telemetry k).

Definition index (telemetry : Telemetry) (k : string) : Reads (result Channel) :=
  ([Index k], getitem telemetry k).

(** The uses are guarded: each subscript comes after a membership test
    of the same channel, and names a channel the table has. *)
Definition guarded (lap_telemetry : option Telemetry) (uses : list access) : Prop :=
  forall before k after,
    uses = before ++ Index k :: after ->
    Probe k ∈ before /\
    exists telemetry, lap_telemetry = Some telemetry /\ is_Some (telemetry !! k).

(** ** The data source's objects *)

(** A lap: what the subscript [lap['Driver']] does (it returns the
    driver's code, or raises as a subscript does on a row without that
    field) and what [lap.get_telemetry()] does. *)
Record Lap : Type := mkLap {
  Driver : result string;
  get_telemetry : result (option Telemetry)
}.

(** A lap collection: [len(laps)] and what [laps.pick_fastest()] does. *)
Record Laps : Type := mkLaps {
  laps_len : nat;
  pick_fastest : result (option Lap)
}.

(** A field of the event descriptor. *)
Inductive EventVal : Type :=
| EText (s : string)
| ENumber (z : Z)
| ETimestamp (y m d : Z)
| ENone.

(** A session: its event descriptor, and what reading [session.laps] and
    [session.drivers] does (both raise while the data is not loaded). *)
Record Session : Type := mkSession {
  event : gmap string EventVal;
  laps : result Laps;
  drivers : result (list string)
}.

(** An object the pipeline only passes on (frames, colours, ...). *)
Inductive Handle : Type := Ref (id : positive).

(** Modelled from the spec: the dataset [get_race_telemetry] returns (the
    function lives outside [main.py]).  It is the TelemetryBundle of a
    race, with the four entries [main] reads from it. *)
Record RaceTelemetry : Type := mkRaceTelemetry {
  frames : Handle;
  track_statuses : Handle;
  driver_colors : Handle;
  total_laps : Z
}.

(** [session.event['k']] *)
Definition event_getitem (session : Session) (k : string) : result EventVal :=
  match event session !! k with
  | Some v => Ok v
  | None => Err (KeyError k)
  end.

(** [session.event.get('k', default)] *)
Definition event_get (session : Session) (k : string) (fallback : EventVal) : EventVal :=
  default fallback (event session !! k).

(** Python's truth value of an event field. *)
Definition truthy (v : EventVal) : bool :=
  match v with
  | EText s => negb (bool_decide (s = ""))
  | ENumber z => negb (Z.eqb z 0)
  | ETimestamp _ _ _ => true
  | ENone => false
  end.

(** The text of the banner's date: a timestamp rendered by
    [strftime('%B %d, %Y')], or the empty string. *)
Inductive DateText : Type :=
| DateFormatted (y m d : Z)
| DateEmpty.

(** [v.strftime('%B %d, %Y')]: only a timestamp has the method. *)
Definition strftime (v : EventVal) : result DateText :=
  match v with
  | ETimestamp y m d => Ok (DateFormatted y m d)
  | _ => Err AttributeError
  end.

(** The banner record built on lines 126-135. *)
Record SessionInfo : Type := mkSessionInfo {
  si_event_name : EventVal;
  si_circuit_name : EventVal;
  si_country : EventVal;
  si_year : option Z;
  si_round : option Z;
  si_date : DateText;
  si_total_laps : Z;
  si_circuit_length_m : option float
}.

(** A replay window's title: the event name and the kind of session. *)
Record Title : Type := mkTitle {
  title_event : EventVal;
  title_kind : string
}.

(** The keyword arguments of [run_qualifying_replay]. *)
Record QualifyingReplayArgs : Type := mkQualifyingReplayArgs {
  qr_session : Session;
  qr_data : Handle;
  qr_title : Title;
  qr_ready_file : option string
}.

(** The keyword arguments of [run_arcade_replay]. *)
Record ArcadeReplayArgs : Type := mkArcadeReplayArgs {
  ar_frames : Handle;
  ar_track_statuses : Handle;
  ar_example_lap : option Telemetry;
  ar_drivers : list string;
  ar_playback_speed : Z;
  ar_driver_colors : Handle;
  ar_title : Title;
  ar_total_laps : Z;
  ar_circuit_rotation : Handle;
  ar_visible_hud : bool;
  ar_ready_file : option string;
  ar_session_info : SessionInfo;
  ar_session : Session;
  ar_enable_telemetry : bool
}.

(** The functions [main] imports.  [load_session] may hand out [None]
    (the code tests for it). *)
Record Collaborators : Type := mkCollaborators {
  enable_cache : result unit;
  load_session : option Z -> option Z -> string -> result (option Session);
  get_quali_telemetry : Session -> string -> result Handle;
  get_race_telemetry : Session -> string -> result RaceTelemetry;
  get_circuit_rotation : Session -> result Handle;
  launch_insights_menu : result unit;
  run_qualifying_replay : QualifyingReplayArgs -> result unit;
  run_arcade_replay : ArcadeReplayArgs -> result unit
}.

(** ** The trace *)

(** The log lines of [main], by template; the clock readings of
    [_timestamp] and [_log_step] are left out. *)
Inductive log_msg : Type :=
| MsgLoading (year round_number : option Z) (session_type : string)
| MsgCacheInitialized
| MsgLoadedSession (event_name round_number : EventVal) (session_type : string)
| MsgPreparedQualifying
| MsgPreparedRace
| MsgNoValidLaps
| MsgUsingRaceLap (driver : string)
| MsgRaceLapLacksDrs
| MsgLoadedQualifyingSession
| MsgUsingQualifyingLap (driver : string)
| MsgCouldNotLoadQualifying (e : exn)
| MsgTrackLayoutPrepared
| MsgLaunchingInsights
| MsgSessionReady.

(** The calls that leave [main]. *)
Inductive call_event : Type :=
| CallEnableCache
| CallLoadSession (year round_number : option Z) (session_type : string)
| CallGetQualiTelemetry (session_type : string)
| CallGetRaceTelemetry (session_type : string)
| CallPickFastest (session_type : string)
| CallGetTelemetry (lap : Lap)
| CallGetCircuitRotation
| CallLaunchInsightsMenu
| CallRunQualifyingReplay (args : QualifyingReplayArgs)
| CallRunArcadeReplay (args : ArcadeReplayArgs).

(** What a run leaves in its trace: its log lines, its calls, and the
    adoption of the qualifying lap, the assignment of line 112. *)
Inductive event_record : Type :=
| EvLog (m : log_msg)
| EvLogStep (m : log_msg)
| EvCall (c : call_event)
| EvAdoptQualifyingLap.

Definition Trace : Type := list event_record.

(** ** Computations: a trace and how the code ended *)

Definition Comp (A : Type) : Type := Trace * result A.

#[global] Instance comp_ret : MRet Comp := fun A a => ([], Ok a).
#[global] Instance comp_bind : MBind Comp := fun A B f m =>
  match m with
  | (t, Ok a) => let '(t', r) := f a in (t ++ t', r)
  | (t, Err e) => (t, Err e)
  end.

(** A pure step that may raise. *)
Definition lift {A : Type} (r : result A) : Comp A := ([], r).

(** [_log(message)] and [_log_step(message, started_at)] *)
Definition _log (m : log_msg) : Comp unit := ([EvLog m], Ok tt).
Definition _log_step (m : log_msg) : Comp unit := ([EvLogStep m], Ok tt).

(** A call to a collaborator: recorded, then it returns or raises. *)
Definition call {A : Type} (c : call_event) (r : result A) : Comp A := ([EvCall c], r).

(** Attribute access on a value that may be [None]. *)
Definition not_none {A : Type} (o : option A) : result A :=
  match o with
  | Some a => Ok a
  | None => Err AttributeError
  end.

(** ** Blocks that assign [example_lap]

    The body of the [try] of lines 102-115 assigns the local variable
    [example_lap] and can raise after it has done so.  A block is run from
    a value of the variable and gives its trace, the value the variable
    has when the block ends, and how the block ended. *)
Definition Block (A : Type) : Type :=
  option Telemetry -> Trace * (option Telemetry * result A).

#[global] Instance block_ret : MRet Block := fun A a example_lap =>
  ([], (example_lap, Ok a)).
#[global] Instance block_bind : MBind Block := fun A B f m example_lap =>
  match m example_lap with
  | (t, (example_lap, Ok a)) =>
      let '(t', end_of_block) := f a example_lap in (t ++ t', end_of_block)
  | (t, (example_lap, Err e)) => (t, (example_lap, Err e))
  end.

(** A statement that does not assign the variable. *)
Definition in_block {A : Type} (m : Comp A) : Block A := fun example_lap =>
  (m.1, (example_lap, m.2)).

(** [example_lap = quali_telemetry] (line 112), recorded in the trace. *)
Definition adopt_qualifying_lap (quali_telemetry : option Telemetry) : Block unit :=
  fun _ => ([EvAdoptQualifyingLap], (quali_telemetry, Ok tt)).

(** [try: body / except Exception as e: handler e], for a body that
    assigns [example_lap] and a handler that does not: what follows sees
    the value the variable had when the body ended, by an exception or
    not. *)
Definition try_except_block (body : Block unit) (handler : exn -> Comp unit)
    (example_lap : option Telemetry) : Comp (option Telemetry) :=
  match body example_lap with
  | (t, (example_lap, Ok _)) => (t, Ok example_lap)
  | (t, (example_lap, Err e)) =>
      let '(t', handled) := handler e in
      (t ++ t', match handled with
                | Ok _ => Ok example_lap
                | Err e' => Err e'
                end)
  end.

(** ** What a trace shows *)

(** The stages of the orchestrator.  Each is marked in the trace by the
    [_log_step] line that closes it. *)
Inductive Stage : Type :=
| SessionLoaded
| LayoutResolved
| TelemetryAssembled
| Ready.

Definition stage_of (e : event_record) : option Stage :=
  match e with
  | EvLogStep (MsgLoadedSession _ _ _) => Some SessionLoaded
  | EvLogStep MsgPreparedRace => Some TelemetryAssembled
  | EvLogStep MsgPreparedQualifying => Some TelemetryAssembled
  | EvLogStep MsgTrackLayoutPrepared => Some LayoutResolved
  | EvLogStep MsgSessionReady => Some Ready
  | _ => None
  end.

Definition stages (t : Trace) : list Stage := omap stage_of t.

(** [a] occurs, and later [b] occurs. *)
Definition occurs_before (a b : Stage) (l : list Stage) : Prop :=
  exists l1 l2 l3, l = l1 ++ a :: l2 ++ b :: l3.

(** The sessions a run asked the data source for, in order. *)
Definition load_of (e : event_record) : option (option Z * option Z * string) :=
  match e with
  | EvCall (CallLoadSession y r st) => Some (y, r, st)
  | _ => None
  end.

Definition session_loads (t : Trace) : list (option Z * option Z * string) :=
  omap load_of t.

(** The steps of layout selection: picking a fastest lap, reading a lap's
    telemetry. *)
Definition is_layout_call (e : event_record) : bool :=
  match e with
  | EvCall (CallPickFastest _) => true
  | EvCall (CallGetTelemetry _) => true
  | _ => false
  end.

Definition layout_calls (t : Trace) : list event_record := List.filter is_layout_call t.

(** The calls that assemble the dataset of a run. *)
Definition is_dataset_call (e : event_record) : bool :=
  match e with
  | EvCall (CallGetRaceTelemetry _) => true
  | EvCall (CallGetQualiTelemetry _) => true
  | _ => false
  end.

(** The dataset and layout calls of a run, in the order they were made. *)
Definition dataset_and_layout_calls (t : Trace) : list event_record :=
  List.filter (fun e => is_dataset_call e || is_layout_call e) t.

(** The selector's [fallback_used]: the qualifying lap was adopted, by
    the assignment of line 112. *)
Definition is_qualifying_adoption (e : event_record) : bool :=
  match e with
  | EvAdoptQualifyingLap => true
  | _ => false
  end.

Definition fallback_used (t : Trace) : bool := existsb is_qualifying_adoption t.

(** What reached the replay: the arguments of each [run_arcade_replay]. *)
Definition arcade_of (e : event_record) : option ArcadeReplayArgs :=
  match e with
  | EvCall (CallRunArcadeReplay args) => Some args
  | _ => None
  end.

Definition handed_off (t : Trace) : list ArcadeReplayArgs := omap arcade_of t.

Definition qualifying_of (e : event_record) : option QualifyingReplayArgs :=
  match e with
  | EvCall (CallRunQualifyingReplay args) => Some args
  | _ => None
  end.

Definition handed_off_qualifying (t : Trace) : list QualifyingReplayArgs :=
  omap qualifying_of t.

(** The log line of the [except] clause, when the body of the [try]
    raised. *)
Definition except_trace {A : Type} (r : result A) : Trace :=
  match r with
  | Ok _ => []
  | Err e => [EvLog (MsgCouldNotLoadQualifying e)]
  end.

(** The fixed opening of every run up to the loaded session (lines
    45-57). *)
Definition opening (year round_number : option Z) (session_type : string)
    (session : Session) (event_name event_round : EventVal) : Trace :=
  [ EvLog (MsgLoading year round_number session_type);
    EvCall CallEnableCache;
    EvLogStep MsgCacheInitialized;
    EvCall (CallLoadSession year round_number session_type);
    EvLogStep (MsgLoadedSession event_name event_round session_type) ].

(** The threshold of [float(value) >= 10]: comparing a double with the
    [int] 10 is comparing it with the double 10.0. *)
Definition drs_threshold : float := 10%float.

Section Builtins.

(** [float(s)] for a [str] is CPython's parser: the double it reads, or
    [None] where it raises [ValueError].  The pipeline does not depend on
    which strings parse, so the parser is a parameter. *)
Variable str_to_float : string -> option float.

Definition py_float (value : PyVal) : result float :=
  match value with
  | VInt z => int_to_float z
  | VFloat x => Ok x
  | VBool b => Ok (if b then 1%float else 0%float)
  | VStr s =>
      match str_to_float s with
      | Some x => Ok x
      | None => Err ValueError
      end
  | VNone => Err TypeError
  end.

(** ** The signal inspector *)

(** The loop of lines 34-40: the first sample whose [float] is at least
    10 ends the scan with [True]; a sample whose conversion raises
    [TypeError] or [ValueError] is skipped; any other exception leaves
    the function. *)
Fixpoint scan_drs (drs_values : list PyVal) : result bool :=
  match drs_values with
  | [] => Ok false
  | value :: rest =>
      match py_float value with
      | Ok x => if PrimFloat.leb drs_threshold x then Ok true else scan_drs rest
      | Err TypeError | Err ValueError => scan_drs rest
      | Err e => Err e
      end
  end.

(** Lines 25-40, with the uses of the table recorded: the membership
    test of line 26 and the subscript of line 30. *)
Definition lap_has_drs_activation_reads (lap_telemetry : option Telemetry)
    : Reads (result bool) :=
  match lap_telemetry with
  | None => mret (Ok false)
  | Some telemetry =>
      present ← probe telemetry "DRS";
      if negb present then mret (Ok false)
      else
        column ← index telemetry "DRS";
        mret match column ≫= to_numpy with
             | Err _ => Ok false
             | Ok drs_values => scan_drs drs_values
             end
  end.

(** What the function returns or raises. *)
Definition _lap_has_drs_activation (lap_telemetry : option Telemetry) : result bool :=
  (lap_has_drs_activation_reads lap_telemetry).2.

(** The samples the scan reads: the cells of the DRS column, when the
    table is there, has the column, and [to_numpy] hands them out. *)
Definition drs_samples (lap_telemetry : option Telemetry) : option (list PyVal) :=
  match lap_telemetry with
  | None => None
  | Some telemetry =>
      match telemetry !! "DRS" with
      | None => None
      | Some ch =>
          match to_numpy ch with
          | Ok drs_values => Some drs_values
          | Err _ => None
          end
      end
  end.

(** A sample is an activation when [float] reads it as a number that is
    at least 10. *)
Definition activates (value : PyVal) : Prop :=
  exists x, py_float value = Ok x /\ PrimFloat.leb drs_threshold x = true.

Definition activatesb (value : PyVal) : bool :=
  match py_float value with
  | Ok x => PrimFloat.leb drs_threshold x
  | Err _ => false
  end.

(** A sample the scan skips as not a number: its conversion raises
    [TypeError] or [ValueError]. *)
Definition unparseable (value : PyVal) : Prop :=
  py_float value = Err TypeError \/ py_float value = Err ValueError.

(** A sample whose conversion ends in one of the ways the loop provides
    for: a number, [TypeError] or [ValueError]. *)
Definition convertible (value : PyVal) : Prop :=
  (exists x, py_float value = Ok x) \/ unparseable value.

(** Every sample the scan can read converts or is skipped. *)
Definition samples_convertible (lap_telemetry : option Telemetry) : Prop :=
  forall drs_values,
    drs_samples lap_telemetry = Some drs_values -> Forall convertible drs_values.

(** ** The orchestrator *)

(** The value of the banner's ['circuit_length_m'] (line 134), with the
    uses of the table recorded: the membership test and the subscript. *)
Definition circuit_length_m_reads (example_lap : option Telemetry)
    : Reads (result (option float)) :=
  match example_lap with
  | None => mret (Ok None)
  | Some telemetry =>
      present ← probe telemetry "Distance";
      if (present : bool) then
        column ← index telemetry "Distance";
        mret (distance ← column;
              longest ← series_max distance;
              x ← py_float longest;
              mret (Some x))
      else mret (Ok None)
  end.

Definition circuit_length_m (example_lap : option Telemetry) : result (option float) :=
  (circuit_length_m_reads example_lap).2.

(** The banner's ['date'] (line 132). *)
Definition banner_date (session : Session) : result DateText :=
  if truthy (event_get session "EventDate" ENone)
  then strftime (event_get session "EventDate" (EText ""))
  else Ok DateEmpty.

(** The dictionary of lines 126-135, its values computed in order. *)
Definition session_info (year round_number : option Z) (session : Session)
    (race_telemetry : RaceTelemetry) (example_lap : option Telemetry) : result SessionInfo :=
  date ← banner_date session;
  length_m ← circuit_length_m example_lap;
  mret {| si_event_name := event_get session "EventName" (EText "");
          si_circuit_name := event_get session "Location" (EText "");
          si_country := event_get session "Country" (EText "");
          si_year := year;
          si_round := round_number;
          si_date := date;
          si_total_laps := total_laps race_telemetry;
          si_circuit_length_m := length_m |}.

Section Orchestrator.

Variable C : Collaborators.

(** The body of the [try] (lines 103-113).  Line 112 assigns
    [example_lap]; line 113 then reads the adopted lap's driver for its
    log line, and can still raise. *)
Definition qualifying_fallback (year round_number : option Z) : Block unit :=
  quali_session ← in_block (call (CallLoadSession year round_number "Q")
                                 (load_session C year round_number "Q"));
  in_block (_log_step MsgLoadedQualifyingSession);;
  match quali_session with
  | None => mret tt
  | Some quali_session =>
      quali_laps ← in_block (lift (laps quali_session));
      if bool_decide (0 < laps_len quali_laps)%nat then
        fastest_quali ← in_block (call (CallPickFastest "Q") (pick_fastest quali_laps));
        match fastest_quali with
        | None => mret tt
        | Some fastest_quali =>
            quali_telemetry ← in_block (call (CallGetTelemetry fastest_quali)
                                             (get_telemetry fastest_quali));
            active ← in_block (lift (_lap_has_drs_activation quali_telemetry));
            if (active : bool) then
              adopt_qualifying_lap quali_telemetry;;
              driver ← in_block (lift (Driver fastest_quali));
              in_block (_log (MsgUsingQualifyingLap driver))
            else mret tt
        end
      else mret tt
  end.

(** Lines 89-117: the example lap for the track layout.  [None] is the
    early [return] of line 94; otherwise the final [example_lap]. *)
Definition track_layout (year round_number : option Z) (session_type : string)
    (session : Session) : Comp (option (option Telemetry)) :=
  session_laps ← lift (laps session);
  fastest_lap ← call (CallPickFastest session_type) (pick_fastest session_laps);
  match fastest_lap with
  | None => _log MsgNoValidLaps;; mret None
  | Some fastest_lap =>
      example_lap ← call (CallGetTelemetry fastest_lap) (get_telemetry fastest_lap);
      active ← lift (_lap_has_drs_activation example_lap);
      example_lap ←
        (if (active : bool) then
           driver ← lift (Driver fastest_lap);
           _log (MsgUsingRaceLap driver);;
           mret example_lap
         else
           _log MsgRaceLapLacksDrs;;
           try_except_block
             (qualifying_fallback year round_number)
             (fun e => _log (MsgCouldNotLoadQualifying e))
             example_lap);
      _log_step MsgTrackLayoutPrepared;;
      mret (Some example_lap)
  end.

(** Lines 119-159: the hand-off to the replay, once the layout is
    there. *)
Definition replay_race (year round_number : option Z) (playback_speed : Z)
    (session_type : string) (visible_hud : bool) (ready_file : option string)
    (session : Session) (race_telemetry : RaceTelemetry)
    (example_lap : option Telemetry) : Comp unit :=
  session_drivers ← lift (drivers session);
  circuit_rotation ← call CallGetCircuitRotation (get_circuit_rotation C session);
  info ← lift (session_info year round_number session race_telemetry example_lap);
  call CallLaunchInsightsMenu (launch_insights_menu C);;
  _log MsgLaunchingInsights;;
  _log_step MsgSessionReady;;
  title_event ← lift (event_getitem session "EventName");
  let args :=
    {| ar_frames := frames race_telemetry;
       ar_track_statuses := track_statuses race_telemetry;
       ar_example_lap := example_lap;
       ar_drivers := session_drivers;
       ar_playback_speed := playback_speed;
       ar_driver_colors := driver_colors race_telemetry;
       ar_title := mkTitle title_event
                     (if bool_decide (session_type = "S") then "Sprint" else "Race");
       ar_total_laps := total_laps race_telemetry;
       ar_circuit_rotation := circuit_rotation;
       ar_visible_hud := visible_hud;
       ar_ready_file := ready_file;
       ar_session_info := info;
       ar_session := session;
       ar_enable_telemetry := true |} in
  call (CallRunArcadeReplay args) (run_arcade_replay C args).

(** Lines 63-77: the qualifying branch. *)
Definition replay_qualifying (session_type : string) (ready_file : option string)
    (session : Session) : Comp unit :=
  qualifying_session_data ← call (CallGetQualiTelemetry session_type)
                                 (get_quali_telemetry C session session_type);
  _log_step MsgPreparedQualifying;;
  title_event ← lift (event_getitem session "EventName");
  let title :=
    mkTitle title_event
      (if bool_decide (session_type = "SQ") then "Sprint Qualifying"
       else "Qualifying Results") in
  _log_step MsgSessionReady;;
  let args :=
    {| qr_session := session;
       qr_data := qualifying_session_data;
       qr_title := title;
       qr_ready_file := ready_file |} in
  call (CallRunQualifyingReplay args) (run_qualifying_replay C args).

(** [main] returns [None] on every path that returns. *)
Definition main (year round_number : option Z) (playback_speed : Z)
    (session_type : string) (visible_hud : bool) (ready_file : option string)
    (show_telemetry_viewer : bool) : Comp unit :=
  _log (MsgLoading year round_number session_type);;
  call CallEnableCache (enable_cache C);;
  _log_step MsgCacheInitialized;;
  session ← call (CallLoadSession year round_number session_type)
                 (load_session C year round_number session_type);
  session ← lift (not_none session);
  event_name ← lift (event_getitem session "EventName");
  event_round ← lift (event_getitem session "RoundNumber");
  _log_step (MsgLoadedSession event_name event_round session_type);;
  if bool_decide (session_type = "Q") || bool_decide (session_type = "SQ") then
    replay_qualifying session_type ready_file session
  else
    race_telemetry ← call (CallGetRaceTelemetry session_type)
                          (get_race_telemetry C session session_type);
    _log_step MsgPreparedRace;;
    example_lap ← track_layout year round_number session_type session;
    match example_lap with
    | None => mret tt
    | Some example_lap =>
        replay_race year round_number playback_speed session_type visible_hud
          ready_file session race_telemetry example_lap
    end.

(** The qualifying session's fastest lap is there and shows activation:
    what lines 104-111 need to reach the assignment of line 112. *)
Definition qualifying_lap_active (year round_number : option Z) (fastest_quali : Lap)
    (quali_telemetry : option Telemetry) : Prop :=
  exists quali_session quali_laps,
    load_session C year round_number "Q" = Ok (Some quali_session) /\
    laps quali_session = Ok quali_laps /\
    (0 < laps_len quali_laps)%nat /\
    pick_fastest quali_laps = Ok (Some fastest_quali) /\
    get_telemetry fastest_quali = Ok quali_telemetry /\
    _lap_has_drs_activation quali_telemetry = Ok true.

(** What the body of the [try] can come to, run from the race lap: it
    raised before line 112; or it ran to its end without adopting a lap;
    or it adopted the qualifying session's fastest lap, whose telemetry
    shows activation, and then logged the adoption, or raised on line 113
    reading the lap's driver. *)
Inductive fallback_outcome (year round_number : option Z)
    (example_lap : option Telemetry)
    : Trace * (option Telemetry * result unit) -> Prop :=
| fallback_raised t e :
    fallback_used t = false -> stages t = [] -> handed_off t = [] ->
    session_loads t = [(year, round_number, "Q")] ->
    fallback_outcome year round_number example_lap (t, (example_lap, Err e))
| fallback_kept t :
    fallback_used t = false -> stages t = [] -> handed_off t = [] ->
    session_loads t = [(year, round_number, "Q")] ->
    fallback_outcome year round_number example_lap (t, (example_lap, Ok tt))
| fallback_adopted t fastest_quali quali_telemetry driver :
    qualifying_lap_active year round_number fastest_quali quali_telemetry ->
    Driver fastest_quali = Ok driver ->
    t = [ EvCall (CallLoadSession year round_number "Q");
          EvLogStep MsgLoadedQualifyingSession;
          EvCall (CallPickFastest "Q");
          EvCall (CallGetTelemetry fastest_quali);
          EvAdoptQualifyingLap;
          EvLog (MsgUsingQualifyingLap driver) ] ->
    fallback_outcome year round_number example_lap (t, (quali_telemetry, Ok tt))
| fallback_adopted_unlogged t fastest_quali quali_telemetry e :
    qualifying_lap_active year round_number fastest_quali quali_telemetry ->
    Driver fastest_quali = Err e ->
    t = [ EvCall (CallLoadSession year round_number "Q");
          EvLogStep MsgLoadedQualifyingSession;
          EvCall (CallPickFastest "Q");
          EvCall (CallGetTelemetry fastest_quali);
          EvAdoptQualifyingLap ] ->
    fallback_outcome year round_number example_lap (t, (quali_telemetry, Err e)).

(** A run of a race or sprint that gets as far as layout selection: the
    cache and the session load succeed, the event descriptor has the two
    fields the log line reads, and the race dataset is assembled. *)
Record race_run (year round_number : option Z) (session_type : string)
    (session : Session) (race_telemetry : RaceTelemetry)
    (event_name event_round : EventVal) : Prop := mkRaceRun {
  run_not_qualifying : session_type <> "Q" /\ session_type <> "SQ";
  run_cache : enable_cache C = Ok tt;
  run_session : load_session C year round_number session_type = Ok (Some session);
  run_event_name : event session !! "EventName" = Some event_name;
  run_event_round : event session !! "RoundNumber" = Some event_round;
  run_race_telemetry : get_race_telemetry C session session_type = Ok race_telemetry
}.

(** The trace of such a run up to layout selection. *)
Definition race_opening (year round_number : option Z) (session_type : string)
    (session : Session) (event_name event_round : EventVal) : Trace :=
  opening year round_number session_type session event_name event_round ++
  [ EvCall (CallGetRaceTelemetry session_type); EvLogStep MsgPreparedRace ].

(** The primary session's fastest lap and its telemetry, as lines 91-96
    get them. *)
Definition primary_lap (session : Session) (fastest_lap : Lap)
    (example_lap : option Telemetry) : Prop :=
  exists session_laps,
    laps session = Ok session_laps /\
    pick_fastest session_laps = Ok (Some fastest_lap) /\
    get_telemetry fastest_lap = Ok example_lap.

(** The ways the qualifying fallback brings no improvement that the
    selector's contract lists: the load fails; the session has no laps; it
    has no fastest lap; its fastest lap shows no activation either. *)
Inductive no_improvement (year round_number : option Z) : Prop :=
| quali_load_fails e :
    load_session C year round_number "Q" = Err e ->
    no_improvement year round_number
| quali_zero_laps quali_session quali_laps :
    load_session C year round_number "Q" = Ok (Some quali_session) ->
    laps quali_session = Ok quali_laps ->
    laps_len quali_laps = 0%nat ->
    no_improvement year round_number
| quali_no_fastest quali_session quali_laps :
    load_session C year round_number "Q" = Ok (Some quali_session) ->
    laps quali_session = Ok quali_laps ->
    pick_fastest quali_laps = Ok None ->
    no_improvement year round_number
| quali_no_activation quali_session quali_laps fastest_quali quali_telemetry :
    load_session C year round_number "Q" = Ok (Some quali_session) ->
    laps quali_session = Ok quali_laps ->
    pick_fastest quali_laps = Ok (Some fastest_quali) ->
    get_telemetry fastest_quali = Ok quali_telemetry ->
    _lap_has_drs_activation quali_telemetry = Ok false ->
    no_improvement year round_number.

(** The places an exception can come from inside the [try] before the
    assignment of line 112: the load of the qualifying session; reading
    its laps; picking the fastest lap; reading that lap's telemetry;
    inspecting it. *)
Inductive raises_in_fallback (year round_number : option Z) (e : exn) : Prop :=
| raise_load :
    load_session C year round_number "Q" = Err e ->
    raises_in_fallback year round_number e
| raise_laps quali_session :
    load_session C year round_number "Q" = Ok (Some quali_session) ->
    laps quali_session = Err e ->
    raises_in_fallback year round_number e
| raise_pick quali_session quali_laps :
    load_session C year round_number "Q" = Ok (Some quali_session) ->
    laps quali_session = Ok quali_laps ->
    (0 < laps_len quali_laps)%nat ->
    pick_fastest quali_laps = Err e ->
    raises_in_fallback year round_number e
| raise_telemetry quali_session quali_laps fastest_quali :
    load_session C year round_number "Q" = Ok (Some quali_session) ->
    laps quali_session = Ok quali_laps ->
    (0 < laps_len quali_laps)%nat ->
    pick_fastest quali_laps = Ok (Some fastest_quali) ->
    get_telemetry fastest_quali = Err e ->
    raises_in_fallback year round_number e
| raise_inspect quali_session quali_laps fastest_quali quali_telemetry :
    load_session C year round_number "Q" = Ok (Some quali_session) ->
    laps quali_session = Ok quali_laps ->
    (0 < laps_len quali_laps)%nat ->
    pick_fastest quali_laps = Ok (Some fastest_quali) ->
    get_telemetry fastest_quali = Ok quali_telemetry ->
    _lap_has_drs_activation quali_telemetry = Err e ->
    raises_in_fallback year round_number e.

(** The one place after it: line 113, reading the driver of the lap that
    line 112 has just adopted. *)
Definition raises_after_adoption (year round_number : option Z) (e : exn)
    (quali_telemetry : option Telemetry) : Prop :=
  exists fastest_quali,
    qualifying_lap_active year round_number fastest_quali quali_telemetry /\
    Driver fastest_quali = Err e.

End Orchestrator.

End Builtins.

(** ** Scenarios *)

Module Scenario.

(** A stand-in for [float] on strings that reads the strings of decimal
    digits and refuses the rest; on those strings, and on words such as
    ["x"], it does what CPython's does. *)
Definition digit_value (c : ascii) : option Z :=
  let n := Z.of_nat (nat_of_ascii c) in
  if (48 <=? n) && (n <=? 57) then Some (n - 48) else None.

Fixpoint digits_value (acc : Z) (s : string) : option Z :=
  match s with
  | EmptyString => Some acc
  | String c rest =>
      match digit_value c with
      | Some d => digits_value (10 * acc + d) rest
      | None => None
      end
  end.

Definition digits_to_float (s : string) : option float :=
  match s with
  | EmptyString => None
  | _ =>
      match digits_value 0 s with
      | Some z => Some (SF2Prim (binary_normalize prec emax z 0 false))
      | None => None
      end
  end.

(** [max()] of a column of integers ([nan] when it is empty). *)
Definition int_series_max (zs : list Z) : PyVal :=
  match zs with
  | [] => VFloat nan
  | z :: rest => VInt (fold_right Z.max z rest)
  end.

Definition int_channel (zs : list Z) : Channel :=
  mkChannel (Ok (VInt <$> zs)) (Ok (int_series_max zs)).

(** A column of arbitrary cells; its [max()] is not looked at. *)
Definition raw_channel (vs : list PyVal) : Channel :=
  mkChannel (Ok vs) (Err TypeError).

Definition drs_only (vs : list PyVal) : Telemetry :=
  {[ "DRS" := raw_channel vs ]}.

Definition lap_table (drs distance : list Z) : Telemetry :=
  <[ "DRS" := int_channel drs ]> {[ "Distance" := int_channel distance ]}.

Definition distance_only (distance : list Z) : Telemetry :=
  {[ "Distance" := int_channel distance ]}.

Definition lap_of (driver : string) (drs distance : list Z) : Lap :=
  mkLap (Ok driver) (Ok (Some (lap_table drs distance))).

Definition silverstone : gmap string EventVal :=
  <[ "EventName" := EText "British Grand Prix" ]>
  (<[ "RoundNumber" := ENumber 12 ]>
  (<[ "Location" := EText "Silverstone" ]>
  (<[ "Country" := EText "United Kingdom" ]>
  {[ "EventDate" := ETimestamp 2025 7 6 ]}))).

Definition field : list string := ["VER"; "NOR"; "LEC"].

Definition session_with (fastest : option Lap) (count : nat) : Session :=
  mkSession silverstone (Ok (mkLaps count (Ok fastest))) (Ok field).

Definition race_data : RaceTelemetry :=
  mkRaceTelemetry (Ref 1) (Ref 2) (Ref 3) 52.

(** The collaborators of a run: the session of the run's own type, and
    what loading the qualifying session of the round does. *)
Definition world (primary : Session) (qualifying : result (option Session))
    : Collaborators :=
  {| enable_cache := Ok tt;
     load_session := fun _ _ session_type =>
       if bool_decide (session_type = "Q") then qualifying else Ok (Some primary);
     get_quali_telemetry := fun _ _ => Ok (Ref 4);
     get_race_telemetry := fun _ _ => Ok race_data;
     get_circuit_rotation := fun _ => Ok (Ref 5);
     launch_insights_menu := Ok tt;
     run_qualifying_replay := fun _ => Ok tt;
     run_arcade_replay := fun _ => Ok tt |}.

Definition source_down : result (option Session) :=
  Err (OtherError "source unreachable").

(** The race whose fastest lap, by VER, has DRS [0,0,15,0]. *)
Definition active_lap : Lap := lap_of "VER" [0; 0; 15; 0] [0; 1900; 3800; 5891].
Definition active_race : Session := session_with (Some active_lap) 156.

(** The race whose fastest lap has DRS [0,0,0,0]. *)
Definition flat_lap : Lap := lap_of "NOR" [0; 0; 0; 0] [0; 1900; 3800; 5891].
Definition flat_race : Session := session_with (Some flat_lap) 156.

(** Qualifying sessions: one whose fastest lap opens DRS, one whose
    fastest lap stays below the threshold ([0,9,0]), one without laps. *)
Definition open_quali_lap : Lap := lap_of "LEC" [0; 12; 0] [0; 2900; 5890].
Definition open_quali : Session := session_with (Some open_quali_lap) 60.
Definition shut_quali_lap : Lap := lap_of "LEC" [0; 9; 0] [0; 2900; 5890].
Definition shut_quali : Session := session_with (Some shut_quali_lap) 60.
Definition empty_session : Session := session_with None 0.

(** The run of [main] with the defaults of the command line. *)
Definition run (C : Collaborators) (session_type : string) : Comp unit :=
  main digits_to_float C (Some 2025) (Some 12) 1 session_type true None true.

End Scenario.

(** ** The command line (lines 161-212) *)

(** The script's own exceptions, besides those of the functions it calls:
    [sys.argv[i]] out of range, and a global name read before it was
    bound. *)
Inductive script_exn : Type :=
| Raised (e : exn)
| IndexError
| NameError (name : string).

(** How the script ends: [sys.exit(code)], or an exception nothing
    catches. *)
Inductive script_end : Type :=
| Exited (code : Z)
| Uncaught (e : script_exn).

(** A step of the script goes on with a value or ends the script. *)
Inductive step (A : Type) : Type :=
| Continue (a : A)
| Stop (e : script_end).
Arguments Continue {A} a.
Arguments Stop {A} e.

(** What the script does, in order: the calls it makes, and, inside a call
    of [main], the events of that run. *)
Inductive script_event : Type :=
| ScCliLoad
| ScListRounds (year : Z)
| ScListSprints (year : Z)
| ScMain (year round_number playback_speed : Z) (session_type : string)
    (visible_hud : bool) (ready_file : option string)
| ScInMain (e : event_record)
| ScQApplication (argv : list string)
| ScRaceSelectionWindow
| ScShow
| ScExec.

Definition Script (A : Type) : Type := list script_event * step A.

#[global] Instance script_ret : MRet Script := fun A a => ([], Continue a).
#[global] Instance script_bind : MBind Script := fun A B f m =>
  match m with
  | (t, Continue a) => let '(t', r) := f a in (t ++ t', r)
  | (t, Stop e) => (t, Stop e)
  end.

(** [sys.exit(code)] *)
Definition sys_exit {A : Type} (code : Z) : Script A := ([], Stop (Exited code)).

(** An exception raised by the script itself. *)
Definition script_raise {A : Type} (e : script_exn) : Script A := ([], Stop (Uncaught e)).

(** A call the script makes: recorded, then it returns or raises. *)
Definition script_call {A : Type} (ev : script_event) (r : result A) : Script A :=
  ([ev], match r with
         | Ok a => Continue a
         | Err e => Stop (Uncaught (Raised e))
         end).

(** The end of a script all of whose paths end. *)
Definition ending (s : Script Empty_set) : script_end :=
  match s.2 with
  | Stop e => e
  | Continue a => match a with end
  end.

(** [flag in sys.argv] *)
Definition has_flag (argv : list string) (flag : string) : bool :=
  bool_decide (flag ∈ argv).

(** [sys.argv.index(flag)]: the first position of [flag]. *)
Fixpoint list_index (argv : list string) (flag : string) : option nat :=
  match argv with
  | [] => None
  | arg :: rest =>
      if bool_decide (arg = flag) then Some 0%nat
      else S <$> list_index rest flag
  end.

(** [sys.argv.index(flag) + 1]; [index] raises [ValueError] on a flag that
    is not there. *)
Definition index_after (argv : list string) (flag : string) : Script nat :=
  match list_index argv flag with
  | Some i => mret (i + 1)%nat
  | None => script_raise (Raised ValueError)
  end.

(** [sys.argv[i]] *)
Definition argv_getitem (argv : list string) (i : nat) : Script string :=
  match argv !! i with
  | Some arg => mret arg
  | None => script_raise IndexError
  end.

(** Reading a global that an earlier branch may have left unbound. *)
Definition read_global {A : Type} (name : string) (value : option A) : Script A :=
  match value with
  | Some a => mret a
  | None => script_raise (NameError name)
  end.

(** The session type of line 195. *)
Definition session_type_of (argv : list string) : string :=
  if has_flag argv "--sprint-qualifying" then "SQ"
  else if has_flag argv "--sprint" then "S"
  else if has_flag argv "--qualifying" then "Q"
  else "R".

(** The functions the script imports besides those of [main], and the
    window toolkit. *)
Record Console : Type := mkConsole {
  cli_load : result unit;
  list_rounds : Z -> result unit;
  list_sprints : Z -> result unit;
  QApplication : list string -> result Handle;
  RaceSelectionWindow : result Handle;
  show : Handle -> result unit;
  exec : Handle -> result Z
}.

(** The argument right after the first occurrence of a flag. *)
Definition arg_after (argv : list string) (flag : string) : option string :=
  match list_index argv flag with
  | Some i => argv !! (i + 1)%nat
  | None => None
  end.

(** The flag's first occurrence is the last argument. *)
Definition flag_is_last (argv : list string) (flag : string) : Prop :=
  exists i, list_index argv flag = Some i /\ (i + 1)%nat = length argv.

Section CommandLine.

Variable str_to_float : string -> option float.

(** [int(s)] for a [str] is CPython's parser: the integer it reads, or
    [None] where it raises [ValueError]. *)
Variable str_to_int : string -> option Z.

Variable C : Collaborators.
Variable K : Console.

(** [int(sys.argv[i])] *)
Definition py_int (s : string) : Script Z :=
  match str_to_int s with
  | Some z => mret z
  | None => script_raise (Raised ValueError)
  end.

(** The value of an integer option (lines 169-179): the argument after
    the flag's first occurrence, or the default without the flag. *)
Definition int_option (argv : list string) (flag : string) (fallback : Z) : Script Z :=
  if has_flag argv flag then
    i ← index_after argv flag;
    arg ← argv_getitem argv i;
    py_int arg
  else mret fallback.

(** Lines 181-186: the listings.  Only the last branch binds
    [playback_speed]. *)
Definition listings (argv : list string) (year : Z) : Script (option Z) :=
  if has_flag argv "--list-rounds" then
    script_call (ScListRounds year) (list_rounds K year);; mret None
  else if has_flag argv "--list-sprints" then
    script_call (ScListSprints year) (list_sprints K year);; mret None
  else mret (Some 1).

(** Lines 198-202: the ready-file path. *)
Definition ready_file_of (argv : list string) : Script (option string) :=
  if has_flag argv "--ready-file" then
    idx ← index_after argv "--ready-file";
    if bool_decide (idx < length argv)%nat then
      arg ← argv_getitem argv idx;
      mret (Some arg)
    else mret None
  else mret None.

(** The call of [main] on line 204, with the events of its run. *)
Definition call_main (year round_number playback_speed : Z) (session_type : string)
    (visible_hud : bool) (ready_file : option string) : Script unit :=
  let run := main str_to_float C (Some year) (Some round_number) playback_speed
               session_type visible_hud ready_file true in
  (ScMain year round_number playback_speed session_type visible_hud ready_file
     :: (ScInMain <$> run.1),
   match run.2 with
   | Ok _ => Continue tt
   | Err e => Stop (Uncaught (Raised e))
   end).

(** Lines 188-205: the viewer. *)
Definition viewer (argv : list string) (year round_number : Z)
    (playback_speed : option Z) : Script Empty_set :=
  let visible_hud := if has_flag argv "--no-hud" then false else true in
  let session_type := session_type_of argv in
  ready_file ← ready_file_of argv;
  speed ← read_global "playback_speed" playback_speed;
  call_main year round_number speed session_type visible_hud ready_file;;
  sys_exit 0.

(** Lines 207-212: the selection window. *)
Definition gui (argv : list string) : Script Empty_set :=
  app ← script_call (ScQApplication argv) (QApplication K argv);
  win ← script_call ScRaceSelectionWindow (RaceSelectionWindow K);
  script_call ScShow (show K win);;
  code ← script_call ScExec (exec K app);
  sys_exit code.

(** The body of [if __name__ == "__main__":]. *)
Definition script (argv : list string) : Script Empty_set :=
  if has_flag argv "--cli" then
    script_call ScCliLoad (cli_load K);;
    sys_exit 0
  else
    year ← int_option argv "--year" 2025;
    round_number ← int_option argv "--round" 12;
    playback_speed ← listings argv year;
    if has_flag argv "--viewer" then viewer argv year round_number playback_speed
    else gui argv.

(** The value an integer option takes when it can be read: the default
    without the flag, else what [int] reads in the argument after the
    flag's first occurrence. *)
Definition option_value (argv : list string) (flag : string) (fallback value : Z) : Prop :=
  has_flag argv flag = false /\ value = fallback \/
  exists arg, has_flag argv flag = true /\ arg_after argv flag = Some arg /\
              str_to_int arg = Some value.

(** The listing the flags ask for, if any, returns. *)
Definition listing_returns (argv : list string) (year : Z) : Prop :=
  (has_flag argv "--list-rounds" = true -> list_rounds K year = Ok tt) /\
  (has_flag argv "--list-rounds" = false -> has_flag argv "--list-sprints" = true ->
   list_sprints K year = Ok tt).

End CommandLine.

(** The calls of [main] a script made, with their arguments. *)
Definition main_call_of (e : script_event)
    : option (Z * Z * Z * string * bool * option string) :=
  match e with
  | ScMain year round_number playback_speed session_type visible_hud ready_file =>
      Some (year, round_number, playback_speed, session_type, visible_hud, ready_file)
  | _ => None
  end.

Definition main_calls (t : list script_event)
    : list (Z * Z * Z * string * bool * option string) :=
  omap main_call_of t.

(** The events of the runs of [main] inside a script. *)
Definition in_main_of (e : script_event) : option event_record :=
  match e with
  | ScInMain ev => Some ev
  | _ => None
  end.

Definition main_trace (t : list script_event) : Trace := omap in_main_of t.

(** The entry points a script went into: the command-line menu, [main],
    the selection window. *)
Definition is_entry (e : script_event) : bool :=
  match e with
  | ScCliLoad => true
  | ScMain _ _ _ _ _ _ => true
  | ScQApplication _ => true
  | _ => false
  end.

Definition entries (t : list script_event) : list script_event :=
  List.filter is_entry t.

Module Terminal.

(** A stand-in for [int] on strings that reads the strings of decimal
    digits and refuses the rest. *)
Definition digits_to_int (s : string) : option Z :=
  match s with
  | EmptyString => None
  | _ => Scenario.digits_value 0 s
  end.

(** A console whose calls all return; the window's event loop ends with
    code 3. *)
Definition console : Console :=
  {| cli_load := Ok tt;
     list_rounds := fun _ => Ok tt;
     list_sprints := fun _ => Ok tt;
     QApplication := fun _ => Ok (Ref 6);
     RaceSelectionWindow := Ok (Ref 7);
     show := fun _ => Ok tt;
     exec := fun _ => Ok 3 |}.

(** The script on the scenario of the race whose fastest lap is active. *)
Definition launch (argv : list string) : Script Empty_set :=
  script Scenario.digits_to_float digits_to_int
    (Scenario.world Scenario.active_race Scenario.source_down) console argv.

End Terminal.

Module Extremes.

(** The race whose fastest lap has a DRS sample too large for a double. *)
Definition huge_lap : Lap :=
  mkLap (Ok "VER") (Ok (Some (Scenario.drs_only [VInt (10 ^ 400)]))).
Definition huge_race : Session := Scenario.session_with (Some huge_lap) 156.

(** A qualifying session whose fastest lap opens DRS ([[0,12,0]]) and has
    no ['Driver'] field. *)
Definition unnamed_quali_lap : Lap :=
  mkLap (Err (KeyError "Driver"))
        (Ok (Some (Scenario.lap_table [0; 12; 0] [0; 2900; 5890]))).
Definition unnamed_quali : Session :=
  Scenario.session_with (Some unnamed_quali_lap) 60.

(** A command line that sets every option of the viewer. *)
Definition sprint_2024 : list string :=
  [ "main.py"; "--viewer"; "--year"; "2024"; "--round"; "7"; "--sprint"; "--no-hud";
    "--ready-file"; "/tmp/ready" ].

End Extremes.

(** The integer levels on which the comparison of line 36 is checked
    against the comparison of integers. *)
Definition level_bound : Z := 65536.

Definition level_agrees (z : Z) : bool :=
  match int_to_float z with
  | Ok x => Bool.eqb (PrimFloat.leb drs_threshold x) (10 <=? z)
  | Err _ => false
  end.

(** The check on [count] consecutive integers, starting at [from]. *)
Fixpoint levels_agree (count : nat) (from : Z) : bool :=
  match count with
  | O => true
  | S k => level_agrees from && levels_agree k (from + 1)
  end.

(** Unfolds one layer of the computation monad. *)
Ltac comp_unfold :=
  unfold mbind, mret, comp_bind, comp_ret, lift, call, _log, _log_step.

(** Unfolds one layer of a block that assigns [example_lap]. *)
Ltac block_unfold :=
  unfold try_except_block, mbind, mret, block_bind, block_ret, in_block,
    adopt_qualifying_lap;
  comp_unfold.

(** Splits on the result a computation in the goal waits for. *)
Ltac split_result :=
  match goal with
  | |- context [match ?r with Ok _ => _ | Err _ => _ end] =>
      let H := fresh "Hres" in destruct r eqn:H
  end.

(** * Properties *)

(** ** The signal inspector *)

Section Inspector.

Variable str_to_float : string -> option float.

Local Abbreviation to_float := (py_float str_to_float).
Local Abbreviation scan := (scan_drs str_to_float).
Local Abbreviation has_activation := (_lap_has_drs_activation str_to_float).
Local Abbreviation is_activation := (activates str_to_float).
Local Abbreviation is_activationb := (activatesb str_to_float).
Local Abbreviation is_unparseable := (unparseable str_to_float).
Local Abbreviation is_convertible := (convertible str_to_float).
Local Abbreviation all_convertible := (samples_convertible str_to_float).

Lemma contains_lookup (telemetry : Telemetry) (k : string) :
  contains telemetry k = true <-> is_Some (telemetry !! k).
Proof. unfold contains. apply bool_decide_eq_true. Qed.

Lemma contains_false (telemetry : Telemetry) (k : string) :
  contains telemetry k = false <-> telemetry !! k = None.
Proof.
  unfold contains. rewrite bool_decide_eq_false, eq_None_not_Some. tauto.
Qed.

(** Indexing succeeds wherever the probe said yes. *)
Lemma getitem_probed (telemetry : Telemetry) (k : string) :
  contains telemetry k = true -> exists ch, getitem telemetry k = Ok ch.
Proof.
  intros [ch Hch]%contains_lookup. exists ch. unfold getitem. now rewrite Hch.
Qed.

(** The function is the scan of the samples it could read. *)
Lemma has_activation_samples (lap_telemetry : option Telemetry) :
  has_activation lap_telemetry =
    match drs_samples lap_telemetry with
    | Some drs_values => scan drs_values
    | None => Ok false
    end.
Proof.
  destruct lap_telemetry as [telemetry|]; [|reflexivity].
  unfold _lap_has_drs_activation, lap_has_drs_activation_reads, probe, index,
    drs_samples, contains, getitem.
  unfold mbind, mret, reads_bind, reads_ret.
  destruct (telemetry !! "DRS") as [ch|] eqn:Hdrs.
  - rewrite bool_decide_eq_true_2 by eauto. simpl.
    now destruct (to_numpy ch).
  - rewrite bool_decide_eq_false_2; [reflexivity|].
    now intros [? ?].
Qed.

Lemma activatesb_true (value : PyVal) :
  is_activationb value = true <-> is_activation value.
Proof.
  unfold activatesb, activates. split.
  - destruct (to_float value) as [x|e]; [eauto|discriminate].
  - intros (x & -> & Hx). exact Hx.
Qed.

Lemma scan_drs_skip (value : PyVal) (rest : list PyVal) :
  is_unparseable value -> scan (value :: rest) = scan rest.
Proof. intros [H|H]; simpl; now rewrite H. Qed.

Lemma scan_drs_skip_all (skipped rest : list PyVal) :
  Forall is_unparseable skipped -> scan (skipped ++ rest) = scan rest.
Proof.
  induction 1 as [|value skipped Hv _ IH]; [reflexivity|].
  rewrite <- app_comm_cons, scan_drs_skip; assumption.
Qed.

Lemma scan_drs_step (value : PyVal) (rest : list PyVal) :
  is_convertible value ->
  scan (value :: rest) = if is_activationb value then Ok true else scan rest.
Proof.
  unfold activatesb. intros [[x Hx]|[H|H]]; simpl; rewrite ?Hx, ?H; reflexivity.
Qed.

(** On samples that all convert or are skipped, the scan returns, and
    says whether some sample is an activation. *)
Lemma scan_drs_convertible (drs_values : list PyVal) :
  Forall is_convertible drs_values ->
  scan drs_values = Ok (existsb is_activationb drs_values).
Proof.
  induction 1 as [|value rest Hv _ IH]; [reflexivity|].
  rewrite scan_drs_step by assumption. simpl.
  destruct (is_activationb value); [reflexivity|exact IH].
Qed.

(** The first activation ends the scan, whatever follows it. *)
Lemma scan_drs_first_activation (before after : list PyVal) (value : PyVal) :
  Forall is_convertible before -> is_activation value ->
  scan (before ++ value :: after) = Ok true.
Proof.
  intros Hbefore Hact. induction Hbefore as [|v before Hv _ IH]; simpl app.
  - destruct Hact as (x & Hx & Hge). simpl. now rewrite Hx, Hge.
  - rewrite scan_drs_step by assumption. now destruct (is_activationb v).
Qed.

Lemma existsb_activates (drs_values : list PyVal) :
  existsb is_activationb drs_values = true <->
  exists value, value ∈ drs_values /\ is_activation value.
Proof.
  rewrite existsb_exists. split; intros (v & Hin & Hv); exists v.
  - split; [now apply list_elem_of_In|now apply activatesb_true].
  - split; [now apply list_elem_of_In|now apply activatesb_true].
Qed.

(** The only exception the function lets out is one a sample's
    conversion raised. *)
Lemma scan_drs_raises (drs_values : list PyVal) (e : exn) :
  scan drs_values = Err e ->
  exists value, value ∈ drs_values /\ to_float value = Err e /\ ~ is_convertible value.
Proof.
  induction drs_values as [|value rest IH]; [discriminate|]. simpl.
  destruct (to_float value) as [x|e'] eqn:Hv.
  - destruct (PrimFloat.leb drs_threshold x); [discriminate|].
    intros (v & Hin & Hrest)%IH. exists v. split; [now right|exact Hrest].
  - assert (Hgo : scan rest = Err e ->
        exists v, v ∈ value :: rest /\ to_float v = Err e /\ ~ is_convertible v).
    { intros (v & Hin & Hrest)%IH. exists v. split; [now right|exact Hrest]. }
    assert (Hout : e' = e -> e' <> TypeError -> e' <> ValueError ->
        exists v, v ∈ value :: rest /\ to_float v = Err e /\ ~ is_convertible v).
    { intros <- Ht Hv'. exists value. split; [now left|]. split; [exact Hv|].
      unfold convertible, unparseable. rewrite Hv.
      intros [[x Hx]|[H|H]]; congruence. }
    destruct e'; try exact Hgo; intros [= <-]; apply Hout; congruence.
Qed.

(** The two sequences of the contract's examples.  After ["x"], whatever
    [float] makes of it, the sample 12 is reached and ends the scan with
    [True]; two strings that do not parse give [False]. *)
Lemma scan_x_then_12 : scan [VStr "x"; VInt 12] = Ok true.
Proof.
  simpl. destruct (str_to_float "x") as [x|];
    [destruct (PrimFloat.leb drs_threshold x); [reflexivity|]|];
    vm_compute; reflexivity.
Qed.

Lemma scan_x_then_y :
  str_to_float "x" = None -> str_to_float "y" = None ->
  scan [VStr "x"; VStr "y"] = Ok false.
Proof. intros Hx Hy. simpl. now rewrite Hx, Hy. Qed.

(** X20.  On a telemetry input whose readable DRS samples each convert to
    a number or fail with [TypeError] or [ValueError],
    [_lap_has_drs_activation] does not raise; a missing channel or a
    failing [to_numpy] gives [False]; and samples that do not parse are
    skipped, the scan going on with the samples after them. *)
Theorem inspector_returns_and_skips_unparseable
    (lap_telemetry : option Telemetry)
    (Hsamples : all_convertible lap_telemetry) :
  (exists b, has_activation lap_telemetry = Ok b) /\
  (forall telemetry, lap_telemetry = Some telemetry -> telemetry !! "DRS" = None ->
     has_activation lap_telemetry = Ok false) /\
  (forall telemetry ch e, lap_telemetry = Some telemetry ->
     telemetry !! "DRS" = Some ch -> to_numpy ch = Err e ->
     has_activation lap_telemetry = Ok false) /\
  (forall skipped rest,
     drs_samples lap_telemetry = Some (skipped ++ rest) ->
     Forall is_unparseable skipped ->
     has_activation lap_telemetry = scan rest) /\
  (drs_samples lap_telemetry = Some [VStr "x"; VInt 12] ->
   has_activation lap_telemetry = Ok true) /\
  (drs_samples lap_telemetry = Some [VStr "x"; VStr "y"] ->
   is_unparseable (VStr "x") -> is_unparseable (VStr "y") ->
   has_activation lap_telemetry = Ok false).
Proof.
  rewrite has_activation_samples. repeat split.
  - destruct (drs_samples lap_telemetry) as [drs_values|] eqn:Hread; [|eauto].
    rewrite scan_drs_convertible by now apply Hsamples. eauto.
  - intros telemetry -> Hdrs. simpl. now rewrite Hdrs.
  - intros telemetry ch e -> Hdrs Hfail. simpl. now rewrite Hdrs, Hfail.
  - intros skipped rest -> Hskipped. now apply scan_drs_skip_all.
  - intros ->. apply scan_x_then_12.
  - intros -> Hx Hy. now rewrite !scan_drs_skip.
Qed.

(** The uses the inspector and the banner make of a table: none without a
    table, the membership test alone on a table without the channel, the
    membership test and then the subscript otherwise. *)
Lemma inspector_reads (lap_telemetry : option Telemetry) :
  (lap_has_drs_activation_reads str_to_float lap_telemetry).1 =
    match lap_telemetry with
    | None => []
    | Some telemetry =>
        if contains telemetry "DRS" then [Probe "DRS"; Index "DRS"] else [Probe "DRS"]
    end.
Proof.
  destruct lap_telemetry as [telemetry|]; [|reflexivity].
  unfold lap_has_drs_activation_reads, probe, index.
  unfold mbind, mret, reads_bind, reads_ret.
  now destruct (contains telemetry "DRS").
Qed.

Lemma circuit_length_reads (example_lap : option Telemetry) :
  (circuit_length_m_reads str_to_float example_lap).1 =
    match example_lap with
    | None => []
    | Some telemetry =>
        if contains telemetry "Distance" then [Probe "Distance"; Index "Distance"]
        else [Probe "Distance"]
    end.
Proof.
  destruct example_lap as [telemetry|]; [|reflexivity].
  unfold circuit_length_m_reads, probe, index.
  unfold mbind, mret, reads_bind, reads_ret.
  now destruct (contains telemetry "Distance").
Qed.

Lemma probe_then_index_guarded (lap_telemetry : option Telemetry) (k : string) :
  guarded lap_telemetry
    match lap_telemetry with
    | None => []
    | Some telemetry => if contains telemetry k then [Probe k; Index k] else [Probe k]
    end.
Proof.
  intros before k' after.
  destruct lap_telemetry as [telemetry|];
    [|destruct before; discriminate].
  destruct (contains telemetry k) eqn:Hprobe.
  - destruct before as [|probed [|indexed before]]; intros Huses; simplify_eq/=;
      try (destruct before; discriminate).
    split; [left|]. exists telemetry. split; [reflexivity|].
    now apply contains_lookup.
  - destruct before as [|probed [|indexed before]]; intros Huses; simplify_eq/=;
      try (destruct before; discriminate).
Qed.

(** C9.  The two channel reads sit behind their probes.  The banner's
    circuit length is [None] exactly when the layout telemetry is absent
    or has no Distance column, and is otherwise computed from that
    column's maximum; the inspector reads the DRS column only where
    there is one; an index under a probe that said yes never fails, so no
    [KeyError] for a missing channel comes out of either; and in the uses
    both make of the table, every subscript comes after a membership test
    of the same channel and names a channel the table has, a table without
    the channel being tested and never subscripted. *)
Theorem C9_channel_reads_are_probed
    (example_lap : option Telemetry) :
  circuit_length_m str_to_float example_lap =
    match example_lap with
    | None => Ok None
    | Some telemetry =>
        match telemetry !! "Distance" with
        | None => Ok None
        | Some distance =>
            longest ← series_max distance; x ← to_float longest; Ok (Some x)
        end
    end /\
  (circuit_length_m str_to_float example_lap = Ok None <->
     example_lap = None \/
     exists telemetry, example_lap = Some telemetry /\
                       contains telemetry "Distance" = false) /\
  (forall year round_number session race_telemetry info,
     session_info str_to_float year round_number session race_telemetry example_lap
       = Ok info ->
     circuit_length_m str_to_float example_lap = Ok (si_circuit_length_m info)) /\
  has_activation example_lap =
    match example_lap with
    | None => Ok false
    | Some telemetry =>
        match telemetry !! "DRS" with
        | None => Ok false
        | Some drs =>
            match to_numpy drs with
            | Ok drs_values => scan drs_values
            | Err _ => Ok false
            end
        end
    end /\
  (forall telemetry k, contains telemetry k = true ->
     exists ch, getitem telemetry k = Ok ch) /\
  guarded example_lap (lap_has_drs_activation_reads str_to_float example_lap).1 /\
  guarded example_lap (circuit_length_m_reads str_to_float example_lap).1 /\
  (forall telemetry, example_lap = Some telemetry -> telemetry !! "DRS" = None ->
     (lap_has_drs_activation_reads str_to_float example_lap).1 = [Probe "DRS"]) /\
  (forall telemetry, example_lap = Some telemetry -> telemetry !! "Distance" = None ->
     (circuit_length_m_reads str_to_float example_lap).1 = [Probe "Distance"]).
Proof.
  assert (Hlen : circuit_length_m str_to_float example_lap =
    match example_lap with
    | None => Ok None
    | Some telemetry =>
        match telemetry !! "Distance" with
        | None => Ok None
        | Some distance =>
            longest ← series_max distance; x ← to_float longest; Ok (Some x)
        end
    end).
  { destruct example_lap as [telemetry|]; [|reflexivity].
    unfold circuit_length_m, circuit_length_m_reads, probe, index, contains, getitem.
    unfold mbind, mret, reads_bind, reads_ret.
    destruct (telemetry !! "Distance") as [distance|] eqn:Hd.
    - rewrite bool_decide_eq_true_2 by eauto. reflexivity.
    - rewrite bool_decide_eq_false_2; [reflexivity|]. now intros [? ?]. }
  split; [exact Hlen|]. split; [|split; [|split; [|split; [|split; [|split; [|split]]]]]].
  - rewrite Hlen. destruct example_lap as [telemetry|]; [|intuition].
    destruct (telemetry !! "Distance") as [distance|] eqn:Hd.
    + split.
      * destruct (series_max distance) as [longest|]; [|discriminate]. simpl.
        destruct (to_float longest); discriminate.
      * intros [[=]|(tel & [= <-] & Hno)]. apply contains_false in Hno. congruence.
    + split; [|reflexivity]. intros _. right. exists telemetry.
      split; [reflexivity|now apply contains_false].
  - intros year round_number session race_telemetry info. unfold session_info.
    destruct (banner_date session); [|discriminate]. simpl.
    destruct (circuit_length_m str_to_float example_lap); [|discriminate].
    now intros [= <-].
  - rewrite has_activation_samples. destruct example_lap as [telemetry|]; [|reflexivity].
    simpl. destruct (telemetry !! "DRS") as [drs|]; [|reflexivity].
    now destruct (to_numpy drs).
  - intros telemetry k. apply getitem_probed.
  - rewrite inspector_reads. apply probe_then_index_guarded.
  - rewrite circuit_length_reads. apply probe_then_index_guarded.
  - intros telemetry -> Hnone%contains_false. rewrite inspector_reads. now rewrite Hnone.
  - intros telemetry -> Hnone%contains_false. rewrite circuit_length_reads.
    now rewrite Hnone.
Qed.

End Inspector.

(** ** The orchestrator *)

Section Pipeline.

Variable str_to_float : string -> option float.
Variable C : Collaborators.

Local Abbreviation has_activation := (_lap_has_drs_activation str_to_float).
Local Abbreviation fallback := (qualifying_fallback str_to_float C).
Local Abbreviation layout := (track_layout str_to_float C).
Local Abbreviation hand_off := (replay_race str_to_float C).
Local Abbreviation run_main := (main str_to_float C).
Local Abbreviation fallback_outcome := (fallback_outcome str_to_float C).
Local Abbreviation is_race_run := (race_run C).
Local Abbreviation stalls := (no_improvement str_to_float C).
Local Abbreviation raises := (raises_in_fallback str_to_float C).

Lemma stages_app (t1 t2 : Trace) : stages (t1 ++ t2) = stages t1 ++ stages t2.
Proof. apply omap_app. Qed.

Lemma session_loads_app (t1 t2 : Trace) :
  session_loads (t1 ++ t2) = session_loads t1 ++ session_loads t2.
Proof. apply omap_app. Qed.

Lemma layout_calls_app (t1 t2 : Trace) :
  layout_calls (t1 ++ t2) = layout_calls t1 ++ layout_calls t2.
Proof. apply List.filter_app. Qed.

Lemma fallback_used_app (t1 t2 : Trace) :
  fallback_used (t1 ++ t2) = fallback_used t1 || fallback_used t2.
Proof. apply existsb_app. Qed.

Lemma handed_off_app (t1 t2 : Trace) :
  handed_off (t1 ++ t2) = handed_off t1 ++ handed_off t2.
Proof. apply omap_app. Qed.

(** *** The qualifying fallback (lines 103-113) *)

Lemma fallback_cases (year round_number : option Z) (example_lap : option Telemetry) :
  fallback_outcome year round_number example_lap
    (fallback year round_number example_lap).
Proof.
  unfold qualifying_fallback. block_unfold.
  destruct (load_session C year round_number "Q") as [[quali_session|]|e] eqn:Hload;
    simpl; try (now constructor).
  destruct (laps quali_session) as [quali_laps|e] eqn:Hlaps; simpl; try (now constructor).
  case_bool_decide as Hlen; simpl; try (now constructor).
  destruct (pick_fastest quali_laps) as [[fastest_quali|]|e] eqn:Hpick;
    simpl; try (now constructor).
  destruct (get_telemetry fastest_quali) as [quali_telemetry|e] eqn:Htel;
    simpl; try (now constructor).
  destruct (has_activation quali_telemetry) as [[|]|e] eqn:Hact;
    simpl; try (now constructor).
  assert (Hactive : qualifying_lap_active str_to_float C year round_number fastest_quali
                      quali_telemetry)
    by (exists quali_session, quali_laps; repeat split; assumption).
  destruct (Driver fastest_quali) as [driver|e] eqn:Hdriver; simpl.
  - eapply fallback_adopted; eauto.
  - eapply fallback_adopted_unlogged; eauto.
Qed.

(** The body when the qualifying lap is there to adopt: line 112 assigns
    it, and line 113 logs the adoption or raises. *)
Lemma fallback_adopts (year round_number : option Z) (example_lap : option Telemetry)
    (fastest_quali : Lap) (quali_telemetry : option Telemetry) :
  qualifying_lap_active str_to_float C year round_number fastest_quali quali_telemetry ->
  fallback year round_number example_lap =
    ([ EvCall (CallLoadSession year round_number "Q");
       EvLogStep MsgLoadedQualifyingSession;
       EvCall (CallPickFastest "Q");
       EvCall (CallGetTelemetry fastest_quali);
       EvAdoptQualifyingLap ] ++
     match Driver fastest_quali with
     | Ok driver => [EvLog (MsgUsingQualifyingLap driver)]
     | Err _ => []
     end,
     (quali_telemetry,
      match Driver fastest_quali with
      | Ok _ => Ok tt
      | Err e => Err e
      end)).
Proof.
  intros (quali_session & quali_laps & Hload & Hlaps & Hlen & Hpick & Htel & Hact).
  unfold qualifying_fallback. block_unfold.
  rewrite Hload. simpl. rewrite Hlaps. simpl.
  rewrite bool_decide_eq_true_2 by assumption. simpl.
  rewrite Hpick. simpl. rewrite Htel. simpl. rewrite Hact. simpl.
  now destruct (Driver fastest_quali).
Qed.

(** An exception raised before line 112 leaves the body with the lap it
    was given. *)
Lemma fallback_raises_before (year round_number : option Z)
    (example_lap : option Telemetry) (e : exn) :
  raises year round_number e ->
  (fallback year round_number example_lap).2 = (example_lap, Err e).
Proof.
  unfold qualifying_fallback. block_unfold.
  intros [Hload|qs Hload Hlaps|qs ql Hload Hlaps Hlen Hpick
         |qs ql fq Hload Hlaps Hlen Hpick Htel
         |qs ql fq qt Hload Hlaps Hlen Hpick Htel Hact];
    rewrite Hload; simpl; try reflexivity;
    rewrite Hlaps; simpl; try reflexivity;
    rewrite bool_decide_eq_true_2 by assumption; simpl;
    rewrite Hpick; simpl; try reflexivity;
    rewrite Htel; simpl; try reflexivity;
    rewrite Hact; reflexivity.
Qed.

(** An exception raised on line 113 leaves it with the adopted lap. *)
Lemma fallback_raises_after (year round_number : option Z)
    (example_lap quali_telemetry : option Telemetry) (e : exn) :
  raises_after_adoption str_to_float C year round_number e quali_telemetry ->
  (fallback year round_number example_lap).2 = (quali_telemetry, Err e).
Proof.
  intros (fastest_quali & Hactive & Hdriver).
  rewrite (fallback_adopts _ _ _ _ _ Hactive), Hdriver. reflexivity.
Qed.

(** An exception leaves the body from one of its five calls before line
    112, or from line 113; there is no other place. *)
Lemma fallback_raises_cases (year round_number : option Z)
    (example_lap : option Telemetry) (e : exn) :
  (fallback year round_number example_lap).2.2 = Err e ->
  raises year round_number e /\
    (fallback year round_number example_lap).2.1 = example_lap \/
  exists quali_telemetry,
    raises_after_adoption str_to_float C year round_number e quali_telemetry /\
    (fallback year round_number example_lap).2.1 = quali_telemetry.
Proof.
  unfold qualifying_fallback. block_unfold.
  destruct (load_session C year round_number "Q") as [[quali_session|]|e0] eqn:Hload;
    simpl; try discriminate; [|intros [= <-]; left; split; [now apply raise_load|easy]].
  destruct (laps quali_session) as [quali_laps|e0] eqn:Hlaps; simpl;
    [|intros [= <-]; left; split; [eapply raise_laps; eauto|easy]].
  case_bool_decide as Hlen; simpl; [|discriminate].
  destruct (pick_fastest quali_laps) as [[fastest_quali|]|e0] eqn:Hpick;
    simpl; try discriminate;
    [|intros [= <-]; left; split; [eapply raise_pick; eauto|easy]].
  destruct (get_telemetry fastest_quali) as [quali_telemetry|e0] eqn:Htel;
    simpl; [|intros [= <-]; left; split; [eapply raise_telemetry; eauto|easy]].
  destruct (has_activation quali_telemetry) as [[|]|e0] eqn:Hact;
    simpl; try discriminate;
    [|intros [= <-]; left; split; [eapply raise_inspect; eauto|easy]].
  destruct (Driver fastest_quali) as [driver|e0] eqn:Hdriver; simpl; [discriminate|].
  intros [= <-]. right. exists quali_telemetry. split; [|reflexivity].
  exists fastest_quali. split; [|exact Hdriver].
  exists quali_session, quali_laps. repeat split; assumption.
Qed.

(** With no improvement to be had, the body ends with the lap it was
    given, by an exception or not; it never adopts. *)
Lemma fallback_stalls (year round_number : option Z) (example_lap : option Telemetry) :
  stalls year round_number ->
  fallback_used (fallback year round_number example_lap).1 = false /\
  (fallback year round_number example_lap).2.1 = example_lap.
Proof.
  unfold qualifying_fallback. block_unfold.
  intros [e Hload|qs ql Hload Hlaps Hlen|qs ql Hload Hlaps Hpick
         |qs ql fq qt Hload Hlaps Hpick Htel Hact];
    rewrite Hload; simpl; eauto; rewrite Hlaps; simpl.
  - rewrite bool_decide_eq_false_2 by lia. simpl. eauto.
  - case_bool_decide; simpl; [rewrite Hpick; simpl|]; eauto.
  - case_bool_decide; simpl; [rewrite Hpick; simpl; rewrite Htel; simpl; rewrite Hact|];
      simpl; eauto.
Qed.

(** *** Layout selection (lines 89-117) *)

Lemma layout_no_fastest (year round_number : option Z) (session_type : string)
    (session : Session) (session_laps : Laps) :
  laps session = Ok session_laps ->
  pick_fastest session_laps = Ok None ->
  layout year round_number session_type session =
    ([EvCall (CallPickFastest session_type); EvLog MsgNoValidLaps], Ok None).
Proof.
  intros Hlaps Hpick. unfold track_layout. comp_unfold.
  rewrite Hlaps. simpl. rewrite Hpick. reflexivity.
Qed.

Lemma layout_active (year round_number : option Z) (session_type : string)
    (session : Session) (fastest_lap : Lap) (example_lap : option Telemetry)
    (driver : string) :
  primary_lap session fastest_lap example_lap ->
  has_activation example_lap = Ok true ->
  Driver fastest_lap = Ok driver ->
  layout year round_number session_type session =
    ([ EvCall (CallPickFastest session_type);
       EvCall (CallGetTelemetry fastest_lap);
       EvLog (MsgUsingRaceLap driver);
       EvLogStep MsgTrackLayoutPrepared ],
     Ok (Some example_lap)).
Proof.
  intros (session_laps & Hlaps & Hpick & Htel) Hact Hdriver.
  unfold track_layout. comp_unfold.
  rewrite Hlaps. simpl. rewrite Hpick. simpl. rewrite Htel. simpl. rewrite Hact.
  simpl. rewrite Hdriver. reflexivity.
Qed.

(** On an active primary lap whose driver cannot be read, line 99 raises,
    outside any [try]. *)
Lemma layout_active_unnamed (year round_number : option Z) (session_type : string)
    (session : Session) (fastest_lap : Lap) (example_lap : option Telemetry) (e : exn) :
  primary_lap session fastest_lap example_lap ->
  has_activation example_lap = Ok true ->
  Driver fastest_lap = Err e ->
  layout year round_number session_type session =
    ([ EvCall (CallPickFastest session_type);
       EvCall (CallGetTelemetry fastest_lap) ],
     Err e).
Proof.
  intros (session_laps & Hlaps & Hpick & Htel) Hact Hdriver.
  unfold track_layout. comp_unfold.
  rewrite Hlaps. simpl. rewrite Hpick. simpl. rewrite Htel. simpl. rewrite Hact.
  simpl. rewrite Hdriver. reflexivity.
Qed.

Lemma layout_inactive (year round_number : option Z) (session_type : string)
    (session : Session) (fastest_lap : Lap) (example_lap : option Telemetry) :
  primary_lap session fastest_lap example_lap ->
  has_activation example_lap = Ok false ->
  layout year round_number session_type session =
    ([ EvCall (CallPickFastest session_type);
       EvCall (CallGetTelemetry fastest_lap);
       EvLog MsgRaceLapLacksDrs ] ++
     (fallback year round_number example_lap).1 ++
     except_trace (fallback year round_number example_lap).2.2 ++
     [ EvLogStep MsgTrackLayoutPrepared ],
     Ok (Some (fallback year round_number example_lap).2.1)).
Proof.
  intros (session_laps & Hlaps & Hpick & Htel) Hact.
  unfold track_layout, try_except_block. comp_unfold.
  rewrite Hlaps. simpl. rewrite Hpick. simpl. rewrite Htel. simpl. rewrite Hact.
  destruct (fallback year round_number example_lap) as [t [lap [[]|e]]]; simpl;
    rewrite <- ?app_assoc; reflexivity.
Qed.

(** *** The hand-off (lines 119-159) *)

(** The hand-off asks for no session and no lap, closes at most the
    [Ready] stage, and what it passes to the replay is the lap it was
    given, with the banner's circuit length computed from that lap. *)
Lemma hand_off_shape (year round_number : option Z) (playback_speed : Z)
    (session_type : string) (visible_hud : bool) (ready_file : option string)
    (session : Session) (race_telemetry : RaceTelemetry)
    (example_lap : option Telemetry) :
  let h := hand_off year round_number playback_speed session_type visible_hud
             ready_file session race_telemetry example_lap in
  session_loads h.1 = [] /\
  fallback_used h.1 = false /\
  layout_calls h.1 = [] /\
  stages h.1 `prefix_of` [Ready] /\
  (handed_off h.1 = [] \/
   stages h.1 = [Ready] /\
   exists args,
     handed_off h.1 = [args] /\
     ar_example_lap args = example_lap /\
     circuit_length_m str_to_float example_lap
       = Ok (si_circuit_length_m (ar_session_info args))).
Proof.
  assert (Hnone : ([] : list Stage) `prefix_of` [Ready]) by apply prefix_nil.
  unfold replay_race. comp_unfold.
  destruct (drivers session); simpl; [|tauto].
  destruct (get_circuit_rotation C session); simpl; [|tauto].
  destruct (session_info str_to_float year round_number session race_telemetry
              example_lap) as [info|] eqn:Hinfo; simpl; [|tauto].
  destruct (launch_insights_menu C); simpl; [|tauto].
  assert (Hlen : circuit_length_m str_to_float example_lap
                 = Ok (si_circuit_length_m info)).
  { revert Hinfo. unfold session_info.
    destruct (banner_date session); [|discriminate]. simpl.
    destruct (circuit_length_m str_to_float example_lap); [|discriminate].
    now intros [= <-]. }
  destruct (event_getitem session "EventName"); simpl.
  - do 3 (split; [reflexivity|]). split; [reflexivity|].
    right. split; [reflexivity|].
    eexists. split; [reflexivity|]. split; [reflexivity|exact Hlen].
  - do 3 (split; [reflexivity|]). split; [reflexivity|]. now left.
Qed.

(** *** The whole run *)

(** A race run is its opening, layout selection, and, unless that
    returned early or raised, the hand-off of the selected lap. *)
Lemma main_race (year round_number : option Z) (playback_speed : Z)
    (session_type : string) (visible_hud : bool) (ready_file : option string)
    (show_telemetry_viewer : bool)
    (session : Session) (race_telemetry : RaceTelemetry)
    (event_name event_round : EventVal) :
  is_race_run year round_number session_type session race_telemetry
    event_name event_round ->
  run_main year round_number playback_speed session_type visible_hud ready_file
      show_telemetry_viewer =
    let selected := layout year round_number session_type session in
    let before :=
      race_opening year round_number session_type session event_name event_round
      ++ selected.1 in
    match selected.2 with
    | Ok (Some example_lap) =>
        let h := hand_off year round_number playback_speed session_type visible_hud
                   ready_file session race_telemetry example_lap in
        (before ++ h.1, h.2)
    | Ok None => (before, Ok tt)
    | Err e => (before, Err e)
    end.
Proof.
  intros [[HQ HSQ] Hcache Hload Hname Hround Hrace].
  unfold main, event_getitem. comp_unfold.
  rewrite Hcache. simpl. rewrite Hload. simpl. rewrite Hname, Hround. simpl.
  rewrite !bool_decide_eq_false_2 by assumption. simpl.
  rewrite Hrace. simpl.
  destruct (layout year round_number session_type session) as [t [[lap|]|e]]; simpl.
  - destruct (hand_off _ _ _ _ _ _ _ _ _) as [t' r]. reflexivity.
  - unfold race_opening, opening. simpl. now rewrite app_nil_r.
  - reflexivity.
Qed.

(** Simplifies what a trace shows, through concatenations. *)
Ltac observe :=
  repeat progress
    (simpl;
     rewrite ?stages_app, ?session_loads_app, ?layout_calls_app, ?fallback_used_app,
       ?handed_off_app);
  simpl.

Lemma race_opening_shows (year round_number : option Z) (session_type : string)
    (session : Session) (event_name event_round : EventVal) :
  let t := race_opening year round_number session_type session event_name event_round in
  stages t = [SessionLoaded; TelemetryAssembled] /\
  session_loads t = [(year, round_number, session_type)] /\
  layout_calls t = [] /\
  fallback_used t = false /\
  handed_off t = [].
Proof. repeat split. Qed.

Lemma except_trace_shows {A : Type} (r : result A) :
  stages (except_trace r) = [] /\
  session_loads (except_trace r) = [] /\
  fallback_used (except_trace r) = false /\
  handed_off (except_trace r) = [].
Proof. destruct r; repeat split. Qed.

(** Layout selection ends with the primary lap, the fallback unused, or
    with a lap that shows activation, the fallback used. *)
Lemma layout_selection (year round_number : option Z) (session_type : string)
    (session : Session) (fastest_lap : Lap) (example_lap selected : option Telemetry)
    (t : Trace) :
  primary_lap session fastest_lap example_lap ->
  layout year round_number session_type session = (t, Ok (Some selected)) ->
  selected = example_lap /\ fallback_used t = false \/
  has_activation selected = Ok true /\ fallback_used t = true.
Proof.
  intros Hprimary.
  destruct (has_activation example_lap) as [[|]|e] eqn:Hact.
  - destruct (Driver fastest_lap) as [driver|e] eqn:Hdriver.
    + rewrite (layout_active _ _ _ _ _ _ _ Hprimary Hact Hdriver).
      intros [= <- <-]. now left.
    + rewrite (layout_active_unnamed _ _ _ _ _ _ _ Hprimary Hact Hdriver).
      discriminate.
  - rewrite (layout_inactive _ _ _ _ _ _ Hprimary Hact).
    destruct (fallback_cases year round_number example_lap)
      as [tf e Hused _ _ _|tf Hused _ _ _
         |tf fq qt driver (qs & ql & _ & _ & _ & _ & _ & Hq) _ ->
         |tf fq qt e (qs & ql & _ & _ & _ & _ & _ & Hq) _ ->];
      simpl; intros [= <- <-]; observe; rewrite ?Hused; auto.
  - destruct Hprimary as (session_laps & Hlaps & Hpick & Htel).
    unfold track_layout. comp_unfold.
    rewrite Hlaps. simpl. rewrite Hpick. simpl. rewrite Htel. simpl. rewrite Hact.
    discriminate.
Qed.

(** *** The claims about a race run *)

(** C1, as amended.  In a race or sprint run whose primary session yields
    no fastest lap, [main] logs the error line and returns to its caller
    without raising; the run ends there, right after the race dataset was
    assembled and the fastest lap asked for, and nothing is handed to the
    replay. *)
Theorem C1_no_fastest_lap_logs_and_returns
    (year round_number : option Z) (playback_speed : Z) (session_type : string)
    (visible_hud : bool) (ready_file : option string) (show_telemetry_viewer : bool)
    (session : Session) (race_telemetry : RaceTelemetry)
    (event_name event_round : EventVal) (session_laps : Laps)
    (Hrun : is_race_run year round_number session_type session race_telemetry
              event_name event_round)
    (Hlaps : laps session = Ok session_laps)
    (Hnone : pick_fastest session_laps = Ok None) :
  let run := run_main year round_number playback_speed session_type visible_hud
               ready_file show_telemetry_viewer in
  run =
    (race_opening year round_number session_type session event_name event_round ++
     [ EvCall (CallPickFastest session_type); EvLog MsgNoValidLaps ],
     Ok tt) /\
  handed_off run.1 = [] /\
  stages run.1 = [SessionLoaded; TelemetryAssembled].
Proof.
  simpl. rewrite (main_race _ _ _ _ _ _ _ _ _ _ _ Hrun).
  rewrite (layout_no_fastest _ _ _ _ _ Hlaps Hnone). simpl.
  repeat split.
Qed.

(** C5.  In a race or sprint run whose fastest lap's telemetry shows
    activation, layout selection ends with that telemetry, logged under
    the fastest lap's driver; the fallback is not used; the only session
    the run loads is its own; and what reaches the replay is that
    telemetry. *)
Theorem C5_active_race_lap_is_the_layout
    (year round_number : option Z) (playback_speed : Z) (session_type : string)
    (visible_hud : bool) (ready_file : option string) (show_telemetry_viewer : bool)
    (session : Session) (race_telemetry : RaceTelemetry)
    (event_name event_round : EventVal)
    (fastest_lap : Lap) (example_lap : option Telemetry) (driver : string)
    (Hrun : is_race_run year round_number session_type session race_telemetry
              event_name event_round)
    (Hprimary : primary_lap session fastest_lap example_lap)
    (Hactive : has_activation example_lap = Ok true)
    (Hdriver : Driver fastest_lap = Ok driver) :
  let run := run_main year round_number playback_speed session_type visible_hud
               ready_file show_telemetry_viewer in
  let h := hand_off year round_number playback_speed session_type visible_hud
             ready_file session race_telemetry example_lap in
  layout year round_number session_type session =
    ([ EvCall (CallPickFastest session_type);
       EvCall (CallGetTelemetry fastest_lap);
       EvLog (MsgUsingRaceLap driver);
       EvLogStep MsgTrackLayoutPrepared ],
     Ok (Some example_lap)) /\
  run =
    ((race_opening year round_number session_type session event_name event_round ++
      [ EvCall (CallPickFastest session_type);
        EvCall (CallGetTelemetry fastest_lap);
        EvLog (MsgUsingRaceLap driver);
        EvLogStep MsgTrackLayoutPrepared ]) ++ h.1,
     h.2) /\
  fallback_used run.1 = false /\
  session_loads run.1 = [(year, round_number, session_type)] /\
  (forall args, args ∈ handed_off run.1 -> ar_example_lap args = example_lap).
Proof.
  simpl. rewrite (main_race _ _ _ _ _ _ _ _ _ _ _ Hrun).
  rewrite (layout_active _ _ _ _ _ _ _ Hprimary Hactive Hdriver). simpl.
  destruct (hand_off_shape year round_number playback_speed session_type visible_hud
              ready_file session race_telemetry example_lap)
    as (Hloads & Hused & _ & _ & Hargs).
  split; [reflexivity|]. split; [reflexivity|]. observe.
  rewrite Hloads, Hused. split; [reflexivity|]. split; [reflexivity|].
  intros args. destruct Hargs as [->|(_ & args' & -> & Hlap & _)].
  - now intros ?%elem_of_nil.
  - now intros ->%list_elem_of_singleton.
Qed.

(** C6.  In a race or sprint run whose fastest lap's telemetry lacks
    activation, when the qualifying session of the same year and round
    loads, has laps and a fastest lap, and that lap's telemetry shows
    activation, layout selection ends with the qualifying lap's telemetry,
    the fallback is used, and what reaches the replay is that telemetry;
    the adoption is logged under the qualifying lap's driver. *)
Theorem C6_active_qualifying_lap_replaces_the_layout
    (year round_number : option Z) (playback_speed : Z) (session_type : string)
    (visible_hud : bool) (ready_file : option string) (show_telemetry_viewer : bool)
    (session : Session) (race_telemetry : RaceTelemetry)
    (event_name event_round : EventVal)
    (fastest_lap : Lap) (example_lap : option Telemetry)
    (quali_session : Session) (quali_laps : Laps) (fastest_quali : Lap)
    (quali_telemetry : option Telemetry)
    (Hrun : is_race_run year round_number session_type session race_telemetry
              event_name event_round)
    (Hprimary : primary_lap session fastest_lap example_lap)
    (Hinactive : has_activation example_lap = Ok false)
    (Hload : load_session C year round_number "Q" = Ok (Some quali_session))
    (Hlaps : laps quali_session = Ok quali_laps)
    (Hcount : (0 < laps_len quali_laps)%nat)
    (Hpick : pick_fastest quali_laps = Ok (Some fastest_quali))
    (Htelemetry : get_telemetry fastest_quali = Ok quali_telemetry)
    (Hactive : has_activation quali_telemetry = Ok true) :
  let run := run_main year round_number playback_speed session_type visible_hud
               ready_file show_telemetry_viewer in
  let h := hand_off year round_number playback_speed session_type visible_hud
             ready_file session race_telemetry quali_telemetry in
  (layout year round_number session_type session).2 = Ok (Some quali_telemetry) /\
  run.2 = h.2 /\
  fallback_used run.1 = true /\
  (forall args, args ∈ handed_off run.1 -> ar_example_lap args = quali_telemetry) /\
  (forall driver, Driver fastest_quali = Ok driver ->
     layout year round_number session_type session =
       ([ EvCall (CallPickFastest session_type);
          EvCall (CallGetTelemetry fastest_lap);
          EvLog MsgRaceLapLacksDrs;
          EvCall (CallLoadSession year round_number "Q");
          EvLogStep MsgLoadedQualifyingSession;
          EvCall (CallPickFastest "Q");
          EvCall (CallGetTelemetry fastest_quali);
          EvAdoptQualifyingLap;
          EvLog (MsgUsingQualifyingLap driver);
          EvLogStep MsgTrackLayoutPrepared ],
        Ok (Some quali_telemetry))).
Proof.
  assert (Hquali : qualifying_lap_active str_to_float C year round_number fastest_quali
                     quali_telemetry)
    by (exists quali_session, quali_laps; repeat split; assumption).
  simpl. rewrite (main_race _ _ _ _ _ _ _ _ _ _ _ Hrun).
  rewrite (layout_inactive _ _ _ _ _ _ Hprimary Hinactive).
  rewrite (fallback_adopts _ _ example_lap _ _ Hquali).
  destruct (hand_off_shape year round_number playback_speed session_type visible_hud
              ready_file session race_telemetry quali_telemetry)
    as (_ & _ & _ & _ & Hargs).
  destruct (Driver fastest_quali) as [name|e]; simpl;
    (split; [reflexivity|]); (split; [reflexivity|]);
    (split; [observe; reflexivity|]); split.
  1, 3: intros args; observe;
        destruct Hargs as [->|(_ & args' & -> & Hlap & _)];
        [now intros ?%elem_of_nil|now intros ->%list_elem_of_singleton].
  - now intros driver [= ->].
  - intros driver [=].
Qed.

(** Layout selection hands nothing to the replay, loads at most the
    qualifying session, and closes its stage exactly when it ends with a
    lap. *)
Lemma layout_shows (year round_number : option Z) (session_type : string)
    (session : Session) :
  let l := layout year round_number session_type session in
  handed_off l.1 = [] /\
  session_loads l.1 `prefix_of` [(year, round_number, "Q")] /\
  (stages l.1 = [LayoutResolved] /\ (exists lap, l.2 = Ok (Some lap)) \/
   stages l.1 = [] /\ (l.2 = Ok None \/ exists e, l.2 = Err e)).
Proof.
  assert (Hnil : forall l : list (option Z * option Z * string), [] `prefix_of` l)
    by apply prefix_nil.
  unfold track_layout, try_except_block. comp_unfold.
  destruct (laps session) as [session_laps|]; simpl; [|eauto 10].
  destruct (pick_fastest session_laps) as [[fastest_lap|]|]; simpl; [|eauto 10..].
  destruct (get_telemetry fastest_lap) as [example_lap|]; simpl; [|eauto 10].
  destruct (has_activation example_lap) as [[|]|]; simpl; [| |eauto 10].
  { destruct (Driver fastest_lap); simpl; eauto 10. }
  destruct (fallback_cases year round_number example_lap)
    as [tf e Hused Hst Hoff Hld|tf Hused Hst Hoff Hld
       |tf fq qt driver _ _ ->|tf fq qt e _ _ ->];
    observe; rewrite ?Hst, ?Hoff, ?Hld; simpl; eauto 10.
Qed.

(** C7.  In a race or sprint run whose fastest lap's telemetry lacks
    activation, when the qualifying fallback brings no improvement (its
    load fails, or the qualifying session has no laps, or no fastest lap,
    or a fastest lap without activation), layout selection still ends with
    the race lap's telemetry, the fallback is not used, and what reaches
    the replay is the race lap's telemetry. *)
Theorem C7_race_lap_kept_without_improvement
    (year round_number : option Z) (playback_speed : Z) (session_type : string)
    (visible_hud : bool) (ready_file : option string) (show_telemetry_viewer : bool)
    (session : Session) (race_telemetry : RaceTelemetry)
    (event_name event_round : EventVal)
    (fastest_lap : Lap) (example_lap : option Telemetry)
    (Hrun : is_race_run year round_number session_type session race_telemetry
              event_name event_round)
    (Hprimary : primary_lap session fastest_lap example_lap)
    (Hinactive : has_activation example_lap = Ok false)
    (Hstall : stalls year round_number) :
  let run := run_main year round_number playback_speed session_type visible_hud
               ready_file show_telemetry_viewer in
  let h := hand_off year round_number playback_speed session_type visible_hud
             ready_file session race_telemetry example_lap in
  (layout year round_number session_type session).2 = Ok (Some example_lap) /\
  run.2 = h.2 /\
  fallback_used run.1 = false /\
  (forall args, args ∈ handed_off run.1 -> ar_example_lap args = example_lap).
Proof.
  simpl. rewrite (main_race _ _ _ _ _ _ _ _ _ _ _ Hrun).
  rewrite (layout_inactive _ _ _ _ _ _ Hprimary Hinactive).
  destruct (fallback_stalls year round_number example_lap Hstall) as [Hused Hkept].
  destruct (hand_off_shape year round_number playback_speed session_type visible_hud
              ready_file session race_telemetry example_lap)
    as (_ & Hhused & _ & _ & Hargs).
  assert (Hoff : handed_off (fallback year round_number example_lap).1 = []).
  { destruct (fallback_cases year round_number example_lap)
      as [tf e _ _ Hoff _|tf _ _ Hoff _|tf fq qt driver _ _ ->|tf fq qt e _ _ ->];
      [exact Hoff|exact Hoff|reflexivity|reflexivity]. }
  destruct (except_trace_shows (fallback year round_number example_lap).2.2)
    as (_ & _ & Heused & Heoff).
  simpl. rewrite Hkept. split; [reflexivity|]. split; [reflexivity|]. observe.
  rewrite Hused, Hhused, Hoff, Heused, Heoff. simpl. split; [reflexivity|].
  intros args; destruct Hargs as [->|(_ & args' & -> & Hlap & _)];
    [now intros ?%elem_of_nil|now intros ->%list_elem_of_singleton].
Qed.


(** C10.  In a race or sprint run, a layout that is not the primary
    fastest lap's telemetry has been adopted from the qualifying session,
    and so shows activation: this holds of the lap layout selection ends
    with, and of the lap that reaches the replay. *)
Theorem C10_adopted_layout_shows_activation
    (year round_number : option Z) (playback_speed : Z) (session_type : string)
    (visible_hud : bool) (ready_file : option string) (show_telemetry_viewer : bool)
    (session : Session) (race_telemetry : RaceTelemetry)
    (event_name event_round : EventVal)
    (fastest_lap : Lap) (example_lap : option Telemetry)
    (Hrun : is_race_run year round_number session_type session race_telemetry
              event_name event_round)
    (Hprimary : primary_lap session fastest_lap example_lap) :
  let run := run_main year round_number playback_speed session_type visible_hud
               ready_file show_telemetry_viewer in
  (forall t selected,
     layout year round_number session_type session = (t, Ok (Some selected)) ->
     selected <> example_lap ->
     has_activation selected = Ok true /\ fallback_used t = true) /\
  (forall args, args ∈ handed_off run.1 ->
     ar_example_lap args <> example_lap ->
     has_activation (ar_example_lap args) = Ok true).
Proof.
  simpl. split.
  - intros t selected Hlayout Hother.
    destruct (layout_selection _ _ _ _ _ _ _ _ Hprimary Hlayout) as [[-> _]|H];
      [contradiction|exact H].
  - rewrite (main_race _ _ _ _ _ _ _ _ _ _ _ Hrun).
    pose proof (layout_shows year round_number session_type session) as (Hoff & _ & _).
    pose proof (layout_selection year round_number session_type session fastest_lap
                  example_lap) as Hsel.
    destruct (layout year round_number session_type session) as [t [[selected|]|e]];
      simpl in *.
    + destruct (hand_off_shape year round_number playback_speed session_type
                  visible_hud ready_file session race_telemetry selected)
        as (_ & _ & _ & _ & Hargs).
      intros args. observe. rewrite Hoff. simpl.
      destruct Hargs as [->|(_ & args' & -> & Hlap & _)];
        [now intros ?%elem_of_nil|intros ->%list_elem_of_singleton].
      rewrite Hlap. intros Hother.
      destruct (Hsel selected t Hprimary eq_refl) as [[-> _]|[H _]];
        [contradiction|exact H].
    + intros args. observe. rewrite Hoff. now intros ?%elem_of_nil.
    + intros args. observe. rewrite Hoff. now intros ?%elem_of_nil.
Qed.

(** *** The order of the stages *)

(** The qualifying branch picks no lap and loads no session; it closes
    the dataset stage and then [Ready], and hands off only after both. *)
Lemma qualifying_shows (session_type : string) (ready_file : option string)
    (session : Session) :
  let q := replay_qualifying C session_type ready_file session in
  layout_calls q.1 = [] /\
  session_loads q.1 = [] /\
  stages q.1 `prefix_of` [TelemetryAssembled; Ready] /\
  (handed_off_qualifying q.1 <> [] -> stages q.1 = [TelemetryAssembled; Ready]).
Proof.
  unfold replay_qualifying. comp_unfold.
  destruct (get_quali_telemetry C session session_type); simpl.
  - destruct (event_getitem session "EventName"); simpl.
    + repeat split. now exists [].
    + repeat split; [|congruence]. now exists [Ready].
  - repeat split; [|congruence]. apply prefix_nil.
Qed.

(** C2, as amended.  In a race or sprint run (any session type but Q and
    SQ) the stages close in the order SessionLoaded, TelemetryAssembled,
    LayoutResolved, Ready: the race dataset is assembled before the layout
    is selected.  A run stops early only by leaving a tail of that list
    out, and a run that reaches the replay has closed all four.  In a
    qualifying or sprint-qualifying run the order is SessionLoaded,
    TelemetryAssembled, Ready; no fastest lap is picked, no lap telemetry
    is read, and no session but the run's own is loaded. *)
Theorem C2_stage_order
    (year round_number : option Z) (playback_speed : Z) (session_type : string)
    (visible_hud : bool) (ready_file : option string) (show_telemetry_viewer : bool) :
  let run := run_main year round_number playback_speed session_type visible_hud
               ready_file show_telemetry_viewer in
  (session_type <> "Q" -> session_type <> "SQ" ->
     stages run.1 `prefix_of`
       [SessionLoaded; TelemetryAssembled; LayoutResolved; Ready] /\
     (handed_off run.1 <> [] ->
      stages run.1 = [SessionLoaded; TelemetryAssembled; LayoutResolved; Ready])) /\
  (session_type = "Q" \/ session_type = "SQ" ->
     stages run.1 `prefix_of` [SessionLoaded; TelemetryAssembled; Ready] /\
     (handed_off_qualifying run.1 <> [] ->
      stages run.1 = [SessionLoaded; TelemetryAssembled; Ready]) /\
     layout_calls run.1 = [] /\
     session_loads run.1 `prefix_of` [(year, round_number, session_type)]).
Proof.
  simpl. unfold main. comp_unfold.
  destruct (enable_cache C); simpl;
    [|repeat split; intros; first [apply prefix_nil|congruence]].
  destruct (load_session C year round_number session_type) as [[session|]|]; simpl;
    [|repeat split; intros; first [apply prefix_nil|congruence|reflexivity]..].
  destruct (event_getitem session "EventName") as [event_name|]; simpl;
    [|repeat split; intros; first [apply prefix_nil|congruence|reflexivity]].
  destruct (event_getitem session "RoundNumber") as [event_round|]; simpl;
    [|repeat split; intros; first [apply prefix_nil|congruence|reflexivity]].
  split.
  - intros HQ HSQ. rewrite !bool_decide_eq_false_2 by assumption. simpl.
    destruct (get_race_telemetry C session session_type) as [race_telemetry|]; simpl;
      [|split; [now exists [TelemetryAssembled; LayoutResolved; Ready]|congruence]].
    pose proof (layout_shows year round_number session_type session)
      as (Hoff & _ & Hstages).
    destruct (layout year round_number session_type session) as [t [[lap|]|e]];
      simpl in *;
      destruct Hstages as [[Hst [lap' Hlap]]|[Hst Hend]]; try discriminate;
      try (destruct Hend as [?|[? ?]]; discriminate).
    + pose proof (hand_off_shape year round_number playback_speed session_type
                    visible_hud ready_file session race_telemetry lap)
        as (_ & _ & _ & Hpre & Hargs).
      destruct (hand_off _ _ _ _ _ _ _ _ _) as [t' r]. simpl in *.
      observe. rewrite Hst, Hoff. simpl. split.
      * do 3 apply prefix_cons. exact Hpre.
      * destruct Hargs as [->|[-> _]]; [congruence|reflexivity].
    + observe. rewrite Hst, Hoff. simpl.
      split; [now exists [LayoutResolved; Ready]|congruence].
    + observe. rewrite Hst, Hoff. simpl.
      split; [now exists [LayoutResolved; Ready]|congruence].
  - intros Hq.
    assert (Hbranch : bool_decide (session_type = "Q")
                      || bool_decide (session_type = "SQ") = true).
    { destruct Hq as [->| ->]; reflexivity. }
    rewrite Hbranch.
    pose proof (qualifying_shows session_type ready_file session)
      as (Hcalls & Hloads & Hpre & Hfull).
    destruct (replay_qualifying C session_type ready_file session) as [t r].
    simpl in *. rewrite Hcalls, Hloads.
    split; [now apply prefix_cons|]. split; [|split; [reflexivity|now exists []]].
    intros Hoff. now rewrite (Hfull Hoff).
Qed.

End Pipeline.

(** ** The scenarios, run *)

Import Scenario.

(** The hypothesis of a race run holds of every scenario of this kind. *)
Lemma scenario_race_run (primary : Session) (qualifying : result (option Session))
    (session_type : string) :
  session_type <> "Q" -> session_type <> "SQ" -> event primary = silverstone ->
  race_run (world primary qualifying) (Some 2025) (Some 12) session_type primary
    race_data (EText "British Grand Prix") (ENumber 12).
Proof.
  intros HQ HSQ Hevent.
  constructor; simpl; rewrite ?bool_decide_eq_false_2 by assumption; rewrite ?Hevent;
    first [reflexivity|now split].
Qed.

Lemma scenario_primary (lap : Lap) (count : nat) (table : option Telemetry) :
  get_telemetry lap = Ok table ->
  primary_lap (session_with (Some lap) count) lap table.
Proof. intros Htable. eexists. repeat split. exact Htable. Qed.

(** *** C1 *)

(** C1, refuted as stated: the race run on a session without laps, whose
    [pick_fastest] yields [None], returns to its caller; no exception
    reaches it. *)
Lemma C1_empty_race_returns_without_raising :
  laps empty_session = Ok (mkLaps 0 (Ok None)) /\
  (run (world empty_session source_down) "R").2 = Ok tt /\
  (forall e, (run (world empty_session source_down) "R").2 <> Err e).
Proof. repeat split. intros e. vm_compute. discriminate. Qed.

Lemma C1_witness_empty_race :
  race_run (world empty_session source_down) (Some 2025) (Some 12) "R" empty_session
    race_data (EText "British Grand Prix") (ENumber 12) /\
  (run (world empty_session source_down) "R").1 =
    [ EvLog (MsgLoading (Some 2025) (Some 12) "R");
      EvCall CallEnableCache;
      EvLogStep MsgCacheInitialized;
      EvCall (CallLoadSession (Some 2025) (Some 12) "R");
      EvLogStep (MsgLoadedSession (EText "British Grand Prix") (ENumber 12) "R");
      EvCall (CallGetRaceTelemetry "R");
      EvLogStep MsgPreparedRace;
      EvCall (CallPickFastest "R");
      EvLog MsgNoValidLaps ] /\
  (run (world empty_session source_down) "R").2 = Ok tt /\
  handed_off (run (world empty_session source_down) "R").1 = [].
Proof.
  assert (Hrun : race_run (world empty_session source_down) (Some 2025) (Some 12) "R"
                   empty_session race_data (EText "British Grand Prix") (ENumber 12))
    by (apply scenario_race_run; [discriminate..|reflexivity]).
  split; [exact Hrun|].
  destruct (C1_no_fastest_lap_logs_and_returns digits_to_float
              (world empty_session source_down) (Some 2025) (Some 12) 1 "R" true None
              true empty_session race_data (EText "British Grand Prix") (ENumber 12)
              (mkLaps 0 (Ok None)) Hrun eq_refl eq_refl) as (Heq & Hoff & _).
  unfold run. rewrite Heq. repeat split.
Defined.

(** *** C2 *)

(** C2, refuted as stated: in the race run whose fastest lap shows
    activation, the race dataset is assembled before the layout is
    resolved, not after. *)
Lemma C2_race_dataset_assembled_before_layout :
  dataset_and_layout_calls (run (world active_race source_down) "R").1 =
    [ EvCall (CallGetRaceTelemetry "R");
      EvCall (CallPickFastest "R");
      EvCall (CallGetTelemetry active_lap) ] /\
  stages (run (world active_race source_down) "R").1 =
    [SessionLoaded; TelemetryAssembled; LayoutResolved; Ready] /\
  occurs_before TelemetryAssembled LayoutResolved
    (stages (run (world active_race source_down) "R").1) /\
  ~ occurs_before LayoutResolved TelemetryAssembled
      (stages (run (world active_race source_down) "R").1).
Proof.
  assert (Hstages : stages (run (world active_race source_down) "R").1 =
                    [SessionLoaded; TelemetryAssembled; LayoutResolved; Ready])
    by (vm_compute; reflexivity).
  split; [vm_compute; reflexivity|].
  rewrite Hstages. split; [reflexivity|]. split.
  - now exists [SessionLoaded], [], [Ready].
  - intros (l1 & l2 & l3 & H).
    destruct l1 as [|? [|? [|? [|? [|? ?]]]]]; simplify_eq/=.
    destruct l2 as [|? [|? ?]]; simplify_eq/=.
Qed.

Lemma C2_witness_sprint_and_qualifying :
  ("S" <> "Q" /\ "S" <> "SQ") /\
  stages (run (world active_race source_down) "S").1 `prefix_of`
    [SessionLoaded; TelemetryAssembled; LayoutResolved; Ready] /\
  ("Q" = "Q" \/ "Q" = "SQ") /\
  layout_calls (run (world active_race (Ok (Some open_quali))) "Q").1 = [] /\
  session_loads (run (world active_race (Ok (Some open_quali))) "Q").1 `prefix_of`
    [(Some 2025, Some 12, "Q")].
Proof.
  assert (HS : "S" <> "Q" /\ "S" <> "SQ") by (split; discriminate).
  assert (HQ : "Q" = "Q" \/ "Q" = "SQ") by (left; reflexivity).
  split; [exact HS|]. split.
  - exact (proj1 (proj1 (C2_stage_order digits_to_float
                           (world active_race source_down)
                           (Some 2025) (Some 12) 1 "S" true None true)
                    (proj1 HS) (proj2 HS))).
  - split; [exact HQ|].
    exact (proj2 (proj2 (proj2 (C2_stage_order digits_to_float
                                  (world active_race (Ok (Some open_quali)))
                                  (Some 2025) (Some 12) 1 "Q" true None true)
                           HQ))).
Defined.

(** *** The inspector *)

(** Proves that every sample of a concrete column converts. *)
Ltac each_converts :=
  let drs_values := fresh "drs_values" in
  let Hread := fresh "Hread" in
  intros drs_values Hread; vm_compute in Hread; injection Hread as <-;
  repeat (apply List.Forall_cons;
          [first [left; eexists; reflexivity
                 |right; left; reflexivity
                 |right; right; reflexivity]|]);
  apply List.Forall_nil.

(** C3.  Where the code departs from the contract: the DRS column
    [[10**400, 12]] has a sample, 12, that reads as a number at least 10,
    and the function does not return [True] on it.  Converting the first
    sample raises [OverflowError], which the [except] clause of line 38
    does not list, so the exception leaves the function.  With the two
    samples in the other order the function returns [True]. *)
Lemma C3_overflow_ahead_of_activation (str_to_float : string -> option float) :
  drs_samples (Some (drs_only [VInt (10 ^ 400); VInt 12]))
    = Some [VInt (10 ^ 400); VInt 12] /\
  (exists value, value ∈ [VInt (10 ^ 400); VInt 12] /\
                 activates str_to_float value) /\
  _lap_has_drs_activation str_to_float (Some (drs_only [VInt (10 ^ 400); VInt 12]))
    = Err OverflowError /\
  _lap_has_drs_activation str_to_float (Some (drs_only [VInt 12; VInt (10 ^ 400)]))
    = Ok true.
Proof.
  split; [reflexivity|]. split; [|split; vm_compute; reflexivity].
  exists (VInt 12). split; [now right; left|].
  eexists. split; vm_compute; reflexivity.
Qed.

(** C4.  Where the code departs from the contract: on the DRS column
    [[10**400]], which [to_numpy] hands out, the function raises
    [OverflowError].  The same exception raised by [to_numpy] is caught by
    the [except Exception] of lines 29-32 and gives [False]. *)
Lemma C4_overflow_leaves_the_inspector (str_to_float : string -> option float) :
  to_numpy (raw_channel [VInt (10 ^ 400)]) = Ok [VInt (10 ^ 400)] /\
  _lap_has_drs_activation str_to_float (Some (drs_only [VInt (10 ^ 400)]))
    = Err OverflowError /\
  _lap_has_drs_activation str_to_float
    (Some {[ "DRS" := mkChannel (Err OverflowError) (Err OverflowError) ]})
    = Ok false.
Proof. split; [reflexivity|split; vm_compute; reflexivity]. Qed.

(** X20: the two sequences of the contract's examples. *)
Lemma inspector_skips_witness_strings :
  samples_convertible digits_to_float (Some (drs_only [VStr "x"; VInt 12])) /\
  _lap_has_drs_activation digits_to_float (Some (drs_only [VStr "x"; VInt 12])) = Ok true /\
  samples_convertible digits_to_float (Some (drs_only [VStr "x"; VStr "y"])) /\
  _lap_has_drs_activation digits_to_float (Some (drs_only [VStr "x"; VStr "y"])) = Ok false.
Proof.
  assert (H12 : samples_convertible digits_to_float (Some (drs_only [VStr "x"; VInt 12])))
    by each_converts.
  assert (Hxy : samples_convertible digits_to_float (Some (drs_only [VStr "x"; VStr "y"])))
    by each_converts.
  split; [exact H12|]. split; [|split; [exact Hxy|]].
  - apply (inspector_returns_and_skips_unparseable digits_to_float _ H12).
    reflexivity.
  - apply (inspector_returns_and_skips_unparseable digits_to_float _ Hxy);
      [reflexivity|right; reflexivity..].
Defined.

(** *** C9 *)

Lemma C9_witness_probes :
  circuit_length_m digits_to_float (Some (lap_table [0; 0; 15; 0] [0; 1900; 3800; 5891]))
    = Ok (Some 5891%float) /\
  circuit_length_m digits_to_float (Some (drs_only [VInt 0])) = Ok None /\
  _lap_has_drs_activation digits_to_float (Some (distance_only [0; 5891])) = Ok false /\
  (lap_has_drs_activation_reads digits_to_float (Some (distance_only [0; 5891]))).1
    = [Probe "DRS"].
Proof.
  split; [|split; [|split]].
  - rewrite (proj1 (C9_channel_reads_are_probed digits_to_float _)).
    vm_compute. reflexivity.
  - apply (C9_channel_reads_are_probed digits_to_float). right.
    eexists. split; reflexivity.
  - rewrite (proj1 (proj2 (proj2 (proj2 (C9_channel_reads_are_probed digits_to_float _))))).
    reflexivity.
  - reflexivity.
Defined.

(** *** C5 to C8 and C10 *)

(** The end-to-end scenario of three drivers: VER's fastest lap has DRS
    samples [[0,0,15,0]]; the layout is VER's lap and the qualifying
    session is never asked for. *)
Lemma C5_witness_three_drivers :
  race_run (world active_race source_down) (Some 2025) (Some 12) "R" active_race
    race_data (EText "British Grand Prix") (ENumber 12) /\
  primary_lap active_race active_lap (Some (lap_table [0; 0; 15; 0] [0; 1900; 3800; 5891])) /\
  _lap_has_drs_activation digits_to_float
    (Some (lap_table [0; 0; 15; 0] [0; 1900; 3800; 5891])) = Ok true /\
  Driver active_lap = Ok "VER" /\
  track_layout digits_to_float (world active_race source_down) (Some 2025) (Some 12) "R"
      active_race =
    ([ EvCall (CallPickFastest "R");
       EvCall (CallGetTelemetry active_lap);
       EvLog (MsgUsingRaceLap "VER");
       EvLogStep MsgTrackLayoutPrepared ],
     Ok (Some (Some (lap_table [0; 0; 15; 0] [0; 1900; 3800; 5891])))) /\
  fallback_used (run (world active_race source_down) "R").1 = false /\
  session_loads (run (world active_race source_down) "R").1 = [(Some 2025, Some 12, "R")].
Proof.
  assert (Hrun : race_run (world active_race source_down) (Some 2025) (Some 12) "R"
                   active_race race_data (EText "British Grand Prix") (ENumber 12))
    by (apply scenario_race_run; [discriminate..|reflexivity]).
  assert (Hprimary : primary_lap active_race active_lap
                       (Some (lap_table [0; 0; 15; 0] [0; 1900; 3800; 5891])))
    by (apply scenario_primary; reflexivity).
  assert (Hactive : _lap_has_drs_activation digits_to_float
                      (Some (lap_table [0; 0; 15; 0] [0; 1900; 3800; 5891])) = Ok true)
    by (vm_compute; reflexivity).
  split; [exact Hrun|]. split; [exact Hprimary|]. split; [exact Hactive|].
  split; [reflexivity|].
  destruct (C5_active_race_lap_is_the_layout digits_to_float
              (world active_race source_down) (Some 2025) (Some 12) 1 "R" true None true
              active_race race_data (EText "British Grand Prix") (ENumber 12)
              active_lap _ "VER" Hrun Hprimary Hactive eq_refl)
    as (Hlayout & _ & Hused & Hloads & _).
  split; [exact Hlayout|]. split; [exact Hused|exact Hloads].
Defined.

(** The race lap is flat ([[0,0,0,0]]) and the qualifying session's fastest
    lap opens DRS ([[0,12,0]]): the qualifying lap becomes the layout. *)
Lemma C6_witness_qualifying_lap_adopted :
  race_run (world flat_race (Ok (Some open_quali))) (Some 2025) (Some 12) "S" flat_race
    race_data (EText "British Grand Prix") (ENumber 12) /\
  primary_lap flat_race flat_lap (Some (lap_table [0; 0; 0; 0] [0; 1900; 3800; 5891])) /\
  _lap_has_drs_activation digits_to_float
    (Some (lap_table [0; 0; 0; 0] [0; 1900; 3800; 5891])) = Ok false /\
  _lap_has_drs_activation digits_to_float
    (Some (lap_table [0; 12; 0] [0; 2900; 5890])) = Ok true /\
  (track_layout digits_to_float (world flat_race (Ok (Some open_quali))) (Some 2025)
     (Some 12) "S" flat_race).2 = Ok (Some (Some (lap_table [0; 12; 0] [0; 2900; 5890]))) /\
  fallback_used (run (world flat_race (Ok (Some open_quali))) "S").1 = true /\
  map ar_example_lap (handed_off (run (world flat_race (Ok (Some open_quali))) "S").1)
    = [Some (lap_table [0; 12; 0] [0; 2900; 5890])].
Proof.
  assert (Hrun : race_run (world flat_race (Ok (Some open_quali))) (Some 2025) (Some 12)
                   "S" flat_race race_data (EText "British Grand Prix") (ENumber 12))
    by (apply scenario_race_run; [discriminate..|reflexivity]).
  assert (Hprimary : primary_lap flat_race flat_lap
                       (Some (lap_table [0; 0; 0; 0] [0; 1900; 3800; 5891])))
    by (apply scenario_primary; reflexivity).
  assert (Hflat : _lap_has_drs_activation digits_to_float
                    (Some (lap_table [0; 0; 0; 0] [0; 1900; 3800; 5891])) = Ok false)
    by (vm_compute; reflexivity).
  assert (Hopen : _lap_has_drs_activation digits_to_float
                    (Some (lap_table [0; 12; 0] [0; 2900; 5890])) = Ok true)
    by (vm_compute; reflexivity).
  split; [exact Hrun|]. split; [exact Hprimary|]. split; [exact Hflat|].
  split; [exact Hopen|].
  destruct (C6_active_qualifying_lap_replaces_the_layout digits_to_float
              (world flat_race (Ok (Some open_quali))) (Some 2025) (Some 12) 1 "S" true
              None true flat_race race_data (EText "British Grand Prix") (ENumber 12)
              flat_lap _ open_quali (mkLaps 60 (Ok (Some open_quali_lap))) open_quali_lap
              _ Hrun Hprimary Hflat eq_refl eq_refl ltac:(simpl; lia) eq_refl eq_refl
              Hopen) as (Hlayout & _ & Hused & _).
  split; [exact Hlayout|]. split; [exact Hused|].
  vm_compute. reflexivity.
Defined.

(** The end-to-end scenario of the contract: the race lap is flat
    ([[0,0,0,0]]) and the qualifying session's fastest lap stays below the
    threshold ([[0,9,0]]); the qualifying session is loaded and looked at,
    and the layout remains the race lap. *)
Lemma C7_witness_qualifying_below_threshold :
  race_run (world flat_race (Ok (Some shut_quali))) (Some 2025) (Some 12) "R" flat_race
    race_data (EText "British Grand Prix") (ENumber 12) /\
  primary_lap flat_race flat_lap (Some (lap_table [0; 0; 0; 0] [0; 1900; 3800; 5891])) /\
  _lap_has_drs_activation digits_to_float
    (Some (lap_table [0; 0; 0; 0] [0; 1900; 3800; 5891])) = Ok false /\
  no_improvement digits_to_float (world flat_race (Ok (Some shut_quali)))
    (Some 2025) (Some 12) /\
  (track_layout digits_to_float (world flat_race (Ok (Some shut_quali))) (Some 2025)
     (Some 12) "R" flat_race).2
    = Ok (Some (Some (lap_table [0; 0; 0; 0] [0; 1900; 3800; 5891]))) /\
  fallback_used (run (world flat_race (Ok (Some shut_quali))) "R").1 = false /\
  session_loads (run (world flat_race (Ok (Some shut_quali))) "R").1
    = [(Some 2025, Some 12, "R"); (Some 2025, Some 12, "Q")].
Proof.
  assert (Hrun : race_run (world flat_race (Ok (Some shut_quali))) (Some 2025) (Some 12)
                   "R" flat_race race_data (EText "British Grand Prix") (ENumber 12))
    by (apply scenario_race_run; [discriminate..|reflexivity]).
  assert (Hprimary : primary_lap flat_race flat_lap
                       (Some (lap_table [0; 0; 0; 0] [0; 1900; 3800; 5891])))
    by (apply scenario_primary; reflexivity).
  assert (Hflat : _lap_has_drs_activation digits_to_float
                    (Some (lap_table [0; 0; 0; 0] [0; 1900; 3800; 5891])) = Ok false)
    by (vm_compute; reflexivity).
  assert (Hstall : no_improvement digits_to_float (world flat_race (Ok (Some shut_quali)))
                     (Some 2025) (Some 12)).
  { eapply (quali_no_activation _ _ _ _ shut_quali (mkLaps 60 (Ok (Some shut_quali_lap)))
              shut_quali_lap (Some (lap_table [0; 9; 0] [0; 2900; 5890])));
      reflexivity. }
  split; [exact Hrun|]. split; [exact Hprimary|]. split; [exact Hflat|].
  split; [exact Hstall|].
  destruct (C7_race_lap_kept_without_improvement digits_to_float
              (world flat_race (Ok (Some shut_quali))) (Some 2025) (Some 12) 1 "R" true
              None true flat_race race_data (EText "British Grand Prix") (ENumber 12)
              flat_lap _ Hrun Hprimary Hflat Hstall) as (Hlayout & _ & Hused & _).
  split; [exact Hlayout|]. split; [exact Hused|].
  vm_compute. reflexivity.
Defined.



Lemma C10_witness_adopted_lap_is_active :
  race_run (world flat_race (Ok (Some open_quali))) (Some 2025) (Some 12) "S" flat_race
    race_data (EText "British Grand Prix") (ENumber 12) /\
  primary_lap flat_race flat_lap (Some (lap_table [0; 0; 0; 0] [0; 1900; 3800; 5891])) /\
  (forall args,
     args ∈ handed_off (run (world flat_race (Ok (Some open_quali))) "S").1 ->
     ar_example_lap args <> Some (lap_table [0; 0; 0; 0] [0; 1900; 3800; 5891]) ->
     _lap_has_drs_activation digits_to_float (ar_example_lap args) = Ok true) /\
  map ar_example_lap (handed_off (run (world flat_race (Ok (Some open_quali))) "S").1)
    = [Some (lap_table [0; 12; 0] [0; 2900; 5890])].
Proof.
  assert (Hrun : race_run (world flat_race (Ok (Some open_quali))) (Some 2025) (Some 12)
                   "S" flat_race race_data (EText "British Grand Prix") (ENumber 12))
    by (apply scenario_race_run; [discriminate..|reflexivity]).
  assert (Hprimary : primary_lap flat_race flat_lap
                       (Some (lap_table [0; 0; 0; 0] [0; 1900; 3800; 5891])))
    by (apply scenario_primary; reflexivity).
  split; [exact Hrun|]. split; [exact Hprimary|]. split.
  - exact (proj2 (C10_adopted_layout_shows_activation digits_to_float
                    (world flat_race (Ok (Some open_quali))) (Some 2025) (Some 12) 1 "S"
                    true None true flat_race race_data (EText "British Grand Prix")
                    (ENumber 12) flat_lap _ Hrun Hprimary)).
  - vm_compute. reflexivity.
Defined.

(** * Further properties *)

(** ** The signal inspector, beyond the contract *)

Section InspectorLaws.

Variable str_to_float : string -> option float.

Local Abbreviation to_float := (py_float str_to_float).
Local Abbreviation scan := (scan_drs str_to_float).
Local Abbreviation has_activation := (_lap_has_drs_activation str_to_float).
Local Abbreviation is_activation := (activates str_to_float).
Local Abbreviation is_activationb := (activatesb str_to_float).
Local Abbreviation is_convertible := (convertible str_to_float).

(** X1.  The scan stops at the first activation: when the samples before
    it convert or are skipped, the function returns [True] whatever comes
    after it, samples whose conversion would raise included. *)
Theorem inspector_stops_at_first_activation
    (lap_telemetry : option Telemetry) (before after : list PyVal) (value : PyVal)
    (Hread : drs_samples lap_telemetry = Some (before ++ value :: after))
    (Hbefore : Forall is_convertible before)
    (Hvalue : is_activation value) :
  has_activation lap_telemetry = Ok true.
Proof.
  rewrite has_activation_samples, Hread.
  now apply scan_drs_first_activation.
Qed.

Lemma not_activation_false (value : PyVal) :
  ~ is_activation value <-> is_activationb value = false.
Proof.
  rewrite <- activatesb_true. now destruct (is_activationb value).
Qed.

(** The builtin [float] raises nothing but [TypeError], [ValueError] and,
    on an integer, [OverflowError]. *)
Lemma py_float_raises (value : PyVal) (e : exn) :
  to_float value = Err e ->
  e = TypeError \/ e = ValueError \/
  e = OverflowError /\ exists z, value = VInt z /\ int_to_float z = Err OverflowError.
Proof.
  destruct value as [z|x|s| |b]; simpl.
  - unfold int_to_float at 1.
    destruct (binary_normalize prec emax z 0 false) eqn:Hz; try discriminate.
    intros [= <-]. right. right. split; [reflexivity|]. exists z.
    split; [reflexivity|]. unfold int_to_float. now rewrite Hz.
  - discriminate.
  - destruct (str_to_float s); [discriminate|]. intros [= <-]. auto.
  - intros [= <-]. auto.
  - discriminate.
Qed.

Lemma scan_drs_raises_iff (drs_values : list PyVal) (e : exn) :
  scan drs_values = Err e <->
  exists before value after,
    drs_values = before ++ value :: after /\
    Forall (fun v => is_convertible v /\ ~ is_activation v) before /\
    to_float value = Err e /\ e <> TypeError /\ e <> ValueError.
Proof.
  split.
  - induction drs_values as [|v rest IH]; [discriminate|]. simpl.
    intros Hscan.
    assert (Hrest : scan rest = Err e -> is_convertible v -> ~ is_activation v ->
              exists before value after,
                v :: rest = before ++ value :: after /\
                Forall (fun v => is_convertible v /\ ~ is_activation v) before /\
                to_float value = Err e /\ e <> TypeError /\ e <> ValueError).
    { intros (before & value & after & -> & Hb & Hv)%IH Hconv Hnot.
      exists (v :: before), value, after. split; [reflexivity|].
      split; [now constructor|exact Hv]. }
    destruct (to_float v) as [x|e'] eqn:Hv.
    + destruct (PrimFloat.leb drs_threshold x) eqn:Hx; [discriminate|].
      apply Hrest; [exact Hscan|left; eauto|].
      intros (x' & Hx' & Hge). congruence.
    + assert (Hhere : e' = e -> e' <> TypeError -> e' <> ValueError ->
                exists before value after,
                  v :: rest = before ++ value :: after /\
                  Forall (fun v => is_convertible v /\ ~ is_activation v) before /\
                  to_float value = Err e /\ e <> TypeError /\ e <> ValueError).
      { intros <- Ht Hval. exists [], v, rest. repeat split; auto. }
      assert (Hnot : ~ is_activation v) by (intros (x & Hx & _); congruence).
      destruct e'; try (injection Hscan as <-; apply Hhere; congruence).
      * apply Hrest; [exact Hscan|right; now left|exact Hnot].
      * apply Hrest; [exact Hscan|right; now right|exact Hnot].
  - intros (before & value & after & -> & Hbefore & Hv & Ht & Hval).
    induction Hbefore as [|v before [Hconv Hnot] _ IH].
    + simpl. rewrite Hv. now destruct e.
    + rewrite <- app_comm_cons, scan_drs_step by assumption.
      apply not_activation_false in Hnot. rewrite Hnot. exact IH.
Qed.


(** Whenever the scan returns, its answer is exact. *)
Lemma scan_drs_exact (drs_values : list PyVal) (b : bool) :
  scan drs_values = Ok b ->
  (b = true <-> exists value, value ∈ drs_values /\ is_activation value).
Proof.
  induction drs_values as [|v rest IH]; simpl.
  - intros [= <-]. split; [discriminate|]. now intros (value & ?%elem_of_nil & _).
  - assert (Hrest : ~ is_activation v -> scan rest = Ok b ->
              (b = true <-> exists value, value ∈ v :: rest /\ is_activation value)).
    { intros Hnot Hscan. rewrite (IH Hscan). split.
      - intros (value & Hin & Hact). exists value. split; [now right|exact Hact].
      - intros (value & [->|Hin]%elem_of_cons & Hact); [contradiction|eauto]. }
    destruct (to_float v) as [x|e] eqn:Hv.
    + destruct (PrimFloat.leb drs_threshold x) eqn:Hx.
      * intros [= <-]. split; [|reflexivity]. intros _. exists v.
        split; [left|]. exists x. auto.
      * apply Hrest. intros (x' & Hx' & Hge). congruence.
    + assert (Hnot : ~ is_activation v) by (intros (x & Hx & _); congruence).
      destruct e; try discriminate; now apply Hrest.
Qed.

(** X19.  Whenever the function returns, its answer is exact: it returns
    [True] if and only if some sample it read, at whatever position, reads
    as a number at least 10; absent telemetry and telemetry without a DRS
    column give [False]. *)
Theorem inspector_answer_is_exact (lap_telemetry : option Telemetry) (b : bool)
    (Hreturns : has_activation lap_telemetry = Ok b) :
  (b = true <->
   exists drs_values value,
     drs_samples lap_telemetry = Some drs_values /\
     value ∈ drs_values /\ is_activation value) /\
  (lap_telemetry = None -> b = false) /\
  (forall telemetry, lap_telemetry = Some telemetry -> telemetry !! "DRS" = None ->
     b = false).
Proof.
  rewrite has_activation_samples in Hreturns.
  split; [|split].
  - destruct (drs_samples lap_telemetry) as [drs_values|].
    + rewrite (scan_drs_exact _ _ Hreturns). split.
      * intros (value & Hin & Hact). now exists drs_values, value.
      * intros (vs & value & [= <-] & Hin & Hact). now exists value.
    + injection Hreturns as <-. split; [discriminate|].
      now intros (vs & value & [=] & _).
  - intros ->. simpl in Hreturns. congruence.
  - intros telemetry -> Hnone. simpl in Hreturns. rewrite Hnone in Hreturns. congruence.
Qed.

(** X3.  On samples that all convert or are skipped, the order of the
    samples does not matter, and the answer for a column made of two parts
    is the disjunction of the answers for the parts. *)
Theorem inspector_order_and_parts
    (whole left_part right_part shuffled : option Telemetry)
    (first second reordered : list PyVal)
    (Hwhole : drs_samples whole = Some (first ++ second))
    (Hleft : drs_samples left_part = Some first)
    (Hright : drs_samples right_part = Some second)
    (Hshuffled : drs_samples shuffled = Some reordered)
    (Hperm : Permutation (first ++ second) reordered)
    (Hconv : Forall is_convertible (first ++ second)) :
  exists b1 b2,
    has_activation left_part = Ok b1 /\
    has_activation right_part = Ok b2 /\
    has_activation whole = Ok (b1 || b2) /\
    has_activation shuffled = Ok (b1 || b2).
Proof.
  rewrite !has_activation_samples, Hwhole, Hleft, Hright, Hshuffled.
  pose proof Hconv as Hparts. apply Forall_app in Hparts as [Hfirst Hsecond].
  assert (Hre : Forall is_convertible reordered) by now rewrite <- Hperm.
  rewrite !scan_drs_convertible by assumption.
  exists (existsb is_activationb first), (existsb is_activationb second).
  split; [reflexivity|]. split; [reflexivity|].
  rewrite <- existsb_app. split; [reflexivity|]. f_equal.
  apply eq_true_iff_eq. rewrite !existsb_activates.
  split; intros (v & Hin & Hact); exists v; split; try assumption.
  - now rewrite Hperm.
  - now rewrite <- Hperm.
Qed.

Lemma levels_checked :
  levels_agree (Z.to_nat (2 * level_bound - 1)) (1 - level_bound) = true.
Proof. vm_compute. reflexivity. Qed.

Lemma levels_agree_at (count : nat) (from z : Z) :
  levels_agree count from = true ->
  from <= z < from + Z.of_nat count ->
  level_agrees z = true.
Proof.
  revert from. induction count as [|k IH]; intros from Hall Hz; [lia|].
  simpl in Hall. apply andb_prop in Hall as [Hfrom Hrest].
  destruct (decide (z = from)) as [->|Hne]; [exact Hfrom|].
  apply (IH (from + 1)); [exact Hrest|lia].
Qed.

Lemma level_in_range (z : Z) :
  - level_bound < z < level_bound ->
  exists x, int_to_float z = Ok x /\ PrimFloat.leb drs_threshold x = (10 <=? z).
Proof.
  intros Hz.
  assert (Hok : level_agrees z = true).
  { apply (levels_agree_at _ _ z levels_checked).
    rewrite Z2Nat.id by (unfold level_bound; lia). lia. }
  unfold level_agrees in Hok.
  destruct (int_to_float z) as [x|]; [|discriminate].
  exists x. split; [reflexivity|].
  destruct (PrimFloat.leb drs_threshold x), (10 <=? z); simpl in Hok; congruence.
Qed.

(** X4.  On a DRS column of integers, each between -65535 and 65535, the
    function returns, and returns [True] exactly when one of them is at
    least 10: the detour through [float] changes nothing. *)
Theorem inspector_on_integer_levels
    (lap_telemetry : option Telemetry) (levels : list Z)
    (Hread : drs_samples lap_telemetry = Some (VInt <$> levels))
    (Hrange : Forall (fun z => - level_bound < z < level_bound) levels) :
  has_activation lap_telemetry = Ok (existsb (fun z => 10 <=? z) levels).
Proof.
  rewrite has_activation_samples, Hread. clear Hread.
  induction Hrange as [|z levels Hz _ IH]; [reflexivity|].
  destruct (level_in_range z Hz) as (x & Hx & Hge).
  simpl. rewrite Hx, Hge. destruct (10 <=? z); [reflexivity|exact IH].
Qed.

End InspectorLaws.

(** ** The orchestrator, beyond the contract *)

(** Simplifies what a trace shows, through concatenations. *)
Ltac observe_all :=
  repeat progress
    (simpl;
     rewrite ?stages_app, ?session_loads_app, ?layout_calls_app, ?fallback_used_app,
       ?handed_off_app);
  simpl.

Ltac observe_qualifying lemma :=
  repeat progress (simpl; rewrite ?lemma); simpl.

Section PipelineLaws.

Variable str_to_float : string -> option float.
Variable C : Collaborators.

Local Abbreviation has_activation := (_lap_has_drs_activation str_to_float).
Local Abbreviation fallback := (qualifying_fallback str_to_float C).
Local Abbreviation layout := (track_layout str_to_float C).
Local Abbreviation hand_off := (replay_race str_to_float C).
Local Abbreviation run_main := (main str_to_float C).
Local Abbreviation is_race_run := (race_run C).

Lemma handed_off_qualifying_app (t1 t2 : Trace) :
  handed_off_qualifying (t1 ++ t2) =
  handed_off_qualifying t1 ++ handed_off_qualifying t2.
Proof. apply omap_app. Qed.

Lemma log_bind {B : Type} (m : log_msg) (f : unit -> Comp B) :
  _log m ≫= f = (EvLog m :: (f tt).1, (f tt).2).
Proof. comp_unfold. now destruct (f tt). Qed.

Lemma call_bind {A B : Type} (c : call_event) (r : result A) (f : A -> Comp B) :
  call c r ≫= f =
    match r with
    | Ok a => (EvCall c :: (f a).1, (f a).2)
    | Err e => ([EvCall c], Err e)
    end.
Proof. comp_unfold. destruct r as [a|e]; [|reflexivity]. now destruct (f a). Qed.

(** Every run begins by logging what it loads and enabling the cache. *)
Lemma main_starts (year round_number : option Z) (playback_speed : Z)
    (session_type : string) (visible_hud : bool) (ready_file : option string)
    (show_telemetry_viewer : bool) :
  exists rest,
    (run_main year round_number playback_speed session_type visible_hud ready_file
       show_telemetry_viewer).1 =
      EvLog (MsgLoading year round_number session_type)
      :: EvCall CallEnableCache :: rest /\
    (forall e, enable_cache C = Err e -> rest = []).
Proof.
  unfold main. rewrite log_bind. cbv beta. rewrite call_bind.
  destruct (enable_cache C) as [[]|e].
  - eexists. split; [reflexivity|discriminate].
  - exists []. split; reflexivity.
Qed.

(** X5.  The cache is enabled before any session load: in the trace of
    every run, each load of a session, the primary one and the qualifying
    one of the fallback alike, comes after the call of [enable_cache]; and
    when that call raises, no session is loaded at all. *)
Theorem cache_enabled_before_any_load
    (year round_number : option Z) (playback_speed : Z) (session_type : string)
    (visible_hud : bool) (ready_file : option string) (show_telemetry_viewer : bool) :
  let run := run_main year round_number playback_speed session_type visible_hud
               ready_file show_telemetry_viewer in
  (forall before after y r st,
     run.1 = before ++ EvCall (CallLoadSession y r st) :: after ->
     EvCall CallEnableCache ∈ before) /\
  (forall e, enable_cache C = Err e -> session_loads run.1 = []).
Proof.
  simpl.
  destruct (main_starts year round_number playback_speed session_type visible_hud
              ready_file show_telemetry_viewer) as (rest & -> & Hfail).
  split.
  - intros before after y r st Heq.
    destruct before as [|e1 [|e2 before]]; simplify_eq/=.
    right. left.
  - intros e He. now rewrite (Hfail e He).
Qed.

(** Splits on whatever the computation in the goal waits for next. *)
Ltac crack :=
  repeat (match goal with
          | |- context [match ?r with Ok _ => _ | Err _ => _ end] => destruct r
          | |- context [match ?o with Some _ => _ | None => _ end] => destruct o
          | |- context [if ?b then _ else _] => destruct b
          | u : unit |- _ => destruct u
          end; simpl).

(** Layout selection never calls a replay of qualifying results. *)
Lemma layout_hands_no_qualifying (year round_number : option Z) (session_type : string)
    (session : Session) :
  handed_off_qualifying (layout year round_number session_type session).1 = [].
Proof. unfold track_layout, qualifying_fallback. block_unfold. crack; reflexivity. Qed.

(** The early return of layout selection is the one of lines 92-94. *)
Lemma layout_returns_early (year round_number : option Z) (session_type : string)
    (session : Session) :
  (layout year round_number session_type session).2 = Ok None ->
  (layout year round_number session_type session).1 =
    [EvCall (CallPickFastest session_type); EvLog MsgNoValidLaps].
Proof.
  unfold track_layout, try_except_block. comp_unfold.
  destruct (laps session) as [session_laps|]; simpl; [|discriminate].
  destruct (pick_fastest session_laps) as [[fastest_lap|]|]; simpl;
    [|reflexivity|discriminate].
  destruct (get_telemetry fastest_lap) as [example_lap|]; simpl; [|discriminate].
  destruct (has_activation example_lap) as [[|]|]; simpl; try discriminate.
  - destruct (Driver fastest_lap); discriminate.
  - destruct (fallback year round_number example_lap) as [t [lap [[]|e]]]; discriminate.
Qed.

(** When the inspector raises on the primary lap, layout selection raises
    with it. *)
Lemma layout_inspector_raises (year round_number : option Z) (session_type : string)
    (session : Session) (fastest_lap : Lap) (example_lap : option Telemetry) (e : exn) :
  primary_lap session fastest_lap example_lap ->
  has_activation example_lap = Err e ->
  layout year round_number session_type session =
    ([ EvCall (CallPickFastest session_type);
       EvCall (CallGetTelemetry fastest_lap) ],
     Err e).
Proof.
  intros (session_laps & Hlaps & Hpick & Htel) Hact. unfold track_layout. comp_unfold.
  rewrite Hlaps. simpl. rewrite Hpick. simpl. rewrite Htel. simpl. now rewrite Hact.
Qed.

(** The banner carries the year, the round and the lap count it was
    given. *)
Lemma session_info_fields (year round_number : option Z) (session : Session)
    (race_telemetry : RaceTelemetry) (example_lap : option Telemetry)
    (info : SessionInfo) :
  session_info str_to_float year round_number session race_telemetry example_lap
    = Ok info ->
  si_year info = year /\ si_round info = round_number /\
  si_total_laps info = total_laps race_telemetry.
Proof.
  unfold session_info.
  destruct (banner_date session); [|discriminate]. simpl.
  destruct (circuit_length_m str_to_float example_lap); [|discriminate].
  now intros [= <-].
Qed.

(** The hand-off either raises before the replay is called, or calls it,
    last, with arguments built from the session, the race dataset and the
    lap. *)
Lemma hand_off_detail (year round_number : option Z) (playback_speed : Z)
    (session_type : string) (visible_hud : bool) (ready_file : option string)
    (session : Session) (race_telemetry : RaceTelemetry)
    (example_lap : option Telemetry) :
  let h := hand_off year round_number playback_speed session_type visible_hud
             ready_file session race_telemetry example_lap in
  handed_off_qualifying h.1 = [] /\
  (handed_off h.1 = [] /\ (exists e, h.2 = Err e) \/
   exists session_drivers rotation info event_name,
     drivers session = Ok session_drivers /\
     get_circuit_rotation C session = Ok rotation /\
     session_info str_to_float year round_number session race_telemetry example_lap
       = Ok info /\
     h = ([ EvCall CallGetCircuitRotation;
            EvCall CallLaunchInsightsMenu;
            EvLog MsgLaunchingInsights;
            EvLogStep MsgSessionReady;
            EvCall (CallRunArcadeReplay
              {| ar_frames := frames race_telemetry;
                 ar_track_statuses := track_statuses race_telemetry;
                 ar_example_lap := example_lap;
                 ar_drivers := session_drivers;
                 ar_playback_speed := playback_speed;
                 ar_driver_colors := driver_colors race_telemetry;
                 ar_title := mkTitle event_name
                               (if bool_decide (session_type = "S") then "Sprint"
                                else "Race");
                 ar_total_laps := total_laps race_telemetry;
                 ar_circuit_rotation := rotation;
                 ar_visible_hud := visible_hud;
                 ar_ready_file := ready_file;
                 ar_session_info := info;
                 ar_session := session;
                 ar_enable_telemetry := true |}) ],
          run_arcade_replay C
            {| ar_frames := frames race_telemetry;
               ar_track_statuses := track_statuses race_telemetry;
               ar_example_lap := example_lap;
               ar_drivers := session_drivers;
               ar_playback_speed := playback_speed;
               ar_driver_colors := driver_colors race_telemetry;
               ar_title := mkTitle event_name
                             (if bool_decide (session_type = "S") then "Sprint"
                              else "Race");
               ar_total_laps := total_laps race_telemetry;
               ar_circuit_rotation := rotation;
               ar_visible_hud := visible_hud;
               ar_ready_file := ready_file;
               ar_session_info := info;
               ar_session := session;
               ar_enable_telemetry := true |})).
Proof.
  unfold replay_race. comp_unfold.
  destruct (drivers session) as [session_drivers|]; simpl; [|eauto 6].
  destruct (get_circuit_rotation C session) as [rotation|]; simpl; [|eauto 6].
  destruct (session_info str_to_float year round_number session race_telemetry
              example_lap) as [info|]; simpl; [|eauto 6].
  destruct (launch_insights_menu C) as [[]|]; simpl; [|eauto 6].
  destruct (event_getitem session "EventName") as [event_name|]; simpl; [|eauto 6].
  split; [reflexivity|]. right.
  exists session_drivers, rotation, info, event_name.
  repeat split.
Qed.

(** The qualifying branch likewise. *)
Lemma qualifying_detail (session_type : string) (ready_file : option string)
    (session : Session) :
  let q := replay_qualifying C session_type ready_file session in
  handed_off q.1 = [] /\
  (handed_off_qualifying q.1 = [] /\ (exists e, q.2 = Err e) \/
   exists data event_name,
     get_quali_telemetry C session session_type = Ok data /\
     event_getitem session "EventName" = Ok event_name /\
     q = ([ EvCall (CallGetQualiTelemetry session_type);
            EvLogStep MsgPreparedQualifying;
            EvLogStep MsgSessionReady;
            EvCall (CallRunQualifyingReplay
              {| qr_session := session;
                 qr_data := data;
                 qr_title := mkTitle event_name
                               (if bool_decide (session_type = "SQ")
                                then "Sprint Qualifying" else "Qualifying Results");
                 qr_ready_file := ready_file |}) ],
          run_qualifying_replay C
            {| qr_session := session;
               qr_data := data;
               qr_title := mkTitle event_name
                             (if bool_decide (session_type = "SQ")
                              then "Sprint Qualifying" else "Qualifying Results");
               qr_ready_file := ready_file |})).
Proof.
  unfold replay_qualifying. comp_unfold.
  destruct (get_quali_telemetry C session session_type) as [data|]; simpl; [|eauto 6].
  destruct (event_getitem session "EventName") as [event_name|]; simpl; [|eauto 6].
  split; [reflexivity|]. right. exists data, event_name. repeat split.
Qed.

(** A run stops before its branch, or is a qualifying run, or is a race
    run that got to layout selection. *)
Lemma main_shape (year round_number : option Z) (playback_speed : Z)
    (session_type : string) (visible_hud : bool) (ready_file : option string)
    (show_telemetry_viewer : bool) :
  let run := run_main year round_number playback_speed session_type visible_hud
               ready_file show_telemetry_viewer in
  (exists t e,
     run = (t, Err e) /\ handed_off t = [] /\ handed_off_qualifying t = [] /\
     session_loads t `prefix_of` [(year, round_number, session_type)] /\
     layout_calls t = []) \/
  (exists session event_name event_round,
     (session_type = "Q" \/ session_type = "SQ") /\
     load_session C year round_number session_type = Ok (Some session) /\
     run = (opening year round_number session_type session event_name event_round ++
            (replay_qualifying C session_type ready_file session).1,
            (replay_qualifying C session_type ready_file session).2)) \/
  (exists session race_telemetry event_name event_round,
     is_race_run year round_number session_type session race_telemetry
       event_name event_round).
Proof.
  assert (Hnil : forall l : list (option Z * option Z * string), [] `prefix_of` l)
    by apply prefix_nil.
  assert (Hone : [(year, round_number, session_type)] `prefix_of`
                 [(year, round_number, session_type)]) by now exists [].
  simpl. unfold main, event_getitem. comp_unfold.
  destruct (enable_cache C) as [[]|] eqn:Hcache; simpl; [|left; eauto 10].
  destruct (load_session C year round_number session_type) as [[session|]|] eqn:Hload;
    simpl; [|left; eauto 10..].
  destruct (event session !! "EventName") as [event_name|] eqn:Hname; simpl;
    [|left; eauto 10].
  destruct (event session !! "RoundNumber") as [event_round|] eqn:Hround; simpl;
    [|left; eauto 10].
  destruct (bool_decide (session_type = "Q")) eqn:HQ; simpl.
  { apply bool_decide_eq_true in HQ. right. left.
    exists session, event_name, event_round.
    split; [now left|]. split; [reflexivity|].
    now destruct (replay_qualifying C session_type ready_file session). }
  destruct (bool_decide (session_type = "SQ")) eqn:HSQ; simpl.
  { apply bool_decide_eq_true in HSQ. right. left.
    exists session, event_name, event_round.
    split; [now right|]. split; [reflexivity|].
    now destruct (replay_qualifying C session_type ready_file session). }
  apply bool_decide_eq_false in HQ, HSQ.
  destruct (get_race_telemetry C session session_type) as [race_telemetry|] eqn:Hrace;
    simpl; [|left; eauto 10].
  right. right. exists session, race_telemetry, event_name, event_round.
  now constructor.
Qed.

(** X6.  A run loads at most two sessions: its own, and after it at most
    the qualifying session of the same year and round. *)
Theorem at_most_two_session_loads
    (year round_number : option Z) (playback_speed : Z) (session_type : string)
    (visible_hud : bool) (ready_file : option string) (show_telemetry_viewer : bool) :
  session_loads
    (run_main year round_number playback_speed session_type visible_hud ready_file
       show_telemetry_viewer).1
  `prefix_of` [(year, round_number, session_type); (year, round_number, "Q")].
Proof.
  destruct (main_shape year round_number playback_speed session_type visible_hud
              ready_file show_telemetry_viewer)
    as [(t & e & -> & _ & _ & Hpre & _)
       |[(session & event_name & event_round & _ & _ & ->)
        |(session & race_telemetry & event_name & event_round & Hrun)]].
  - simpl. etrans; [exact Hpre|]. now exists [(year, round_number, "Q")].
  - destruct (qualifying_shows C session_type ready_file session) as (_ & Hloads & _).
    observe_all. rewrite Hloads. now exists [(year, round_number, "Q")].
  - rewrite (main_race _ _ _ _ _ _ _ _ _ _ _ _ _ Hrun).
    destruct (layout_shows str_to_float C year round_number session_type session)
      as (_ & Hpre & _).
    destruct (layout year round_number session_type session) as [t [[lap|]|e]];
      simpl in *.
    + destruct (hand_off_shape str_to_float C year round_number playback_speed
                  session_type visible_hud ready_file session race_telemetry lap)
        as (Hloads & _).
      observe_all. rewrite Hloads, app_nil_r. now apply prefix_cons.
    + observe_all. now apply prefix_cons.
    + observe_all. now apply prefix_cons.
Qed.

(** X7.  In a race run that has its primary lap, the qualifying session is
    asked for exactly when the inspector answered [False] on that lap:
    neither an active lap nor an inspector that raised leads to a second
    load. *)
Theorem fallback_attempted_iff_inactive
    (year round_number : option Z) (playback_speed : Z) (session_type : string)
    (visible_hud : bool) (ready_file : option string) (show_telemetry_viewer : bool)
    (session : Session) (race_telemetry : RaceTelemetry)
    (event_name event_round : EventVal)
    (fastest_lap : Lap) (example_lap : option Telemetry)
    (Hrun : is_race_run year round_number session_type session race_telemetry
              event_name event_round)
    (Hprimary : primary_lap session fastest_lap example_lap) :
  let run := run_main year round_number playback_speed session_type visible_hud
               ready_file show_telemetry_viewer in
  (has_activation example_lap = Ok false <->
   session_loads run.1 =
     [(year, round_number, session_type); (year, round_number, "Q")]) /\
  (has_activation example_lap <> Ok false ->
   session_loads run.1 = [(year, round_number, session_type)]).
Proof.
  simpl. rewrite (main_race _ _ _ _ _ _ _ _ _ _ _ _ _ Hrun).
  destruct (has_activation example_lap) as [[|]|e] eqn:Hact.
  - destruct (Driver fastest_lap) as [driver|e] eqn:Hdriver.
    + rewrite (layout_active _ _ _ _ _ _ _ _ _ Hprimary Hact Hdriver). simpl.
      destruct (hand_off_shape str_to_float C year round_number playback_speed
                  session_type visible_hud ready_file session race_telemetry example_lap)
        as (Hloads & _).
      observe_all. rewrite Hloads. split; [split; discriminate|reflexivity].
    + rewrite (layout_active_unnamed _ _ _ _ _ _ _ _ _ Hprimary Hact Hdriver). simpl.
      split; [split; discriminate|reflexivity].
  - rewrite (layout_inactive _ _ _ _ _ _ _ _ Hprimary Hact). simpl.
    set (selected := (fallback year round_number example_lap).2.1).
    destruct (hand_off_shape str_to_float C year round_number playback_speed
                session_type visible_hud ready_file session race_telemetry selected)
      as (Hloads & _).
    assert (Hq : session_loads (fallback year round_number example_lap).1
                 = [(year, round_number, "Q")]).
    { destruct (fallback_cases str_to_float C year round_number example_lap)
        as [tf e _ _ _ Hld|tf _ _ _ Hld|tf fq qt driver _ _ ->|tf fq qt e _ _ ->];
        [exact Hld|exact Hld|reflexivity|reflexivity]. }
    destruct (except_trace_shows (fallback year round_number example_lap).2.2)
      as (_ & Hex & _).
    observe_all. rewrite Hloads, Hq, Hex. simpl.
    split; [split; reflexivity|]. now intros [].
  - rewrite (layout_inspector_raises _ _ _ _ _ _ _ Hprimary Hact). simpl.
    split; [split; discriminate|reflexivity].
Qed.

(** X8.  An exception of the inspector on the primary lap is not caught:
    the run raises it right after reading the lap's telemetry, with no
    fallback and nothing handed to the replay (the same exception on the
    qualifying lap is caught, by C8). *)
Theorem primary_inspector_exception_is_fatal
    (year round_number : option Z) (playback_speed : Z) (session_type : string)
    (visible_hud : bool) (ready_file : option string) (show_telemetry_viewer : bool)
    (session : Session) (race_telemetry : RaceTelemetry)
    (event_name event_round : EventVal)
    (fastest_lap : Lap) (example_lap : option Telemetry) (e : exn)
    (Hrun : is_race_run year round_number session_type session race_telemetry
              event_name event_round)
    (Hprimary : primary_lap session fastest_lap example_lap)
    (Hraise : has_activation example_lap = Err e) :
  let run := run_main year round_number playback_speed session_type visible_hud
               ready_file show_telemetry_viewer in
  run =
    (race_opening year round_number session_type session event_name event_round ++
     [ EvCall (CallPickFastest session_type);
       EvCall (CallGetTelemetry fastest_lap) ],
     Err e) /\
  handed_off run.1 = [] /\
  session_loads run.1 = [(year, round_number, session_type)].
Proof.
  simpl. rewrite (main_race _ _ _ _ _ _ _ _ _ _ _ _ _ Hrun).
  rewrite (layout_inspector_raises _ _ _ _ _ _ _ Hprimary Hraise). simpl.
  repeat split.
Qed.

(** X9.  What the replay of a race gets.  Whenever [run_arcade_replay] is
    called, the run is not a qualifying one; the call is the only one;
    the session is the one loaded for the run, the frames, track statuses,
    colours and lap count are those of its race dataset, the drivers and
    the rotation are the session's; speed, HUD flag and ready file are the
    caller's; telemetry is enabled; the title says Sprint exactly for type
    S; the banner repeats the year, the round and the lap count; and the
    insights menu was launched before. *)
Theorem arcade_replay_arguments
    (year round_number : option Z) (playback_speed : Z) (session_type : string)
    (visible_hud : bool) (ready_file : option string) (show_telemetry_viewer : bool)
    (args : ArcadeReplayArgs) :
  let run := run_main year round_number playback_speed session_type visible_hud
               ready_file show_telemetry_viewer in
  args ∈ handed_off run.1 ->
  handed_off run.1 = [args] /\
  handed_off_qualifying run.1 = [] /\
  (session_type <> "Q" /\ session_type <> "SQ") /\
  load_session C year round_number session_type = Ok (Some (ar_session args)) /\
  (exists race_telemetry,
     get_race_telemetry C (ar_session args) session_type = Ok race_telemetry /\
     ar_frames args = frames race_telemetry /\
     ar_track_statuses args = track_statuses race_telemetry /\
     ar_driver_colors args = driver_colors race_telemetry /\
     ar_total_laps args = total_laps race_telemetry) /\
  drivers (ar_session args) = Ok (ar_drivers args) /\
  get_circuit_rotation C (ar_session args) = Ok (ar_circuit_rotation args) /\
  ar_playback_speed args = playback_speed /\
  ar_visible_hud args = visible_hud /\
  ar_ready_file args = ready_file /\
  ar_enable_telemetry args = true /\
  title_kind (ar_title args) = (if bool_decide (session_type = "S") then "Sprint" else "Race") /\
  si_year (ar_session_info args) = year /\
  si_round (ar_session_info args) = round_number /\
  si_total_laps (ar_session_info args) = ar_total_laps args /\
  EvCall CallLaunchInsightsMenu ∈ run.1.
Proof.
  simpl.
  destruct (main_shape year round_number playback_speed session_type visible_hud
              ready_file show_telemetry_viewer)
    as [(t & e & -> & Hoff & _)
       |[(session & event_name & event_round & _ & _ & ->)
        |(session & race_telemetry & event_name & event_round & Hrun)]].
  - simpl. rewrite Hoff. now intros ?%elem_of_nil.
  - destruct (qualifying_detail session_type ready_file session) as (Hoff & _).
    observe_all. rewrite Hoff. now intros ?%elem_of_nil.
  - rewrite (main_race _ _ _ _ _ _ _ _ _ _ _ _ _ Hrun).
    destruct (layout_shows str_to_float C year round_number session_type session)
      as (Hoff & _).
    pose proof (layout_hands_no_qualifying year round_number session_type session)
      as Hnoq.
    destruct (layout year round_number session_type session) as [t [[lap|]|e]];
      simpl in *;
      [|observe_all; rewrite Hoff; now intros ?%elem_of_nil..].
    destruct (hand_off_detail year round_number playback_speed session_type
                visible_hud ready_file session race_telemetry lap)
      as (Hhq & [[Hnone _]|(d & rotation & info & name & Hd & Hrot & Hinfo & Hh)]).
    + observe_all. rewrite Hoff, Hnone. now intros ?%elem_of_nil.
    + destruct (session_info_fields _ _ _ _ _ _ Hinfo) as (Hyear & Hround & Hlaps).
      destruct Hrun as [Hnot _ Hload _ _ Hrace].
      rewrite Hh. observe_qualifying handed_off_qualifying_app. rewrite Hnoq.
      observe_all. rewrite Hoff. simpl.
      intros ->%list_elem_of_singleton. simpl.
      split; [reflexivity|]. split; [reflexivity|]. split; [exact Hnot|].
      split; [exact Hload|]. split; [exists race_telemetry; repeat split; exact Hrace|].
      do 10 (split; [assumption || reflexivity|]).
      do 7 right. apply elem_of_app. right. right. left.
Qed.

(** X10.  What the replay of qualifying results gets.  Whenever
    [run_qualifying_replay] is called, the run is a qualifying or a
    sprint-qualifying one; the call is the only one and the race replay is
    not called; the session is the one loaded for the run and the data is
    its qualifying dataset; the ready file is the caller's; and the title
    says Sprint Qualifying exactly for type SQ. *)
Theorem qualifying_replay_arguments
    (year round_number : option Z) (playback_speed : Z) (session_type : string)
    (visible_hud : bool) (ready_file : option string) (show_telemetry_viewer : bool)
    (args : QualifyingReplayArgs) :
  let run := run_main year round_number playback_speed session_type visible_hud
               ready_file show_telemetry_viewer in
  args ∈ handed_off_qualifying run.1 ->
  handed_off_qualifying run.1 = [args] /\
  handed_off run.1 = [] /\
  (session_type = "Q" \/ session_type = "SQ") /\
  load_session C year round_number session_type = Ok (Some (qr_session args)) /\
  get_quali_telemetry C (qr_session args) session_type = Ok (qr_data args) /\
  qr_ready_file args = ready_file /\
  title_kind (qr_title args) =
    (if bool_decide (session_type = "SQ") then "Sprint Qualifying"
     else "Qualifying Results").
Proof.
  simpl.
  destruct (main_shape year round_number playback_speed session_type visible_hud
              ready_file show_telemetry_viewer)
    as [(t & e & -> & _ & Hoff & _)
       |[(session & event_name & event_round & Hq & Hload & ->)
        |(session & race_telemetry & event_name & event_round & Hrun)]].
  - simpl. rewrite Hoff. now intros ?%elem_of_nil.
  - destruct (qualifying_detail session_type ready_file session)
      as (Hoff & [[Hnone _]|(data & name & Hdata & _ & Hqd)]).
    + observe_qualifying handed_off_qualifying_app. rewrite Hnone.
      now intros ?%elem_of_nil.
    + rewrite Hqd. simpl. intros ->%list_elem_of_singleton. simpl.
      repeat split; auto.
  - rewrite (main_race _ _ _ _ _ _ _ _ _ _ _ _ _ Hrun).
    pose proof (layout_hands_no_qualifying year round_number session_type session)
      as Hnoq.
    destruct (layout year round_number session_type session) as [t [[lap|]|e]];
      simpl in *; observe_qualifying handed_off_qualifying_app; rewrite ?Hnoq;
      [|now intros ?%elem_of_nil..].
    destruct (hand_off_detail year round_number playback_speed session_type
                visible_hud ready_file session race_telemetry lap) as (Hhq & _).
    simpl in Hhq. rewrite Hhq. now intros ?%elem_of_nil.
Qed.

(** X11.  A run returns to its caller only in three ways: the race replay
    was called, last, and returned; or the qualifying replay was called,
    last, and returned; or the primary session had no fastest lap, the
    error line being the last event. *)
Theorem normal_return_cases
    (year round_number : option Z) (playback_speed : Z) (session_type : string)
    (visible_hud : bool) (ready_file : option string) (show_telemetry_viewer : bool) :
  let run := run_main year round_number playback_speed session_type visible_hud
               ready_file show_telemetry_viewer in
  run.2 = Ok tt ->
  (exists before args,
     run.1 = before ++ [EvCall (CallRunArcadeReplay args)] /\
     run_arcade_replay C args = Ok tt) \/
  (exists before args,
     run.1 = before ++ [EvCall (CallRunQualifyingReplay args)] /\
     run_qualifying_replay C args = Ok tt) \/
  (exists before,
     run.1 = before ++ [EvLog MsgNoValidLaps] /\
     handed_off run.1 = [] /\ handed_off_qualifying run.1 = []).
Proof.
  simpl.
  destruct (main_shape year round_number playback_speed session_type visible_hud
              ready_file show_telemetry_viewer)
    as [(t & e & -> & _)
       |[(session & event_name & event_round & Hq & Hload & ->)
        |(session & race_telemetry & event_name & event_round & Hrun)]].
  - discriminate.
  - destruct (qualifying_detail session_type ready_file session)
      as (_ & [[_ [e He]]|(data & name & _ & _ & Hqd)]).
    + simpl. rewrite He. discriminate.
    + rewrite Hqd. simpl. intros Hok. right. left.
      exists (opening year round_number session_type session event_name event_round ++
              [ EvCall (CallGetQualiTelemetry session_type);
                EvLogStep MsgPreparedQualifying;
                EvLogStep MsgSessionReady ]).
      eexists. split; [reflexivity|exact Hok].
  - rewrite (main_race _ _ _ _ _ _ _ _ _ _ _ _ _ Hrun).
    pose proof (layout_returns_early year round_number session_type session) as Hearly.
    destruct (layout_shows str_to_float C year round_number session_type session)
      as (Hoff & _).
    pose proof (layout_hands_no_qualifying year round_number session_type session)
      as Hnoq.
    destruct (layout year round_number session_type session) as [t [[lap|]|e]];
      simpl in *; [| |discriminate].
    + destruct (hand_off_detail year round_number playback_speed session_type
                  visible_hud ready_file session race_telemetry lap)
        as (_ & [[_ [e He]]|(d & rotation & info & name & _ & _ & _ & Hh)]).
      * rewrite He. discriminate.
      * rewrite Hh. simpl. intros Hok. left.
        exists (race_opening year round_number session_type session event_name
                  event_round ++ t ++
                [ EvCall CallGetCircuitRotation;
                  EvCall CallLaunchInsightsMenu;
                  EvLog MsgLaunchingInsights;
                  EvLogStep MsgSessionReady ]).
        eexists. split; [|exact Hok].
        simpl. rewrite <- app_assoc. reflexivity.
    + intros _. right. right. rewrite (Hearly eq_refl).
      exists (race_opening year round_number session_type session event_name
                event_round ++ [EvCall (CallPickFastest session_type)]).
      split; [now rewrite <- app_assoc|]. split; reflexivity.
Qed.

(** A qualifying run picks no lap, calls no race replay and loads no
    session but its own. *)
Lemma main_qualifying_shows (year round_number : option Z) (playback_speed : Z)
    (session_type : string) (visible_hud : bool) (ready_file : option string)
    (show_telemetry_viewer : bool) :
  session_type = "Q" \/ session_type = "SQ" ->
  let run := run_main year round_number playback_speed session_type visible_hud
               ready_file show_telemetry_viewer in
  layout_calls run.1 = [] /\ handed_off run.1 = [] /\
  session_loads run.1 `prefix_of` [(year, round_number, session_type)].
Proof.
  intros Hq. simpl.
  destruct (main_shape year round_number playback_speed session_type visible_hud
              ready_file show_telemetry_viewer)
    as [(t & e & -> & Hoff & _ & Hpre & Hcalls)
       |[(session & event_name & event_round & _ & _ & ->)
        |(session & race_telemetry & event_name & event_round & [[HQ HSQ] _])]].
  - auto.
  - destruct (qualifying_shows C session_type ready_file session)
      as (Hcalls & Hloads & _).
    destruct (qualifying_detail session_type ready_file session) as (Hoff & _).
    observe_all. rewrite Hcalls, Hloads, Hoff. repeat split. now exists [].
  - destruct Hq; contradiction.
Qed.

End PipelineLaws.

(** ** The command line *)

(** Unfolds one layer of the script monad. *)
Ltac script_unfold :=
  unfold mbind, mret, script_bind, script_ret, sys_exit, script_raise, script_call.

Section CommandLineLaws.

Variable str_to_float : string -> option float.
Variable str_to_int : string -> option Z.
Variable C : Collaborators.
Variable K : Console.

Local Abbreviation int_of := (int_option str_to_int).
Local Abbreviation run_script := (script str_to_float str_to_int C K).
Local Abbreviation value_of := (option_value str_to_int).

Lemma list_index_lookup (argv : list string) (flag : string) (i : nat) :
  list_index argv flag = Some i -> argv !! i = Some flag.
Proof.
  revert i. induction argv as [|arg rest IH]; intros i; [discriminate|]. simpl.
  case_bool_decide as Harg; [intros [= <-]; now subst|].
  destruct (list_index rest flag) as [j|]; [|discriminate].
  intros [= <-]. now apply IH.
Qed.

Lemma has_flag_index (argv : list string) (flag : string) :
  has_flag argv flag = true <-> exists i, list_index argv flag = Some i.
Proof.
  unfold has_flag. rewrite bool_decide_eq_true.
  induction argv as [|arg rest IH]; simpl.
  - split; [now intros ?%elem_of_nil|now intros [? ?]].
  - rewrite elem_of_cons. case_bool_decide as Harg.
    + split; [eauto|auto].
    + rewrite IH. split.
      * intros [->|[i Hi]]; [contradiction|]. rewrite Hi. eauto.
      * intros [i Hi]. right. destruct (list_index rest flag); [eauto|discriminate].
Qed.

Lemma no_flag_index (argv : list string) (flag : string) :
  has_flag argv flag = false <-> list_index argv flag = None.
Proof.
  rewrite <- not_true_iff_false, has_flag_index. split.
  - intros Hno. destruct (list_index argv flag) as [i|]; [|reflexivity].
    exfalso. eauto.
  - intros -> [i Hi]. discriminate.
Qed.

(** Reading the ready file never raises: it yields the argument after
    the first [--ready-file], if any. *)
Lemma ready_file_reads (argv : list string) :
  ready_file_of argv = ([], Continue (arg_after argv "--ready-file")).
Proof.
  unfold ready_file_of, arg_after, index_after, argv_getitem.
  destruct (has_flag argv "--ready-file") eqn:Hflag.
  - apply has_flag_index in Hflag as [i Hi]. rewrite Hi. script_unfold. simpl.
    case_bool_decide as Hlen.
    + destruct (lookup_lt_is_Some_2 argv (i + 1) Hlen) as [arg Harg].
      now rewrite Harg.
    + rewrite lookup_ge_None_2 by lia. reflexivity.
  - apply no_flag_index in Hflag. now rewrite Hflag.
Qed.

(** X12.  Reading the ready file never fails and calls nothing: the path is
    [None] without the flag and, unlike for [--year] and [--round], also
    when the first [--ready-file] is the last argument; otherwise it is the
    argument right after the first [--ready-file], whatever that argument
    is, another flag included. *)
Theorem ready_file_never_fails (argv : list string) :
  exists ready_file,
    ready_file_of argv = ([], Continue ready_file) /\
    (has_flag argv "--ready-file" = false -> ready_file = None) /\
    (flag_is_last argv "--ready-file" -> ready_file = None) /\
    (forall i, list_index argv "--ready-file" = Some i ->
               ready_file = argv !! (i + 1)%nat) /\
    (forall path, ready_file = Some path -> path ∈ argv).
Proof.
  exists (arg_after argv "--ready-file"). split; [apply ready_file_reads|].
  split; [|split; [|split]].
  - intros Hno%no_flag_index. unfold arg_after. now rewrite Hno.
  - intros (i & Hi & Hlen). unfold arg_after. rewrite Hi.
    apply lookup_ge_None. lia.
  - intros i Hi. unfold arg_after. now rewrite Hi.
  - intros path. unfold arg_after.
    destruct (list_index argv "--ready-file") as [i|]; [|discriminate].
    apply list_elem_of_lookup_2.
Qed.

(** The four ways reading an integer option ends. *)
Lemma int_option_cases (argv : list string) (flag : string) (fallback : Z) :
  (has_flag argv flag = false /\ int_of argv flag fallback = ([], Continue fallback)) \/
  (has_flag argv flag = true /\ flag_is_last argv flag /\
   int_of argv flag fallback = ([], Stop (Uncaught IndexError))) \/
  (exists arg, has_flag argv flag = true /\ arg_after argv flag = Some arg /\
     str_to_int arg = None /\
     int_of argv flag fallback = ([], Stop (Uncaught (Raised ValueError)))) \/
  (exists arg value, has_flag argv flag = true /\ arg_after argv flag = Some arg /\
     str_to_int arg = Some value /\
     int_of argv flag fallback = ([], Continue value)).
Proof.
  unfold int_option, arg_after, flag_is_last, index_after, argv_getitem, py_int.
  destruct (has_flag argv flag) eqn:Hflag; [|now left].
  right. apply has_flag_index in Hflag as [i Hi]. rewrite Hi. script_unfold. simpl.
  destruct (argv !! (i + 1)%nat) as [arg|] eqn:Harg; simpl.
  - right. destruct (str_to_int arg) as [value|] eqn:Hint; simpl.
    + right. now exists arg, value.
    + left. now exists arg.
  - left. split; [reflexivity|]. split; [|reflexivity]. exists i.
    split; [reflexivity|].
    apply list_index_lookup, lookup_lt_Some in Hi.
    apply lookup_ge_None in Harg. lia.
Qed.

Lemma flag_last_no_argument (argv : list string) (flag : string) :
  flag_is_last argv flag -> arg_after argv flag = None.
Proof.
  intros (i & Hi & Hlen). unfold arg_after. rewrite Hi.
  apply lookup_ge_None. lia.
Qed.

(** An integer option is read exactly when it has a value. *)
Lemma int_option_value (argv : list string) (flag : string) (fallback value : Z) :
  int_of argv flag fallback = ([], Continue value) <-> value_of argv flag fallback value.
Proof.
  unfold option_value.
  destruct (int_option_cases argv flag fallback)
    as [[Hno ->]|[(Hyes & Hlast & ->)|[(arg & Hyes & Harg & Hint & ->)
       |(arg & v & Hyes & Harg & Hint & ->)]]].
  - split; [intros [= <-]; auto|]. intros [[_ ->]|(arg & Hyes & _)]; congruence.
  - split; [discriminate|]. apply flag_last_no_argument in Hlast.
    intros [[? _]|(arg & _ & Harg & _)]; congruence.
  - split; [discriminate|]. intros [[? _]|(arg' & _ & Harg' & Hint')]; congruence.
  - split; [intros [= <-]; right; eauto|].
    intros [[? _]|(arg' & _ & Harg' & Hint')]; congruence.
Qed.

(** The listings: what is called, and whether [playback_speed] is bound
    afterwards. *)
Lemma listings_cases (argv : list string) (year : Z) :
  (has_flag argv "--list-rounds" = true /\
   listings K argv year =
     ([ScListRounds year],
      match list_rounds K year with
      | Ok _ => Continue None
      | Err e => Stop (Uncaught (Raised e))
      end)) \/
  (has_flag argv "--list-rounds" = false /\ has_flag argv "--list-sprints" = true /\
   listings K argv year =
     ([ScListSprints year],
      match list_sprints K year with
      | Ok _ => Continue None
      | Err e => Stop (Uncaught (Raised e))
      end)) \/
  (has_flag argv "--list-rounds" = false /\ has_flag argv "--list-sprints" = false /\
   listings K argv year = ([], Continue (Some 1))).
Proof.
  unfold listings. script_unfold.
  destruct (has_flag argv "--list-rounds").
  - left. split; [reflexivity|]. now destruct (list_rounds K year).
  - right. destruct (has_flag argv "--list-sprints").
    + left. do 2 (split; [reflexivity|]). now destruct (list_sprints K year).
    + right. auto.
Qed.

(** The viewer: a [NameError] when [playback_speed] is unbound, else one
    call of [main], and exit code 0 if it returns. *)
Lemma viewer_cases (argv : list string) (year round_number : Z)
    (playback_speed : option Z) :
  viewer str_to_float C argv year round_number playback_speed =
    match playback_speed with
    | None => ([], Stop (Uncaught (NameError "playback_speed")))
    | Some speed =>
        let run := main str_to_float C (Some year) (Some round_number) speed
                     (session_type_of argv) (negb (has_flag argv "--no-hud"))
                     (arg_after argv "--ready-file") true in
        (ScMain year round_number speed (session_type_of argv)
           (negb (has_flag argv "--no-hud")) (arg_after argv "--ready-file")
           :: (ScInMain <$> run.1),
         match run.2 with
         | Ok _ => Stop (Exited 0)
         | Err e => Stop (Uncaught (Raised e))
         end)
    end.
Proof.
  unfold viewer. rewrite ready_file_reads.
  unfold read_global, call_main. script_unfold.
  destruct playback_speed as [speed|]; [|reflexivity]. simpl.
  assert (Hhud : (if has_flag argv "--no-hud" then false else true)
                 = negb (has_flag argv "--no-hud")) by now destruct (has_flag _ _).
  rewrite Hhud.
  destruct (main str_to_float C (Some year) (Some round_number) speed
              (session_type_of argv) (negb (has_flag argv "--no-hud"))
              (arg_after argv "--ready-file") true) as [t [[]|e]]; simpl;
    now rewrite ?app_nil_r.
Qed.

(** The selection window: the calls in order, and the exit code of the
    event loop. *)
Lemma gui_cases (argv : list string) :
  exists rest,
    (gui K argv).1 = ScQApplication argv :: rest /\
    main_calls rest = [] /\ main_trace rest = [] /\ entries rest = [] /\
    (forall code, (gui K argv).2 = Stop (Exited code) ->
       exists app win,
         QApplication K argv = Ok app /\ RaceSelectionWindow K = Ok win /\
         show K win = Ok tt /\ exec K app = Ok code) /\
    (exists e, (gui K argv).2 = Stop e /\ e <> Uncaught IndexError).
Proof.
  unfold gui. script_unfold.
  destruct (QApplication K argv) as [app|]; simpl;
    [|eexists; repeat split; try discriminate; eexists; split; [reflexivity|discriminate]].
  destruct (RaceSelectionWindow K) as [win|]; simpl;
    [|eexists; repeat split; try discriminate; eexists; split; [reflexivity|discriminate]].
  destruct (show K win) as [[]|] eqn:Hshow; simpl;
    [|eexists; repeat split; try discriminate; eexists; split; [reflexivity|discriminate]].
  destruct (exec K app) as [code|] eqn:Hexec; simpl;
    [|eexists; repeat split; try discriminate; eexists; split; [reflexivity|discriminate]].
  eexists. repeat split; [intros code' [= <-]; now exists app, win|].
  eexists. split; [reflexivity|discriminate].
Qed.

Lemma entries_in_main (t : Trace) : entries (ScInMain <$> t) = [].
Proof. induction t as [|e t IH]; [reflexivity|exact IH]. Qed.

Lemma main_calls_in_main (t : Trace) : main_calls (ScInMain <$> t) = [].
Proof. induction t as [|e t IH]; [reflexivity|exact IH]. Qed.

Lemma main_trace_in_main (t : Trace) : main_trace (ScInMain <$> t) = t.
Proof. induction t as [|e t IH]; [reflexivity|]. simpl. f_equal. exact IH. Qed.

Lemma entries_app (t1 t2 : list script_event) :
  entries (t1 ++ t2) = entries t1 ++ entries t2.
Proof. apply List.filter_app. Qed.

Lemma main_calls_app (t1 t2 : list script_event) :
  main_calls (t1 ++ t2) = main_calls t1 ++ main_calls t2.
Proof. apply omap_app. Qed.

Lemma main_trace_app (t1 t2 : list script_event) :
  main_trace (t1 ++ t2) = main_trace t1 ++ main_trace t2.
Proof. apply omap_app. Qed.

(** The listings are no entry point and no run of [main]. *)
Lemma listings_trace (argv : list string) (year : Z) :
  entries (listings K argv year).1 = [] /\
  main_calls (listings K argv year).1 = [] /\
  main_trace (listings K argv year).1 = [].
Proof.
  destruct (listings_cases argv year) as [[_ ->]|[(_ & _ & ->)|(_ & _ & ->)]];
    repeat split.
Qed.

(** The script ends in the command-line menu; or while reading its integer
    options; or in a listing that raised; or goes, after the listing if
    any, into the viewer or the selection window. *)
Lemma script_shape (argv : list string) :
  (has_flag argv "--cli" = true /\
   run_script argv =
     ([ScCliLoad],
      Stop match cli_load K with
           | Ok _ => Exited 0
           | Err e => Uncaught (Raised e)
           end)) \/
  (has_flag argv "--cli" = false /\
   exists e, run_script argv = ([], Stop (Uncaught e)) /\
     (e = Raised ValueError \/
      e = IndexError /\
      (flag_is_last argv "--year" \/
       (exists year, value_of argv "--year" 2025 year) /\ flag_is_last argv "--round")) /\
     ~ (exists year round_number,
          value_of argv "--year" 2025 year /\ value_of argv "--round" 12 round_number)) \/
  (has_flag argv "--cli" = false /\
   exists year round_number e,
     value_of argv "--year" 2025 year /\ value_of argv "--round" 12 round_number /\
     (listings K argv year).2 = Stop (Uncaught (Raised e)) /\
     ~ listing_returns K argv year /\
     run_script argv = ((listings K argv year).1, Stop (Uncaught (Raised e)))) \/
  (has_flag argv "--cli" = false /\
   exists year round_number playback_speed,
     value_of argv "--year" 2025 year /\ value_of argv "--round" 12 round_number /\
     (listings K argv year).2 = Continue playback_speed /\
     listing_returns K argv year /\
     run_script argv =
       ((listings K argv year).1 ++
        (if has_flag argv "--viewer"
         then viewer str_to_float C argv year round_number playback_speed
         else gui K argv).1,
        (if has_flag argv "--viewer"
         then viewer str_to_float C argv year round_number playback_speed
         else gui K argv).2)).
Proof.
  unfold script.
  destruct (has_flag argv "--cli") eqn:Hcli.
  { left. split; [reflexivity|]. script_unfold. now destruct (cli_load K). }
  right.
  destruct (int_option_cases argv "--year" 2025)
    as [[Hy Hyear]|[(_ & Hlast & Hyear)|[(arg & _ & _ & _ & Hyear)
       |(arg & year & Hy & Harg & Hint & Hyear)]]].
  2: { left. split; [reflexivity|]. exists IndexError. rewrite Hyear.
       split; [reflexivity|]. split; [auto|].
       intros (y & r & Hy'%int_option_value & _). congruence. }
  2: { left. split; [reflexivity|]. exists (Raised ValueError). rewrite Hyear.
       split; [reflexivity|]. split; [auto|].
       intros (y & r & Hy'%int_option_value & _). congruence. }
  all: pose proof (proj1 (int_option_value _ _ _ _) Hyear) as Hvy.
  all: rewrite Hyear; script_unfold; simpl.
  all: destruct (int_option_cases argv "--round" 12)
    as [[Hr Hround]|[(_ & Hlast' & Hround)|[(arg' & _ & _ & _ & Hround)
       |(arg' & round_number & Hr & Harg' & Hint' & Hround)]]].
  2, 6: left; split; [reflexivity|]; exists IndexError; rewrite Hround;
        (split; [reflexivity|]); (split; [eauto 7|]);
        intros (y & r & _ & Hr'%int_option_value); congruence.
  2, 5: left; split; [reflexivity|]; exists (Raised ValueError); rewrite Hround;
        (split; [reflexivity|]); (split; [auto|]);
        intros (y & r & _ & Hr'%int_option_value); congruence.
  all: pose proof (proj1 (int_option_value _ _ _ _) Hround) as Hvr.
  all: rewrite Hround; simpl; right.
  all: match goal with
       | |- context [listings _ ?a ?y] =>
           destruct (listings_cases a y)
             as [[Hlr Hl]|[(Hlr & Hls & Hl)|(Hlr & Hls & Hl)]]
       end.
  all: rewrite Hl; simpl.
  all: try (destruct (list_rounds K _) as [[]|e] eqn:Hcall; simpl).
  all: try (destruct (list_sprints K _) as [[]|e] eqn:Hcall; simpl).
  all: try (left; split; [reflexivity|]; eexists _, _, e;
            split; [eassumption|]; split; [eassumption|]; rewrite Hl;
            split; [reflexivity|]; split; [|reflexivity];
            unfold listing_returns; intros [H1 H2];
            first [specialize (H1 Hlr)|specialize (H2 Hlr Hls)]; congruence).
  all: right; split; [reflexivity|]; eexists _, _, _;
       split; [eassumption|]; split; [eassumption|]; rewrite Hl;
       split; [reflexivity|];
       (split; [unfold listing_returns; split; intros; congruence|]); simpl.
  all: destruct (has_flag argv "--viewer");
       match goal with
       | |- context [viewer ?a ?b ?c ?d ?e ?f] => now destruct (viewer a b c d e f)
       | |- context [gui ?a ?b] => now destruct (gui a b)
       end.
Qed.

Lemma int_option_last (argv : list string) (flag : string) (fallback : Z) :
  flag_is_last argv flag ->
  int_of argv flag fallback = ([], Stop (Uncaught IndexError)).
Proof.
  intros Hlast. pose proof (flag_last_no_argument _ _ Hlast) as Hnone.
  destruct Hlast as (i & Hi & _).
  destruct (int_option_cases argv flag fallback)
    as [[Hno _]|[(_ & _ & Hint)|[(arg & _ & Harg & _)|(arg & v & _ & Harg & _)]]];
    [|exact Hint|congruence..].
  apply no_flag_index in Hno. congruence.
Qed.

Lemma option_value_unique (argv : list string) (flag : string) (fallback v1 v2 : Z) :
  value_of argv flag fallback v1 -> value_of argv flag fallback v2 -> v1 = v2.
Proof. intros H1%int_option_value H2%int_option_value. congruence. Qed.

(** After a listing, [playback_speed] is unbound; without one it is 1. *)
Lemma listings_speed (argv : list string) (year : Z) (playback_speed : option Z) :
  (listings K argv year).2 = Continue playback_speed ->
  (playback_speed = None /\
   (has_flag argv "--list-rounds" = true \/ has_flag argv "--list-sprints" = true) /\
   (listings K argv year).1 =
     [if has_flag argv "--list-rounds" then ScListRounds year else ScListSprints year]) \/
  (playback_speed = Some 1 /\
   has_flag argv "--list-rounds" = false /\ has_flag argv "--list-sprints" = false /\
   (listings K argv year).1 = []).
Proof.
  destruct (listings_cases argv year) as [[Hlr ->]|[(Hlr & Hls & ->)|(Hlr & Hls & ->)]];
    simpl.
  - destruct (list_rounds K year); [|discriminate]. intros [= <-]. left.
    rewrite Hlr. auto.
  - destruct (list_sprints K year); [|discriminate]. intros [= <-]. left.
    rewrite Hlr. auto.
  - intros [= <-]. right. auto.
Qed.

Lemma main_calls_cons_main (year round_number playback_speed : Z) (session_type : string)
    (visible_hud : bool) (ready_file : option string) (t : list script_event) :
  main_calls (ScMain year round_number playback_speed session_type visible_hud
                ready_file :: t)
  = (year, round_number, playback_speed, session_type, visible_hud, ready_file)
      :: main_calls t.
Proof. reflexivity. Qed.

Lemma main_trace_cons_main (year round_number playback_speed : Z) (session_type : string)
    (visible_hud : bool) (ready_file : option string) (t : list script_event) :
  main_trace (ScMain year round_number playback_speed session_type visible_hud
                ready_file :: t)
  = main_trace t.
Proof. reflexivity. Qed.

Lemma entries_cons_main (year round_number playback_speed : Z) (session_type : string)
    (visible_hud : bool) (ready_file : option string) (t : list script_event) :
  entries (ScMain year round_number playback_speed session_type visible_hud
             ready_file :: t)
  = ScMain year round_number playback_speed session_type visible_hud ready_file
      :: entries t.
Proof. reflexivity. Qed.

(** The run of [main] the viewer starts. *)
Local Abbreviation viewer_run argv year round_number :=
  (main str_to_float C (Some year) (Some round_number) 1 (session_type_of argv)
     (negb (has_flag argv "--no-hud")) (arg_after argv "--ready-file") true).

(** The five ways of the script: the command-line menu; a failure before
    the branch (an option that cannot be read, a listing that raises); a
    listing followed by the viewer; the viewer; the selection window. *)
Lemma script_cases (argv : list string) :
  (has_flag argv "--cli" = true /\
   run_script argv =
     ([ScCliLoad],
      Stop match cli_load K with
           | Ok _ => Exited 0
           | Err e => Uncaught (Raised e)
           end)) \/
  (has_flag argv "--cli" = false /\
   ~ (exists year round_number,
        value_of argv "--year" 2025 year /\ value_of argv "--round" 12 round_number /\
        listing_returns K argv year) /\
   entries (run_script argv).1 = [] /\ main_calls (run_script argv).1 = [] /\
   main_trace (run_script argv).1 = [] /\
   exists e, (run_script argv).2 = Stop (Uncaught e)) \/
  (has_flag argv "--cli" = false /\ has_flag argv "--viewer" = true /\
   (has_flag argv "--list-rounds" = true \/ has_flag argv "--list-sprints" = true) /\
   exists year round_number,
     value_of argv "--year" 2025 year /\ value_of argv "--round" 12 round_number /\
     listing_returns K argv year /\
     run_script argv =
       ([if has_flag argv "--list-rounds" then ScListRounds year else ScListSprints year],
        Stop (Uncaught (NameError "playback_speed")))) \/
  (has_flag argv "--cli" = false /\ has_flag argv "--viewer" = true /\
   has_flag argv "--list-rounds" = false /\ has_flag argv "--list-sprints" = false /\
   exists year round_number,
     value_of argv "--year" 2025 year /\ value_of argv "--round" 12 round_number /\
     run_script argv =
       (ScMain year round_number 1 (session_type_of argv)
          (negb (has_flag argv "--no-hud")) (arg_after argv "--ready-file")
          :: (ScInMain <$> (viewer_run argv year round_number).1),
        match (viewer_run argv year round_number).2 with
        | Ok _ => Stop (Exited 0)
        | Err e => Stop (Uncaught (Raised e))
        end)) \/
  (has_flag argv "--cli" = false /\ has_flag argv "--viewer" = false /\
   (exists year round_number,
      value_of argv "--year" 2025 year /\ value_of argv "--round" 12 round_number /\
      listing_returns K argv year) /\
   entries (run_script argv).1 = [ScQApplication argv] /\
   main_calls (run_script argv).1 = [] /\ main_trace (run_script argv).1 = [] /\
   (run_script argv).2 = (gui K argv).2).
Proof.
  destruct (script_shape argv)
    as [[Hcli Hrun]|[(Hcli & e & Hrun & _ & Hno)
       |[(Hcli & y & r & e & Hy & Hr & Hl & Hnot & Hrun)
        |(Hcli & y & r & p & Hy & Hr & Hl & Hret & Hrun)]]].
  - left. auto.
  - right; left. rewrite Hrun. simpl. split; [exact Hcli|]. split; [|eauto 10].
    intros (year & round_number & Hy & Hr & _). apply Hno. eauto.
  - right; left. rewrite Hrun. simpl.
    destruct (listings_trace argv y) as (He & Hc & Ht).
    split; [exact Hcli|]. split; [|eauto 10].
    intros (year & round_number & Hy' & _ & Hret).
    rewrite (option_value_unique _ _ _ _ _ Hy' Hy) in Hret. contradiction.
  - right; right. destruct (has_flag argv "--viewer") eqn:Hv.
    + rewrite viewer_cases in Hrun.
      destruct (listings_speed _ _ _ Hl) as [(-> & Hflags & Ht)|(-> & Hlr & Hls & Ht)];
        rewrite Ht in Hrun; cbv zeta in Hrun; cbn [fst snd app] in Hrun.
      * left. do 3 (split; [assumption || reflexivity|]). exists y, r. auto.
      * right; left. do 4 (split; [assumption || reflexivity|]). exists y, r. auto.
    + right; right. split; [exact Hcli|]. split; [reflexivity|].
      split; [eauto|]. rewrite Hrun. cbn [fst snd].
      destruct (listings_trace argv y) as (He & Hc & Ht).
      destruct (gui_cases argv) as (rest & Hg & Hgc & Hgt & Hge & _).
      rewrite entries_app, main_calls_app, main_trace_app, He, Hc, Ht, Hg.
      simpl. unfold entries, main_calls, main_trace in *.
      now rewrite Hgc, Hgt, Hge.
Qed.

(** X13.  The script ends with an uncaught IndexError exactly when, away
    from the command-line menu, the first [--year] is the last argument, or
    the year can be read and the first [--round] is the last argument.
    No other flag causes it, [--ready-file] in the last place included. *)
Theorem index_error_iff_integer_option_without_argument (argv : list string) :
  ending (run_script argv) = Uncaught IndexError <->
  has_flag argv "--cli" = false /\
  (flag_is_last argv "--year" \/
   (exists year, value_of argv "--year" 2025 year) /\ flag_is_last argv "--round").
Proof.
  split.
  - intros Hend.
    destruct (script_shape argv)
      as [[Hcli Hrun]|[(Hcli & e & Hrun & He & _)
         |[(Hcli & y & r & e & _ & _ & _ & _ & Hrun)
          |(Hcli & y & r & p & _ & _ & Hl & _ & Hrun)]]];
      rewrite Hrun in Hend; unfold ending in Hend; cbn [fst snd] in Hend.
    + destruct (cli_load K); discriminate.
    + injection Hend as ->. destruct He as [?|[_ ?]]; [discriminate|auto].
    + discriminate.
    + destruct (has_flag argv "--viewer").
      * rewrite viewer_cases in Hend. destruct p; cbv zeta in Hend; cbn [fst snd] in Hend;
          [|discriminate].
        destruct (main _ _ _ _ _ _ _ _ _).2; discriminate.
      * destruct (gui_cases argv) as (rest & _ & _ & _ & _ & _ & e & He & Hne).
        rewrite He in Hend. congruence.
  - intros [Hcli Hlast]. unfold ending, script. rewrite Hcli.
    destruct Hlast as [Hy|[[year Hy] Hr]].
    + now rewrite (int_option_last _ _ _ Hy).
    + apply int_option_value in Hy. rewrite Hy. script_unfold. simpl.
      now rewrite (int_option_last _ _ _ Hr).
Qed.

(** X14.  What [main] gets from the command line.  Whenever the script
    calls [main], it calls it once, with [--viewer] and without [--cli],
    [--list-rounds] and [--list-sprints]; the year and the round are the
    values of [--year] and [--round] (2025 and 12 without the flags), the
    playback speed is 1, the session type is the one of the flags in the
    priority SQ, S, Q, R, the HUD is visible unless [--no-hud] is given,
    the ready file is the argument after the first [--ready-file]; and the
    events of [main] in the script's trace are those of that run. *)
Theorem viewer_call_arguments (argv : list string)
    (year round_number playback_speed : Z) (session_type : string)
    (visible_hud : bool) (ready_file : option string) :
  (year, round_number, playback_speed, session_type, visible_hud, ready_file)
    ∈ main_calls (run_script argv).1 ->
  main_calls (run_script argv).1 =
    [(year, round_number, playback_speed, session_type, visible_hud, ready_file)] /\
  has_flag argv "--cli" = false /\ has_flag argv "--viewer" = true /\
  has_flag argv "--list-rounds" = false /\ has_flag argv "--list-sprints" = false /\
  value_of argv "--year" 2025 year /\ value_of argv "--round" 12 round_number /\
  playback_speed = 1 /\
  session_type =
    (if has_flag argv "--sprint-qualifying" then "SQ"
     else if has_flag argv "--sprint" then "S"
     else if has_flag argv "--qualifying" then "Q" else "R") /\
  visible_hud = negb (has_flag argv "--no-hud") /\
  ready_file = arg_after argv "--ready-file" /\
  main_trace (run_script argv).1 =
    (main str_to_float C (Some year) (Some round_number) playback_speed session_type
       visible_hud ready_file true).1.
Proof.
  intros Hin.
  destruct (script_cases argv)
    as [[Hcli Hrun]|[(Hcli & _ & _ & Hc & _)
       |[(Hcli & Hv & _ & y & r & _ & _ & _ & Hrun)
        |[(Hcli & Hv & Hlr & Hls & y & r & Hy & Hr & Hrun)
         |(Hcli & Hv & _ & _ & Hc & _)]]]].
  - rewrite Hrun in Hin. now apply elem_of_nil in Hin.
  - rewrite Hc in Hin. now apply elem_of_nil in Hin.
  - rewrite Hrun in Hin. destruct (has_flag argv "--list-rounds");
      now apply elem_of_nil in Hin.
  - rewrite Hrun in Hin |- *. cbn [fst] in Hin |- *.
    rewrite main_calls_cons_main, main_calls_in_main in Hin |- *.
    rewrite main_trace_cons_main, main_trace_in_main.
    apply list_elem_of_singleton in Hin. injection Hin as -> -> -> -> -> ->.
    repeat split; assumption.
  - rewrite Hc in Hin. now apply elem_of_nil in Hin.
Qed.

(** X15.  A listing flag together with [--viewer] never reaches [main]:
    away from the command-line menu the script calls no [main] and never
    exits with a code, and when the options can be read and the listing
    returns it ends, right after the listing, with the uncaught NameError
    of the unbound [playback_speed]. *)
Theorem listing_with_viewer_never_reaches_main (argv : list string) :
  has_flag argv "--cli" = false ->
  has_flag argv "--viewer" = true ->
  has_flag argv "--list-rounds" = true \/ has_flag argv "--list-sprints" = true ->
  main_calls (run_script argv).1 = [] /\
  (forall code, ending (run_script argv) <> Exited code) /\
  (forall year round_number,
     value_of argv "--year" 2025 year -> value_of argv "--round" 12 round_number ->
     listing_returns K argv year ->
     run_script argv =
       ([if has_flag argv "--list-rounds" then ScListRounds year else ScListSprints year],
        Stop (Uncaught (NameError "playback_speed")))).
Proof.
  intros Hcli Hv Hlist.
  destruct (script_cases argv)
    as [[Hcli' _]|[(_ & Hno & _ & Hc & _ & e & He)
       |[(_ & _ & _ & y & r & Hy & _ & _ & Hrun)
        |[(_ & _ & Hlr & Hls & _)
         |(_ & Hv' & _)]]]]; try congruence.
  - split; [exact Hc|]. split.
    + intros code. unfold ending. rewrite He. discriminate.
    + intros year round_number Hy Hr Hret. exfalso. apply Hno. eauto.
  - rewrite Hrun. split; [now destruct (has_flag argv "--list-rounds")|].
    split; [discriminate|].
    intros year round_number Hy' _ _.
    now rewrite (option_value_unique _ _ _ _ _ Hy' Hy).
  - destruct Hlist; congruence.
Qed.

(** X16.  Which entry point the script goes into.  It goes into at most
    one; into the command-line menu exactly with [--cli]; into the
    selection window exactly without [--cli] and [--viewer], when the
    options can be read and the listing asked for, if any, returns (so a
    listing is followed by the window); and into [main] exactly with
    [--viewer], without [--cli] and the listing flags, when the options
    can be read. *)
Theorem entry_point_dispatch (argv : list string) :
  (length (entries (run_script argv).1) <= 1)%nat /\
  (entries (run_script argv).1 = [ScCliLoad] <-> has_flag argv "--cli" = true) /\
  (entries (run_script argv).1 = [ScQApplication argv] <->
   has_flag argv "--cli" = false /\ has_flag argv "--viewer" = false /\
   exists year round_number,
     value_of argv "--year" 2025 year /\ value_of argv "--round" 12 round_number /\
     listing_returns K argv year) /\
  ((exists call, main_calls (run_script argv).1 = [call]) <->
   has_flag argv "--cli" = false /\ has_flag argv "--viewer" = true /\
   has_flag argv "--list-rounds" = false /\ has_flag argv "--list-sprints" = false /\
   exists year round_number,
     value_of argv "--year" 2025 year /\ value_of argv "--round" 12 round_number).
Proof.
  assert (Hfree : forall year,
            has_flag argv "--list-rounds" = false ->
            has_flag argv "--list-sprints" = false -> listing_returns K argv year).
  { intros year Hlr Hls. split; congruence. }
  destruct (script_cases argv)
    as [[Hcli Hrun]|[(Hcli & Hno & He & Hc & _)
       |[(Hcli & Hv & Hlist & y & r & Hy & Hr & Hret & Hrun)
        |[(Hcli & Hv & Hlr & Hls & y & r & Hy & Hr & Hrun)
         |(Hcli & Hv & Hval & He & Hc & _)]]]].
  - rewrite Hrun. cbn.
    split; [lia|]. split; [easy|]. split.
    + split; [discriminate|]. intros [? _]. congruence.
    + split; [now intros [call [=]]|]. intros [? _]. congruence.
  - rewrite He, Hc. cbn.
    split; [lia|]. split; [split; [discriminate|congruence]|]. split.
    + split; [discriminate|]. intros (_ & _ & Hval). contradiction.
    + split; [now intros [call [=]]|].
      intros (_ & _ & Hlr & Hls & year & round_number & Hy & Hr).
      exfalso. apply Hno. exists year, round_number. auto.
  - rewrite Hrun. assert (Hnone : entries [if has_flag argv "--list-rounds"
                                          then ScListRounds y else ScListSprints y] = []
                                 /\ main_calls [if has_flag argv "--list-rounds"
                                          then ScListRounds y else ScListSprints y] = [])
      by now destruct (has_flag argv "--list-rounds").
    destruct Hnone as [He Hc]. cbn [fst]. rewrite He, Hc. cbn.
    split; [lia|]. split; [split; [discriminate|congruence]|]. split.
    + split; [discriminate|]. intros (_ & ? & _). congruence.
    + split; [now intros [call [=]]|].
      intros (_ & _ & Hlr & Hls & _). destruct Hlist; congruence.
  - rewrite Hrun. cbn [fst].
    rewrite entries_cons_main, entries_in_main, main_calls_cons_main, main_calls_in_main.
    cbn. split; [lia|]. split; [split; [discriminate|congruence]|]. split.
    + split; [discriminate|]. intros (_ & ? & _). congruence.
    + split; [|eauto]. intros _. eauto 10.
  - rewrite He, Hc. cbn.
    split; [lia|]. split; [split; [discriminate|congruence]|]. split.
    + split; auto.
    + split; [now intros [call [=]]|]. intros (_ & ? & _). congruence.
Qed.

Lemma gui_exits (argv : list string) (code : Z) :
  (gui K argv).2 = Stop (Exited code) <->
  exists app win,
    QApplication K argv = Ok app /\ RaceSelectionWindow K = Ok win /\
    show K win = Ok tt /\ exec K app = Ok code.
Proof.
  split.
  - destruct (gui_cases argv) as (rest & _ & _ & _ & _ & Hcode & _). apply Hcode.
  - intros (app & win & Happ & Hwin & Hshow & Hexec).
    unfold gui. script_unfold. now rewrite Happ, Hwin, Hshow, Hexec.
Qed.

(** X17.  The exit codes.  The script exits with a code, rather than with
    an uncaught exception, in three cases only: code 0 after the
    command-line menu returned; code 0 after the viewer's run of [main]
    returned; and the code the window's event loop returned. *)
Theorem exit_code_cases (argv : list string) (code : Z) :
  ending (run_script argv) = Exited code <->
  (has_flag argv "--cli" = true /\ cli_load K = Ok tt /\ code = 0) \/
  (has_flag argv "--cli" = false /\ has_flag argv "--viewer" = true /\
   has_flag argv "--list-rounds" = false /\ has_flag argv "--list-sprints" = false /\
   code = 0 /\
   exists year round_number,
     value_of argv "--year" 2025 year /\ value_of argv "--round" 12 round_number /\
     (main str_to_float C (Some year) (Some round_number) 1 (session_type_of argv)
        (negb (has_flag argv "--no-hud")) (arg_after argv "--ready-file") true).2
     = Ok tt) \/
  (has_flag argv "--cli" = false /\ has_flag argv "--viewer" = false /\
   (exists year round_number,
      value_of argv "--year" 2025 year /\ value_of argv "--round" 12 round_number /\
      listing_returns K argv year) /\
   exists app win,
     QApplication K argv = Ok app /\ RaceSelectionWindow K = Ok win /\
     show K win = Ok tt /\ exec K app = Ok code).
Proof.
  assert (Hfree : forall year,
            has_flag argv "--list-rounds" = false ->
            has_flag argv "--list-sprints" = false -> listing_returns K argv year).
  { intros year Hlr Hls. split; congruence. }
  unfold ending.
  destruct (script_cases argv)
    as [[Hcli Hrun]|[(Hcli & Hno & _ & _ & _ & e & He)
       |[(Hcli & Hv & Hlist & y & r & Hy & Hr & Hret & Hrun)
        |[(Hcli & Hv & Hlr & Hls & y & r & Hy & Hr & Hrun)
         |(Hcli & Hv & Hval & _ & _ & _ & Hrun)]]]].
  - rewrite Hrun. cbn [snd]. split.
    + destruct (cli_load K) as [[]|]; [|discriminate]. intros [= <-]. auto.
    + intros [(_ & -> & ->)|[(? & _)|(? & _)]]; [reflexivity|congruence..].
  - rewrite He. split; [discriminate|].
    intros [(? & _)|[(_ & _ & Hlr & Hls & _ & year & round_number & Hy & Hr & _)
                    |(_ & _ & Hval & _)]]; [congruence| |contradiction].
    exfalso. apply Hno. exists year, round_number. auto.
  - rewrite Hrun. cbn [snd]. split; [discriminate|].
    intros [(? & _)|[(_ & _ & Hlr & Hls & _)|(_ & ? & _)]]; [congruence| |congruence].
    destruct Hlist; congruence.
  - rewrite Hrun. cbn [snd]. split.
    + destruct (viewer_run argv y r).2 as [[]|] eqn:Hmain; [|discriminate].
      intros [= <-]. right; left. do 5 (split; [assumption || reflexivity|]).
      exists y, r. auto.
    + intros [(? & _)|[(_ & _ & _ & _ & -> & year & round_number & Hy' & Hr' & Hmain)
                      |(_ & ? & _)]]; [congruence| |congruence].
      rewrite (option_value_unique _ _ _ _ _ Hy Hy'),
              (option_value_unique _ _ _ _ _ Hr Hr'), Hmain. reflexivity.
  - rewrite Hrun.
    destruct (gui_cases argv) as (rest & _ & _ & _ & _ & _ & e & He & _).
    rewrite <- gui_exits, He. split.
    + intros ->. right; right. auto.
    + intros [(? & _)|[(_ & ? & _)|(_ & _ & _ & [= ->])]]; [congruence..|reflexivity].
Qed.

(** X18.  From the flags to the pipeline.  With [--sprint-qualifying], or
    with [--qualifying] and without [--sprint], whatever else the command
    line holds, the runs of [main] the script makes pick no fastest lap and
    read no lap telemetry, never call the race replay and load at most one
    session. *)
Theorem qualifying_flags_skip_the_layout (argv : list string) :
  has_flag argv "--sprint-qualifying" = true \/
  has_flag argv "--sprint" = false /\ has_flag argv "--qualifying" = true ->
  layout_calls (main_trace (run_script argv).1) = [] /\
  handed_off (main_trace (run_script argv).1) = [] /\
  (length (session_loads (main_trace (run_script argv).1)) <= 1)%nat.
Proof.
  intros Hflags.
  assert (Hq : session_type_of argv = "Q" \/ session_type_of argv = "SQ").
  { unfold session_type_of. destruct Hflags as [->|[-> ->]]; [now right|].
    destruct (has_flag argv "--sprint-qualifying"); auto. }
  destruct (script_cases argv)
    as [[Hcli Hrun]|[(Hcli & _ & _ & _ & Ht & _)
       |[(Hcli & Hv & _ & y & r & _ & _ & _ & Hrun)
        |[(Hcli & Hv & Hlr & Hls & y & r & Hy & Hr & Hrun)
         |(Hcli & Hv & _ & _ & _ & Ht & _)]]]].
  - rewrite Hrun. cbn. auto.
  - rewrite Ht. cbn. auto.
  - rewrite Hrun. destruct (has_flag argv "--list-rounds"); cbn; auto.
  - rewrite Hrun. cbn [fst]. rewrite main_trace_cons_main, main_trace_in_main.
    destruct (main_qualifying_shows str_to_float C (Some y) (Some r) 1
                (session_type_of argv) (negb (has_flag argv "--no-hud"))
                (arg_after argv "--ready-file") true Hq) as (Hcalls & Hoff & Hpre).
    split; [exact Hcalls|]. split; [exact Hoff|].
    apply prefix_length in Hpre. exact Hpre.
  - rewrite Ht. cbn. auto.
Qed.

End CommandLineLaws.

(** ** The properties on the scenarios *)

(** X1: the column [["x", 12, 10**400]]; the scan stops at 12 and never
    converts the last sample. *)
Lemma inspector_stops_witness_overflow_after_activation :
  drs_samples (Some (drs_only [VStr "x"; VInt 12; VInt (10 ^ 400)]))
    = Some ([VStr "x"] ++ VInt 12 :: [VInt (10 ^ 400)]) /\
  Forall (convertible digits_to_float) [VStr "x"] /\
  activates digits_to_float (VInt 12) /\
  _lap_has_drs_activation digits_to_float
    (Some (drs_only [VStr "x"; VInt 12; VInt (10 ^ 400)])) = Ok true.
Proof.
  assert (Hread : drs_samples (Some (drs_only [VStr "x"; VInt 12; VInt (10 ^ 400)]))
                  = Some ([VStr "x"] ++ VInt 12 :: [VInt (10 ^ 400)])) by reflexivity.
  assert (Hbefore : Forall (convertible digits_to_float) [VStr "x"]).
  { apply List.Forall_cons; [|apply List.Forall_nil].
    first [right; left; reflexivity|right; right; reflexivity]. }
  assert (Hvalue : activates digits_to_float (VInt 12))
    by (eexists; split; vm_compute; reflexivity).
  split; [exact Hread|]. split; [exact Hbefore|]. split; [exact Hvalue|].
  exact (inspector_stops_at_first_activation digits_to_float _ _ _ _
           Hread Hbefore Hvalue).
Defined.

(** X3: the column [[0, "x", 12]], its parts [[0, "x"]] and [[12]], and the
    reordering [[12, 0, "x"]]. *)
Lemma inspector_order_witness_three_samples :
  drs_samples (Some (drs_only [VInt 0; VStr "x"; VInt 12]))
    = Some ([VInt 0; VStr "x"] ++ [VInt 12]) /\
  drs_samples (Some (drs_only [VInt 0; VStr "x"])) = Some [VInt 0; VStr "x"] /\
  drs_samples (Some (drs_only [VInt 12])) = Some [VInt 12] /\
  drs_samples (Some (drs_only [VInt 12; VInt 0; VStr "x"]))
    = Some [VInt 12; VInt 0; VStr "x"] /\
  Permutation ([VInt 0; VStr "x"] ++ [VInt 12]) [VInt 12; VInt 0; VStr "x"] /\
  Forall (convertible digits_to_float) ([VInt 0; VStr "x"] ++ [VInt 12]) /\
  exists b1 b2,
    _lap_has_drs_activation digits_to_float (Some (drs_only [VInt 0; VStr "x"])) = Ok b1 /\
    _lap_has_drs_activation digits_to_float (Some (drs_only [VInt 12])) = Ok b2 /\
    _lap_has_drs_activation digits_to_float
      (Some (drs_only [VInt 0; VStr "x"; VInt 12])) = Ok (b1 || b2) /\
    _lap_has_drs_activation digits_to_float
      (Some (drs_only [VInt 12; VInt 0; VStr "x"])) = Ok (b1 || b2).
Proof.
  assert (Hperm : Permutation ([VInt 0; VStr "x"] ++ [VInt 12])
                    [VInt 12; VInt 0; VStr "x"])
    by (symmetry; apply (Permutation_cons_append [VInt 0; VStr "x"] (VInt 12))).
  assert (Hconv : Forall (convertible digits_to_float) ([VInt 0; VStr "x"] ++ [VInt 12])).
  { repeat (apply List.Forall_cons;
            [first [left; eexists; reflexivity
                   |right; left; reflexivity
                   |right; right; reflexivity]|]).
    apply List.Forall_nil. }
  do 4 (split; [reflexivity|]). split; [exact Hperm|]. split; [exact Hconv|].
  exact (inspector_order_and_parts digits_to_float
           (Some (drs_only [VInt 0; VStr "x"; VInt 12]))
           (Some (drs_only [VInt 0; VStr "x"]))
           (Some (drs_only [VInt 12]))
           (Some (drs_only [VInt 12; VInt 0; VStr "x"]))
           [VInt 0; VStr "x"] [VInt 12] [VInt 12; VInt 0; VStr "x"]
           eq_refl eq_refl eq_refl eq_refl Hperm Hconv).
Defined.

(** X4: the lap whose DRS column is [[0, 8, 14, -3]]. *)
Lemma inspector_levels_witness_four_levels :
  drs_samples (Some (lap_table [0; 8; 14; -3] [0; 1900; 3800; 5891]))
    = Some (VInt <$> [0; 8; 14; -3]) /\
  Forall (fun z => - level_bound < z < level_bound) [0; 8; 14; -3] /\
  _lap_has_drs_activation digits_to_float
    (Some (lap_table [0; 8; 14; -3] [0; 1900; 3800; 5891])) = Ok true.
Proof.
  assert (Hrange : Forall (fun z => - level_bound < z < level_bound) [0; 8; 14; -3])
    by (repeat (apply List.Forall_cons; [unfold level_bound; lia|]);
        apply List.Forall_nil).
  split; [reflexivity|]. split; [exact Hrange|].
  exact (inspector_on_integer_levels digits_to_float
           (Some (lap_table [0; 8; 14; -3] [0; 1900; 3800; 5891])) [0; 8; 14; -3]
           eq_refl Hrange).
Defined.

(** X7: the flat race lap with a qualifying session below the threshold:
    two loads; and the active race lap: one. *)
Lemma fallback_attempted_witness_flat_and_active :
  race_run (world flat_race (Ok (Some shut_quali))) (Some 2025) (Some 12) "R" flat_race
    race_data (EText "British Grand Prix") (ENumber 12) /\
  primary_lap flat_race flat_lap (Some (lap_table [0; 0; 0; 0] [0; 1900; 3800; 5891])) /\
  session_loads (run (world flat_race (Ok (Some shut_quali))) "R").1
    = [(Some 2025, Some 12, "R"); (Some 2025, Some 12, "Q")] /\
  race_run (world active_race (Ok (Some shut_quali))) (Some 2025) (Some 12) "R"
    active_race race_data (EText "British Grand Prix") (ENumber 12) /\
  primary_lap active_race active_lap
    (Some (lap_table [0; 0; 15; 0] [0; 1900; 3800; 5891])) /\
  session_loads (run (world active_race (Ok (Some shut_quali))) "R").1
    = [(Some 2025, Some 12, "R")].
Proof.
  assert (Hflat : race_run (world flat_race (Ok (Some shut_quali))) (Some 2025) (Some 12)
                    "R" flat_race race_data (EText "British Grand Prix") (ENumber 12))
    by (apply scenario_race_run; [discriminate..|reflexivity]).
  assert (Hflat_lap : primary_lap flat_race flat_lap
                        (Some (lap_table [0; 0; 0; 0] [0; 1900; 3800; 5891])))
    by (apply scenario_primary; reflexivity).
  assert (Hactive : race_run (world active_race (Ok (Some shut_quali))) (Some 2025)
                      (Some 12) "R" active_race race_data (EText "British Grand Prix")
                      (ENumber 12))
    by (apply scenario_race_run; [discriminate..|reflexivity]).
  assert (Hactive_lap : primary_lap active_race active_lap
                          (Some (lap_table [0; 0; 15; 0] [0; 1900; 3800; 5891])))
    by (apply scenario_primary; reflexivity).
  split; [exact Hflat|]. split; [exact Hflat_lap|]. split.
  - apply (fallback_attempted_iff_inactive digits_to_float
             (world flat_race (Ok (Some shut_quali))) (Some 2025) (Some 12) 1 "R" true
             None true flat_race race_data (EText "British Grand Prix") (ENumber 12)
             flat_lap _ Hflat Hflat_lap).
    vm_compute. reflexivity.
  - split; [exact Hactive|]. split; [exact Hactive_lap|].
    apply (fallback_attempted_iff_inactive digits_to_float
             (world active_race (Ok (Some shut_quali))) (Some 2025) (Some 12) 1 "R" true
             None true active_race race_data (EText "British Grand Prix") (ENumber 12)
             active_lap _ Hactive Hactive_lap).
    vm_compute. discriminate.
Defined.

(** X8: the race whose fastest lap has the DRS column [[10**400]]. *)
Lemma primary_inspector_witness_overflow :
  race_run (world Extremes.huge_race (Ok (Some open_quali))) (Some 2025) (Some 12) "R"
    Extremes.huge_race race_data (EText "British Grand Prix") (ENumber 12) /\
  primary_lap Extremes.huge_race Extremes.huge_lap
    (Some (drs_only [VInt (10 ^ 400)])) /\
  _lap_has_drs_activation digits_to_float (Some (drs_only [VInt (10 ^ 400)]))
    = Err OverflowError /\
  (run (world Extremes.huge_race (Ok (Some open_quali))) "R").2 = Err OverflowError /\
  handed_off (run (world Extremes.huge_race (Ok (Some open_quali))) "R").1 = [] /\
  session_loads (run (world Extremes.huge_race (Ok (Some open_quali))) "R").1
    = [(Some 2025, Some 12, "R")].
Proof.
  assert (Hrun : race_run (world Extremes.huge_race (Ok (Some open_quali))) (Some 2025)
                   (Some 12) "R" Extremes.huge_race race_data
                   (EText "British Grand Prix") (ENumber 12))
    by (apply scenario_race_run; [discriminate..|reflexivity]).
  assert (Hprimary : primary_lap Extremes.huge_race Extremes.huge_lap
                       (Some (drs_only [VInt (10 ^ 400)])))
    by (apply scenario_primary; reflexivity).
  assert (Hraise : _lap_has_drs_activation digits_to_float
                     (Some (drs_only [VInt (10 ^ 400)])) = Err OverflowError)
    by (vm_compute; reflexivity).
  split; [exact Hrun|]. split; [exact Hprimary|]. split; [exact Hraise|].
  destruct (primary_inspector_exception_is_fatal digits_to_float
              (world Extremes.huge_race (Ok (Some open_quali))) (Some 2025) (Some 12) 1
              "R" true None true Extremes.huge_race race_data
              (EText "British Grand Prix") (ENumber 12) Extremes.huge_lap _ _
              Hrun Hprimary Hraise) as (Heq & Hoff & Hloads).
  split; [|split; [exact Hoff|exact Hloads]].
  unfold run. now rewrite Heq.
Defined.

(** X9: the race run whose fastest lap is active. *)
Lemma arcade_replay_witness_active_race :
  exists args,
    args ∈ handed_off (run (world active_race source_down) "R").1 /\
    handed_off (run (world active_race source_down) "R").1 = [args] /\
    ar_playback_speed args = 1 /\
    ar_visible_hud args = true /\
    ar_ready_file args = None /\
    ar_enable_telemetry args = true /\
    title_kind (ar_title args) = "Race" /\
    si_year (ar_session_info args) = Some 2025 /\
    si_round (ar_session_info args) = Some 12.
Proof.
  destruct (handed_off (run (world active_race source_down) "R").1) as [|args rest]
    eqn:Hcalls; [vm_compute in Hcalls; discriminate|].
  assert (Hin : args ∈ handed_off (run (world active_race source_down) "R").1)
    by (rewrite Hcalls; left).
  exists args.
  destruct (arcade_replay_arguments digits_to_float (world active_race source_down)
              (Some 2025) (Some 12) 1 "R" true None true args Hin)
    as (Hone & _ & _ & _ & _ & _ & _ & Hspeed & Hhud & Hready & Htel & Htitle
        & Hyear & Hround & _).
  split; [now rewrite <- Hcalls|]. split; [now rewrite <- Hcalls|].
  repeat split; assumption.
Defined.

(** X10: the qualifying run. *)
Lemma qualifying_replay_witness_qualifying_run :
  exists args,
    args ∈ handed_off_qualifying (run (world active_race (Ok (Some open_quali))) "Q").1 /\
    handed_off_qualifying (run (world active_race (Ok (Some open_quali))) "Q").1 = [args] /\
    handed_off (run (world active_race (Ok (Some open_quali))) "Q").1 = [] /\
    qr_session args = open_quali /\
    qr_ready_file args = None /\
    title_kind (qr_title args) = "Qualifying Results".
Proof.
  destruct (handed_off_qualifying
              (run (world active_race (Ok (Some open_quali))) "Q").1) as [|args rest]
    eqn:Hcalls; [vm_compute in Hcalls; discriminate|].
  assert (Hin : args ∈ handed_off_qualifying
                         (run (world active_race (Ok (Some open_quali))) "Q").1)
    by (rewrite Hcalls; left).
  exists args.
  destruct (qualifying_replay_arguments digits_to_float
              (world active_race (Ok (Some open_quali)))
              (Some 2025) (Some 12) 1 "Q" true None true args Hin)
    as (Hone & Hoff & _ & Hload & _ & Hready & Htitle).
  split; [now rewrite <- Hcalls|]. split; [now rewrite <- Hcalls|].
  split; [exact Hoff|]. split; [|split; [exact Hready|exact Htitle]].
  simpl in Hload. now injection Hload as <-.
Defined.

(** X11: the race run on a session without laps returns after the error
    line. *)
Lemma normal_return_witness_empty_race :
  (run (world empty_session source_down) "R").2 = Ok tt /\
  ((exists before args,
      (run (world empty_session source_down) "R").1
        = before ++ [EvCall (CallRunArcadeReplay args)] /\
      run_arcade_replay (world empty_session source_down) args = Ok tt) \/
   (exists before args,
      (run (world empty_session source_down) "R").1
        = before ++ [EvCall (CallRunQualifyingReplay args)] /\
      run_qualifying_replay (world empty_session source_down) args = Ok tt) \/
   (exists before,
      (run (world empty_session source_down) "R").1 = before ++ [EvLog MsgNoValidLaps] /\
      handed_off (run (world empty_session source_down) "R").1 = [] /\
      handed_off_qualifying (run (world empty_session source_down) "R").1 = [])).
Proof.
  assert (Hreturns : (run (world empty_session source_down) "R").2 = Ok tt)
    by (vm_compute; reflexivity).
  split; [exact Hreturns|].
  exact (normal_return_cases digits_to_float (world empty_session source_down)
           (Some 2025) (Some 12) 1 "R" true None true Hreturns).
Defined.

(** X14: [main.py --viewer --year 2024 --round 7 --sprint --no-hud
    --ready-file /tmp/ready]. *)
Lemma viewer_call_witness_sprint_2024 :
  (2024, 7, 1, "S", false, Some "/tmp/ready")
    ∈ main_calls (Terminal.launch Extremes.sprint_2024).1 /\
  main_calls (Terminal.launch Extremes.sprint_2024).1
    = [(2024, 7, 1, "S", false, Some "/tmp/ready")] /\
  main_trace (Terminal.launch Extremes.sprint_2024).1 =
    (main digits_to_float (world active_race source_down) (Some 2024) (Some 7) 1 "S"
       false (Some "/tmp/ready") true).1.
Proof.
  assert (Hin : (2024, 7, 1, "S", false, Some "/tmp/ready")
                  ∈ main_calls (Terminal.launch Extremes.sprint_2024).1).
  { assert (Hcalls : main_calls (Terminal.launch Extremes.sprint_2024).1
                     = [(2024, 7, 1, "S", false, Some "/tmp/ready")])
      by (vm_compute; reflexivity).
    rewrite Hcalls. left. }
  split; [exact Hin|].
  destruct (viewer_call_arguments digits_to_float Terminal.digits_to_int
              (world active_race source_down) Terminal.console Extremes.sprint_2024
              2024 7 1 "S" false (Some "/tmp/ready") Hin)
    as (Hone & _ & _ & _ & _ & _ & _ & _ & _ & _ & _ & Htrace).
  split; [exact Hone|exact Htrace].
Defined.

(** X15: [main.py --viewer --list-rounds]. *)
Lemma listing_with_viewer_witness_list_rounds :
  has_flag ["main.py"; "--viewer"; "--list-rounds"] "--cli" = false /\
  has_flag ["main.py"; "--viewer"; "--list-rounds"] "--viewer" = true /\
  has_flag ["main.py"; "--viewer"; "--list-rounds"] "--list-rounds" = true /\
  Terminal.launch ["main.py"; "--viewer"; "--list-rounds"]
    = ([ScListRounds 2025], Stop (Uncaught (NameError "playback_speed"))).
Proof.
  assert (Hcli : has_flag ["main.py"; "--viewer"; "--list-rounds"] "--cli" = false)
    by reflexivity.
  assert (Hviewer : has_flag ["main.py"; "--viewer"; "--list-rounds"] "--viewer" = true)
    by reflexivity.
  assert (Hlist : has_flag ["main.py"; "--viewer"; "--list-rounds"] "--list-rounds" = true)
    by reflexivity.
  split; [exact Hcli|]. split; [exact Hviewer|]. split; [exact Hlist|].
  destruct (listing_with_viewer_never_reaches_main digits_to_float Terminal.digits_to_int
              (world active_race source_down) Terminal.console
              ["main.py"; "--viewer"; "--list-rounds"] Hcli Hviewer (or_introl Hlist))
    as (_ & _ & Hends).
  apply (Hends 2025 12).
  - left. split; reflexivity.
  - left. split; reflexivity.
  - split; reflexivity.
Defined.

(** X18: [main.py --viewer --qualifying --sprint-qualifying]. *)
Lemma qualifying_flags_witness_both_flags :
  has_flag ["main.py"; "--viewer"; "--qualifying"; "--sprint-qualifying"]
    "--sprint-qualifying" = true /\
  layout_calls
    (main_trace
       (Terminal.launch ["main.py"; "--viewer"; "--qualifying"; "--sprint-qualifying"]).1)
    = [] /\
  handed_off
    (main_trace
       (Terminal.launch ["main.py"; "--viewer"; "--qualifying"; "--sprint-qualifying"]).1)
    = [].
Proof.
  assert (Hflag : has_flag ["main.py"; "--viewer"; "--qualifying"; "--sprint-qualifying"]
                    "--sprint-qualifying" = true) by reflexivity.
  split; [exact Hflag|].
  destruct (qualifying_flags_skip_the_layout digits_to_float Terminal.digits_to_int
              (world active_race source_down) Terminal.console
              ["main.py"; "--viewer"; "--qualifying"; "--sprint-qualifying"]
              (or_introl Hflag)) as (Hcalls & Hoff & _).
  split; [exact Hcalls|exact Hoff].
Defined.

(** X19: the column [["x", 12, 10**400]], on which the function returns
    [True]. *)
Lemma inspector_exact_witness_activation_in_second_sample :
  _lap_has_drs_activation digits_to_float
    (Some (drs_only [VStr "x"; VInt 12; VInt (10 ^ 400)])) = Ok true /\
  exists drs_values value,
    drs_samples (Some (drs_only [VStr "x"; VInt 12; VInt (10 ^ 400)])) = Some drs_values /\
    value ∈ drs_values /\ activates digits_to_float value.
Proof.
  assert (Hreturns : _lap_has_drs_activation digits_to_float
                       (Some (drs_only [VStr "x"; VInt 12; VInt (10 ^ 400)])) = Ok true)
    by (vm_compute; reflexivity).
  split; [exact Hreturns|].
  now apply (inspector_answer_is_exact digits_to_float _ true Hreturns).
Defined.
